(** * Advantage-v1: the CSV ingestion, validation and aggregation pipeline

    A shallow embedding of the uploader (components/FileUpload.tsx, the
    per-stage version: [parseCSV], [handleFiles] and the handlers of an
    upload zone; and [parseCSV] of the version that takes one file with a
    stage column), of [App] (App.tsx: [calculateMetrics], the handlers and
    the choice of the view) and of what the analysis service
    (services/geminiService.ts) computes around its request, with the
    properties of the pipeline stated and proved over it.

    - JavaScript numbers are IEEE 754 binary64 values: the kernel's
      primitive [float].
    - JavaScript objects built with computed keys ([obj[name] = v]) are
      finite maps from property names to values, [gmap string JSVal]: the
      fixed properties ([date], [shotId], ...) and the columns of the
      upload share one name space, as they do in the source.
    - A string is the sequence of its code units, each below 256: the
      model is of text in the ASCII and Latin-1 range, where a code unit
      is a character.  Text with other code units has no counterpart in
      the type.
    - The objects are created by [{}] and inherit from [Object.prototype].
      Of what they inherit, only the accessor [__proto__] changes what an
      assignment of the pipeline does: under that name an assignment of a
      number or a string stores nothing ([setProperty]).
    - Arrays are lists, [push] appends at the end.
    - [throw] inside the [try] block of [parseCSV] is the [inl] summand of
      a sum, the [catch] block is the handler of [parseCSV].
    - The [useState] hooks of a component are a record, a handler is a
      function on it, and a handler runs to its end before the next
      event.  An element that leaves the tree loses its hooks. *)

From Stdlib Require Import ZArith Floats Ascii String DecimalString.
From stdpp Require Import gmap strings list fin_maps.
From Equations Require Import Equations.

Local Open Scope string_scope.
Local Open Scope list_scope.

#[local] Arguments String.append !s1 s2 : simpl nomatch.

(** ** The JavaScript runtime functions the pipeline calls *)

Module JS.

(** *** Strings *)

(** White space and line terminators, which [String.prototype.trim] and
    [parseFloat] strip: TAB, LF, VT, FF, CR, SP and the no-break space
    U+00A0.  The others ([U+FEFF], [U+2028], [U+2029], the rest of the
    class Zs) are code units above 255. *)
Definition isWhiteSpace (c : ascii) : bool :=
  match nat_of_ascii c with
  | 9 | 10 | 11 | 12 | 13 | 32 | 160 => true
  | _ => false
  end.

Fixpoint trimStart (s : string) : string :=
  match s with
  | String c s' => if isWhiteSpace c then trimStart s' else s
  | EmptyString => EmptyString
  end.

(** [trimEnd]: a character is kept when it is not white space or when
    something is kept after it. *)
Fixpoint trimEnd (s : string) : string :=
  match s with
  | String c s' =>
      match trimEnd s' with
      | EmptyString => if isWhiteSpace c then EmptyString else String c EmptyString
      | r => String c r
      end
  | EmptyString => EmptyString
  end.

Definition trim (s : string) : string := trimEnd (trimStart s).

(** [s.split(sep)] for a one-character separator: never the empty list. *)
Fixpoint split (sep : ascii) (s : string) : list string :=
  match s with
  | EmptyString => [EmptyString]
  | String c s' =>
      if Ascii.eqb c sep then EmptyString :: split sep s'
      else match split sep s' with
           | h :: t => String c h :: t
           | [] => [String c EmptyString]
           end
  end.

(** [parts.join(sep)] *)
Fixpoint join (sep : string) (l : list string) : string :=
  match l with
  | [] => EmptyString
  | [x] => x
  | x :: rest => x +:+ sep +:+ join sep rest
  end.

(** Case mapping of a code unit: [a]-[z] and the Latin-1 letters
    U+00E0-U+00FE (without the division sign U+00F7) have their upper
    case 32 below, and conversely.  Three code units have an upper case
    that is not one code unit below 256: U+00B5 and U+00FF map above the
    range and U+00DF to [SS]; they are kept.  The pipeline only compares
    upper-cased text with [DATE], [FUNNEL STAGE], [TOF], [MOF] and [BOF],
    which no text that holds one of the three equals in the source
    either. *)
Definition upperChar (c : ascii) : ascii :=
  let n := nat_of_ascii c in
  if (97 <=? n)%nat && (n <=? 122)%nat ||
     (224 <=? n)%nat && (n <=? 254)%nat && negb (n =? 247)%nat
  then ascii_of_nat (n - 32) else c.

Definition lowerChar (c : ascii) : ascii :=
  let n := nat_of_ascii c in
  if (65 <=? n)%nat && (n <=? 90)%nat ||
     (192 <=? n)%nat && (n <=? 222)%nat && negb (n =? 215)%nat
  then ascii_of_nat (n + 32) else c.

Fixpoint mapChars (f : ascii -> ascii) (s : string) : string :=
  match s with
  | String c s' => String (f c) (mapChars f s')
  | EmptyString => EmptyString
  end.

Definition toUpperCase : string -> string := mapChars upperChar.
Definition toLowerCase : string -> string := mapChars lowerChar.

(** [m.charAt(0).toUpperCase() + m.slice(1)] *)
Definition capitalize (s : string) : string :=
  match s with
  | String c s' => String (upperChar c) s'
  | EmptyString => EmptyString
  end.

(** [`${n}`] for an array length or a loop counter. *)
Definition natToString (n : nat) : string :=
  NilEmpty.string_of_uint (Nat.to_uint n).

(** *** Numbers *)

(** The Number value of a non-negative integer (exact below 2^53). *)
Definition ofZ (z : Z) : float := SF2Prim (binary_normalize prec emax z 0 false).
Definition ofNat (n : nat) : float := ofZ (Z.of_nat n).

(** The Number value nearest to [(-1)^neg * m * 10^e], ties to even. *)
Definition ofDecimal (neg : bool) (m : N) (e : Z) : float :=
  match m with
  | N0 => if neg then PrimFloat.neg_zero else PrimFloat.zero
  | Npos p =>
      let (num, den) :=
        match e with
        | Zneg k => (p, Pos.pow 10 k)
        | Z0 => (p, 1%positive)
        | Zpos k => ((p * Pos.pow 10 k)%positive, 1%positive)
        end in
      SF2Prim (SFdiv prec emax (S754_finite neg num 0) (S754_finite false den 0))
  end.

Definition isDigit (c : ascii) : bool :=
  let n := nat_of_ascii c in (48 <=? n)%nat && (n <=? 57)%nat.

Definition digitVal (c : ascii) : N := N.of_nat (nat_of_ascii c - 48).

(** The longest run of decimal digits at the head of [s]: its value read
    after [acc], how many digits it has, and what follows it. *)
Fixpoint spanDigits (acc : N) (count : nat) (s : string) : N * nat * string :=
  match s with
  | String c s' =>
      if isDigit c then spanDigits (acc * 10 + digitVal c) (S count) s'
      else (acc, count, s)
  | EmptyString => (acc, count, s)
  end.

(** [ExponentPart] at the head of [s], if there is one; 0 otherwise (the
    prefix that [parseFloat] reads then ends before the [e]). *)
Definition exponentPart (s : string) : Z :=
  match s with
  | String c s' =>
      if Ascii.eqb c "e" || Ascii.eqb c "E" then
        match s' with
        | String "-" s'' =>
            let '(v, n, _) := spanDigits 0 0 s'' in
            match n with O => 0%Z | _ => (- Z.of_N v)%Z end
        | String "+" s'' =>
            let '(v, n, _) := spanDigits 0 0 s'' in
            match n with O => 0%Z | _ => Z.of_N v end
        | _ =>
            let '(v, n, _) := spanDigits 0 0 s' in
            match n with O => 0%Z | _ => Z.of_N v end
        end
      else 0%Z
  | EmptyString => 0%Z
  end.

(** [StrUnsignedDecimalLiteral] at the head of [s]. *)
Definition unsignedLiteral (neg : bool) (s : string) : float :=
  if String.prefix "Infinity" s then (if neg then neg_infinity else infinity)
  else
    let '(ip, ni, rest) := spanDigits 0 0 s in
    match rest with
    | String "." rest' =>
        let '(m, nf, rest'') := spanDigits ip 0 rest' in
        match ni, nf with
        | O, O => nan
        | _, _ => ofDecimal neg m (exponentPart rest'' - Z.of_nat nf)
        end
    | _ =>
        match ni with
        | O => nan
        | _ => ofDecimal neg ip (exponentPart rest)
        end
    end.

(** [parseFloat(s)]: leading white space is skipped, then the longest
    prefix that is a [StrDecimalLiteral] is read; [NaN] when there is none. *)
Definition parseFloat (s : string) : float :=
  match trimStart s with
  | String "-" s' => unsignedLiteral true s'
  | String "+" s' => unsignedLiteral false s'
  | s' => unsignedLiteral false s'
  end.

Definition isNaN (x : float) : bool := PrimFloat.is_nan x.

(** *** [Number::toString], radix 10

    For a finite [x > 0] the digits are those of the integer [s] with the
    fewest digits [k] such that [s * 10^(n-k)] is read back as [x], the
    closest to [x] when there are several.  The exact value of [x] is
    [num / den]. *)

Definition exactValue (x : float) : Z * Z :=
  match Prim2SF x with
  | S754_finite _ m (Zneg e) => (Zpos m, Z.pow 2 (Zpos e))
  | S754_finite _ m e => (Zpos m * Z.pow 2 e, 1)%Z
  | _ => (0, 1)%Z
  end.

(** How often [num / den < 1/10] can be multiplied by ten before it
    reaches [1/10]. *)
Fixpoint leadingZeros (fuel : nat) (num den : Z) (j : Z) : Z :=
  match fuel with
  | O => j
  | S fuel' =>
      if (den <=? num * 10)%Z then j
      else leadingZeros fuel' (num * 10)%Z den (j + 1)%Z
  end.

(** The [n] with [10^(n-1) <= num/den < 10^n]. *)
Definition decimalExponent (num den : Z) : Z :=
  if (den <=? num)%Z
  then Z.of_nat (String.length (NilEmpty.string_of_uint (N.to_uint (Z.to_N (num / den)))))
  else (- leadingZeros 400 num den 0)%Z.

(** The candidate with [k] digits: the neighbours of [num/den] on the
    grid of step [10^(n-k)], when one of them is read back as [x]. *)
Definition candidate (x : float) (num den n : Z) (k : Z) : option Z :=
  let p := (n - k)%Z in
  let lo := if (0 <=? p)%Z then (num / (den * 10 ^ p))%Z
            else (num * 10 ^ (- p) / den)%Z in
  let hi := (lo + 1)%Z in
  let back (s : Z) := PrimFloat.eqb (ofDecimal false (Z.to_N s) p) x in
  let cmp := if (0 <=? p)%Z then (2 * num ?= (2 * lo + 1) * 10 ^ p * den)%Z
             else (2 * num * 10 ^ (- p) ?= (2 * lo + 1) * den)%Z in
  match back lo, back hi with
  | true, true =>
      match cmp with
      | Lt => Some lo
      | Gt => Some hi
      | Eq => Some (if Z.even lo then lo else hi)
      end
  | true, false => Some lo
  | false, true => Some hi
  | false, false => None
  end.

Fixpoint shortest (fuel : nat) (x : float) (num den n : Z) (k : Z) : Z * Z :=
  match fuel with
  | O => (0, k)%Z
  | S fuel' =>
      match candidate x num den n k with
      | Some s => (s, k)
      | None => shortest fuel' x num den n (k + 1)%Z
      end
  end.

Fixpoint zeros (n : nat) : string :=
  match n with
  | O => EmptyString
  | S n' => String "0" (zeros n')
  end.

Definition formatDigits (ds : string) (n : Z) : string :=
  let k := Z.of_nat (String.length ds) in
  if (k <=? n)%Z && (n <=? 21)%Z then ds +:+ zeros (Z.to_nat (n - k))
  else if (0 <? n)%Z && (n <=? 21)%Z then
    String.substring 0 (Z.to_nat n) ds +:+ "." +:+
    String.substring (Z.to_nat n) (String.length ds - Z.to_nat n) ds
  else if (-6 <? n)%Z && (n <=? 0)%Z then "0." +:+ zeros (Z.to_nat (- n)) +:+ ds
  else
    let e := (n - 1)%Z in
    let es := (if (e <? 0)%Z then "-" else "+") +:+
              NilEmpty.string_of_uint (N.to_uint (Z.to_N (Z.abs e))) in
    match ds with
    | String d EmptyString => String d ("e" +:+ es)
    | String d rest => String d ("." +:+ rest +:+ "e" +:+ es)
    | EmptyString => EmptyString
    end.

Definition positiveToString (x : float) : string :=
  if PrimFloat.eqb x infinity then "Infinity"
  else
    let (num, den) := exactValue x in
    let n := decimalExponent num den in
    let (s, k) := shortest 17 x num den n 1 in
    if (s =? 10 ^ k)%Z then formatDigits "1" (n + 1)
    else formatDigits (NilEmpty.string_of_uint (N.to_uint (Z.to_N s))) n.

Definition numberToString (x : float) : string :=
  if PrimFloat.is_nan x then "NaN"
  else if PrimFloat.eqb x 0 then "0"
  else if PrimFloat.ltb x 0 then "-" +:+ positiveToString (- x)
  else positiveToString x.

(** *** More strings: the tests of [handleFiles] and of the analysis
    service *)

(** [s.startsWith(searchString)] *)
Definition startsWith (s searchString : string) : bool :=
  String.prefix searchString s.

(** [s.endsWith(suffix)] *)
Definition endsWith (s suffix : string) : bool :=
  let n := String.length s in
  let m := String.length suffix in
  (m <=? n)%nat && (String.substring (n - m) m s =? suffix)%string.

(** [s.includes(searchString)] *)
Fixpoint includes (s searchString : string) : bool :=
  String.prefix searchString s ||
  match s with
  | String _ s' => includes s' searchString
  | EmptyString => false
  end.

End JS.

(** ** Values and objects *)

(** The values the records of the pipeline hold: [string | number]. *)
Inductive JSVal : Type :=
  | VStr (s : string)
  | VNum (x : float).

(** An object literal [{}] filled by assignments. A property that was
    never assigned reads as [undefined], here [None]. *)
Abbreviation Obj := (gmap string JSVal).

(** [`${v}`] inside a template literal. *)
Definition toStr (v : option JSVal) : string :=
  match v with
  | Some (VStr s) => s
  | Some (VNum x) => JS.numberToString x
  | None => "undefined"
  end.

(** [v ?? d] read where the interfaces of types.ts declare a [number].
    The objects that [parseCSV] builds hold a number or nothing under
    every key read this way ([dailyData_numbers], [shots_numbers]); a
    string there is outside the declared types and is read as [NaN]. *)
Definition numberOr (d : float) (v : option JSVal) : float :=
  match v with
  | Some (VNum x) => x
  | Some (VStr _) => nan
  | None => d
  end.

(** [obj[k] = v] where [v] may be [undefined]: a property that holds
    [undefined] reads like one that is absent. *)
Definition assign (k : string) (v : option JSVal) (obj : Obj) : Obj :=
  match v with
  | Some x => <[k := x]> obj
  | None => delete k obj
  end.

(** [obj[key] = v] with a computed key and a [v] that is a number or a
    string.  Every object of the pipeline inherits the accessor
    [__proto__], whose setter ignores such a value: under that key the
    assignment stores nothing, under any other it creates or overwrites
    a property of the object. *)
Definition setProperty (key : string) (v : JSVal) (obj : Obj) : Obj :=
  if (key =? "__proto__")%string then obj else <[key := v]> obj.

(** [type FunnelStageContext = 'TOF' | 'MOF' | 'BOF'] *)
Inductive FunnelStageContext : Type := TOF | MOF | BOF.

#[global] Instance FunnelStageContext_eq_dec : EqDecision FunnelStageContext.
Proof. solve_decision. Defined.

Definition stageName (stage : FunnelStageContext) : string :=
  match stage with
  | TOF => "TOF"
  | MOF => "MOF"
  | BOF => "BOF"
  end.

(** The line feed character. *)
Definition LF : ascii := ascii_of_nat 10.
Definition newline : string := String LF EmptyString.

(** [arr.forEach((x, index) => ...)] over a state that the callback
    updates. *)
Fixpoint forEachFrom {A St : Type} (f : St -> nat -> A -> St)
    (index : nat) (arr : list A) (st : St) : St :=
  match arr with
  | [] => st
  | x :: rest => forEachFrom f (S index) rest (f st index x)
  end.

Definition forEach {A St : Type} (f : St -> nat -> A -> St)
    (arr : list A) (st : St) : St :=
  forEachFrom f 0 arr st.

(** [arr.forEach] with a callback that can throw: [inl] ends the loop. *)
Fixpoint forEachFromE {A St : Type} (f : St -> nat -> A -> string + St)
    (index : nat) (arr : list A) (st : St) : string + St :=
  match arr with
  | [] => inr st
  | x :: rest =>
      match f st index x with
      | inl msg => inl msg
      | inr st' => forEachFromE f (S index) rest st'
      end
  end.

Definition forEachE {A St : Type} (f : St -> nat -> A -> string + St)
    (arr : list A) (st : St) : string + St :=
  forEachFromE f 0 arr st.

(** A value used as a condition. *)
Definition truthy (v : option JSVal) : bool :=
  match v with
  | Some (VStr s) => negb (s =? "")%string
  | Some (VNum x) => negb ((x =? 0)%float || PrimFloat.is_nan x)
  | None => false
  end.

(** The [File] objects of a [FileList], each with the text that
    [FileReader.readAsText] hands to [onload]. *)
Module DOM.

Record File : Type := mkFile {
  type : string;
  name : string;
  contents : string
}.

End DOM.

(** ** components/FileUpload.tsx *)

Module FileUpload.

Definition requiredMetricNames : list string :=
  ["cpm"; "ctr"; "reach"; "link clicks"; "landing page views"; "add to carts";
   "initiate checkout"; "conversions"; "cpa"; "roas"; "ad spent"; "ad frequency"].

(** The header check: one message naming every required column that is
    missing, pushed on [validationErrors]. *)
Definition headerCheck (metricNames : list string) (validationErrors : list string)
    : list string :=
  let presentHeadersLowerCase : gset string :=
    list_to_set (map JS.toLowerCase metricNames) in
  let missingRequired :=
    List.filter (fun req => negb (bool_decide (req ∈ presentHeadersLowerCase)))
                requiredMetricNames in
  if (0 <? length missingRequired)%nat then
    validationErrors ++
      ["Missing required columns in header: " +:+
       JS.join ", " (map JS.capitalize missingRequired) +:+
       ". Please ensure they are present."]
  else validationErrors.

(** The callback of [metricNames.forEach] inside the row loop. Its state:
    [dailyEntry], [rowHasValidMetricData], [validationErrors]. *)
Definition metricStep (parts : list string) (dateStr : string)
    (st : Obj * bool * list string) (colIndex : nat) (headerName : string)
    : Obj * bool * list string :=
  let '(dailyEntry, rowHasValidMetricData, validationErrors) := st in
  let valueStr := parts !! (colIndex + 1)%nat in
  let parsedValue :=
    match valueStr with
    | Some v => JS.parseFloat v
    | None => nan
    end in
  if negb (JS.isNaN parsedValue) then
    (setProperty headerName (VNum parsedValue) dailyEntry, true, validationErrors)
  else
    match valueStr with
    | Some (String c v as valueStr) =>
        (setProperty headerName (VNum 0) dailyEntry, rowHasValidMetricData,
         validationErrors ++
           ["Date " +:+ dateStr +:+ ", Column '" +:+ headerName +:+
            "': Expected a number, but received '" +:+ valueStr +:+ "'."])
    | _ => (setProperty headerName (VNum 0) dailyEntry, rowHasValidMetricData,
            validationErrors)
    end.

(** [line.split(',').map(p => p.trim())] *)
Definition fields (line : string) : list string :=
  map JS.trim (JS.split "," line).

(** The callback of [lines.slice(1).forEach]. Its state: [dailyData] and
    [validationErrors]. *)
Definition rowStep (rawHeaders metricNames : list string)
    (st : list Obj * list string) (rowIndex : nat) (line : string)
    : list Obj * list string :=
  let '(dailyData, validationErrors) := st in
  let parts := fields line in
  match parts with
  | [] => st
  | dateStr :: _ =>
      if forallb (fun p => (p =? "")%string) parts then st
      else if negb (length parts =? length rawHeaders)%nat then
        (dailyData,
         validationErrors ++
           ["Row " +:+ JS.natToString (rowIndex + 2) +:+
            ": Mismatched number of columns. Expected " +:+
            JS.natToString (length rawHeaders) +:+ ", got " +:+
            JS.natToString (length parts) +:+ "."])
      else
        let dailyEntry : Obj := <["date" := VStr dateStr]> ∅ in
        let '(dailyEntry, rowHasValidMetricData, validationErrors) :=
          forEach (metricStep parts dateStr) metricNames
                  (dailyEntry, false, validationErrors) in
        if rowHasValidMetricData then (dailyData ++ [dailyEntry], validationErrors)
        else (dailyData, validationErrors)
  end.

Definition pushIf (cond : bool) (msg : string) (validationErrors : list string)
    : list string :=
  if cond then validationErrors ++ [msg] else validationErrors.

(** The callback of [dailyData.forEach]: the cross-metric checks of one
    day. *)
Definition rangeStep (validationErrors : list string) (day : Obj) : list string :=
  let date := toStr (day !! "date") in
  let adSpent := numberOr 0 (day !! "Ad spent") in
  let conversions := numberOr 0 (day !! "Conversions") in
  let linkClicks := numberOr 0 (day !! "LINK CLICKS") in
  let reach := numberOr 0 (day !! "REACH") in
  let ctr := numberOr 0 (day !! "CTR") in
  let roas := numberOr 0 (day !! "ROAS") in
  let adFrequency := numberOr 0 (day !! "AD FREQUENCY") in
  let validationErrors :=
    pushIf (adSpent <? 0)%float
      ("Date " +:+ date +:+ ": 'Ad spent' cannot be negative.") validationErrors in
  let validationErrors :=
    pushIf (conversions <? 0)%float
      ("Date " +:+ date +:+ ": 'Conversions' cannot be negative.") validationErrors in
  let validationErrors :=
    pushIf (linkClicks <? 0)%float
      ("Date " +:+ date +:+ ": 'LINK CLICKS' cannot be negative.") validationErrors in
  let validationErrors :=
    pushIf (reach <? 0)%float
      ("Date " +:+ date +:+ ": 'REACH' cannot be negative.") validationErrors in
  let validationErrors :=
    pushIf (adFrequency <? 0)%float
      ("Date " +:+ date +:+ ": 'AD FREQUENCY' cannot be negative.") validationErrors in
  let validationErrors :=
    pushIf ((0 <? linkClicks)%float && (0 <? reach)%float && (reach <? linkClicks)%float)
      ("Date " +:+ date +:+ ": Logical error - 'LINK CLICKS' (" +:+
       JS.numberToString linkClicks +:+ ") exceed 'REACH' (" +:+
       JS.numberToString reach +:+ ").") validationErrors in
  let validationErrors :=
    pushIf ((ctr <? 0)%float || (1 <? ctr)%float)
      ("Date " +:+ date +:+ ": 'CTR' (" +:+ JS.numberToString ctr +:+
       ") is outside a plausible decimal range (0-1).") validationErrors in
  let validationErrors :=
    pushIf (roas <? 0)%float
      ("Date " +:+ date +:+ ": 'ROAS' (" +:+ JS.numberToString roas +:+
       ") cannot be negative.") validationErrors in
  validationErrors.

(** What [parseCSV] has computed when it reaches the test
    [validationErrors.length > 0]. *)
Record Validated : Type := mkValidated {
  metricNames : list string;
  dailyData : list Obj;
  validationErrors : list string
}.

(** [text.trim().split('\n').filter(line => line.trim() !== '')] *)
Definition nonBlankLines (text : string) : list string :=
  List.filter (fun line => negb (JS.trim line =? "")%string)
              (JS.split LF (JS.trim text)).

(** [lines.slice(1).forEach(...)], started with no daily entry. *)
Definition rowLoop (rawHeaders metricNames : list string)
    (dataLines : list string) (validationErrors : list string)
    : list Obj * list string :=
  forEach (rowStep rawHeaders metricNames) dataLines ([], validationErrors).

(** The [try] block up to that test; [inl msg] is [throw new Error(msg)]. *)
Definition validate (text : string) : string + Validated :=
  let lines := nonBlankLines text in
  if (length lines <? 2)%nat then
    inl "File appears empty or invalid. Expected at least a header row and one data row."
  else
    match lines with
    | [] => inl "File appears empty or invalid. Expected at least a header row and one data row."
    | header :: dataLines =>
        let rawHeaders := fields header in
        match rawHeaders with
        | [] => inl "Invalid CSV header. Expected 'DATE' as the first column header."
        | first :: metricNames =>
            if negb (JS.toUpperCase first =? "DATE")%string then
              inl "Invalid CSV header. Expected 'DATE' as the first column header."
            else if (length metricNames =? 0)%nat then
              inl "No metric columns found in the header row."
            else
              let validationErrors := headerCheck metricNames [] in
              let '(dailyData, validationErrors) :=
                rowLoop rawHeaders metricNames dataLines validationErrors in
              let validationErrors := fold_left rangeStep dailyData validationErrors in
              inr (mkValidated metricNames dailyData validationErrors)
        end
    end.

(** The message thrown when [validationErrors] is not empty. *)
Definition errorMsg (validationErrors : list string) : string :=
  let limit := 5%nat in
  let remaining := (Z.of_nat (length validationErrors) - Z.of_nat limit)%Z in
  JS.join newline (take limit validationErrors) +:+
  (if (0 <? remaining)%Z
   then newline +:+ "...and " +:+ JS.natToString (Z.to_nat remaining) +:+ " more errors."
   else "").

(** [daysInShot.reduce((acc, day) => acc + (day[metricName] ?? 0), 0)]
    for a [metricName] that a day holds as a property of its own or not
    at all.  Under [__proto__], which no day holds, the source reads the
    object that every day inherits, and the sum is a string; the loop
    assigns its quotient under [__proto__], which stores nothing. *)
Definition metricSum (metricName : string) (daysInShot : list Obj) : float :=
  fold_left (fun acc day => (acc + numberOr 0 (day !! metricName))%float)
            daysInShot 0%float.

(** The body of the aggregation loop once [daysInShot] is known not to
    be empty: [first] and [last] are [daysInShot[0]] and
    [daysInShot[daysInShot.length - 1]]. *)
Definition makeShot (metricNames : list string) (stage : FunnelStageContext)
    (shotId : string) (daysInShot : list Obj) (first last : Obj) : Obj :=
  let shotEntry : Obj := ∅ in
  let shotEntry := <["shotId" := VStr shotId]> shotEntry in
  let shotEntry := assign "startDate" (first !! "date") shotEntry in
  let shotEntry := assign "endDate" (last !! "date") shotEntry in
  let shotEntry := <["numDaysInShot" := VNum (JS.ofNat (length daysInShot))]> shotEntry in
  let shotEntry := <["funnelStage" := VStr (stageName stage)]> shotEntry in
  fold_left
    (fun shotEntry metricName =>
       let sum := metricSum metricName daysInShot in
       setProperty metricName (VNum (sum / JS.ofNat (length daysInShot))%float)
                   shotEntry)
    metricNames shotEntry.

(** [for (let i = 0; i < numDays; i += 3) { ... }], entered at [i] with
    the shots pushed so far. *)
Equations shotLoop (metricNames : list string) (stage : FunnelStageContext)
    (dailyData : list Obj) (i : nat) (shotData : list Obj) : list Obj
    by wf (length dailyData - i)%nat lt :=
  shotLoop metricNames stage dailyData i shotData
    with decide (i < length dailyData)%nat := {
    | right _ => shotData
    | left _ =>
        let shotNumber := (i / 3 + 1)%nat in
        let shotId := stageName stage +:+ "-Shot " +:+ JS.natToString shotNumber in
        let daysInShot := take 3 (drop i dailyData) in
        match daysInShot with
        | [] => shotLoop metricNames stage dailyData (i + 3)%nat shotData
        | first :: _ =>
            let lastDay := List.last daysInShot first in
            shotLoop metricNames stage dailyData (i + 3)%nat
              (shotData ++
               [makeShot metricNames stage shotId daysInShot first lastDay])
        end }.
Next Obligation. lia. Qed.
Next Obligation. lia. Qed.

Definition aggregate (metricNames : list string) (stage : FunnelStageContext)
    (dailyData : list Obj) : list Obj :=
  shotLoop metricNames stage dailyData 0 [].

(** [s.funnelStage !== stage] *)
Definition otherStage (stage : FunnelStageContext) (s : Obj) : bool :=
  match s !! "funnelStage" with
  | Some (VStr name) => negb (name =? stageName stage)%string
  | _ => true
  end.

(** [[...accumulatedShots.filter(s => s.funnelStage !== stage), ...shotData]] *)
Definition mergeShots (stage : FunnelStageContext)
    (accumulatedShots shotData : list Obj) : list Obj :=
  List.filter (otherStage stage) accumulatedShots ++ shotData.

(** The [try] block of [parseCSV]: the message thrown, or
    [newAccumulatedShots]. *)
Definition tryBlock (text : string) (stage : FunnelStageContext)
    (accumulatedShots : list Obj) : string + list Obj :=
  match validate text with
  | inl msg => inl msg
  | inr v =>
      if (0 <? length (validationErrors v))%nat then
        inl (errorMsg (validationErrors v))
      else if (length (dailyData v) =? 0)%nat then
        inl "No valid daily performance data rows could be parsed."
      else
        let shotData := aggregate (metricNames v) stage (dailyData v) in
        if (length shotData =? 0)%nat then
          inl "No valid 3-day performance shots could be aggregated."
        else inr (mergeShots stage accumulatedShots shotData)
  end.

(** The state of the component. *)
Record State : Type := mkState {
  errors : gmap string string;
  uploadedStages : gmap string bool;
  accumulatedShots : list Obj
}.

(** [err.message || "Failed to parse CSV."] *)
Definition messageOr (msg : string) : string :=
  match msg with
  | EmptyString => "Failed to parse CSV."
  | _ => msg
  end.

(** [parseCSV(text, stage)]: the next state of the component, and the
    argument of the call [onDataLoaded(...)] when it is made. *)
Definition parseCSV (text : string) (stage : FunnelStageContext) (st : State)
    : State * option (list Obj) :=
  match tryBlock text stage (accumulatedShots st) with
  | inr newAccumulatedShots =>
      (mkState (<[stageName stage := ""]> (errors st))
               (<[stageName stage := true]> (uploadedStages st))
               newAccumulatedShots,
       Some newAccumulatedShots)
  | inl msg =>
      (mkState (<[stageName stage := messageOr msg]> (errors st))
               (uploadedStages st)
               (accumulatedShots st),
       None)
  end.

(** The [onClick] handler of "Remove / Re-upload" in [UploadZone]. *)
Definition removeStage (stage : FunnelStageContext) (st : State)
    : State * option (list Obj) :=
  let newAccumulated := List.filter (otherStage stage) (accumulatedShots st) in
  (mkState (errors st)
           (<[stageName stage := false]> (uploadedStages st))
           newAccumulated,
   Some newAccumulated).

(** The template offered for download. *)
Definition templateHeaders : string :=
  "DATE,CPM,CTR,REACH,LINK CLICKS,Landing page views,Add to carts,initiate checkout,Conversions,CPA,ROAS,Ad spent,AD FREQUENCY".
Definition templateData1 : string :=
  "1 Mar,10.50,0.02,50000,1000,500,50,30,10,15.00,3.50,150.00,1.8".
Definition templateData2 : string :=
  "2 Mar,11.20,0.025,55000,1375,600,65,40,12,12.50,4.00,150.00,2.1".
Definition templateData3 : string :=
  "3 Mar,9.80,0.018,48000,864,450,40,25,8,18.75,3.20,150.00,1.9".
Definition templateContent : string :=
  templateHeaders +:+ newline +:+ templateData1 +:+ newline +:+
  templateData2 +:+ newline +:+ templateData3.

(** The three [useState] hooks as the component is mounted. *)
Definition initialState : State := mkState ∅ ∅ [].

(** [handleFiles(files, stage)]. Only the first file is looked at; the
    reader is taken to deliver its text, and [onload] to run before any
    other event of the component. *)
Definition handleFiles (files : option (list DOM.File))
    (stage : FunnelStageContext) (st : State) : State * option (list Obj) :=
  match files with
  | None | Some [] => (st, None)
  | Some (file :: _) =>
      if negb (DOM.type file =? "text/csv")%string &&
         negb (JS.endsWith (DOM.name file) ".csv")
      then
        (mkState (<[stageName stage := "Please upload a CSV file."]> (errors st))
                 (uploadedStages st) (accumulatedShots st),
         None)
      else parseCSV (DOM.contents file) stage st
  end.

(** [const isUploaded = uploadedStages[stage]] in [UploadZone], as the
    conditions of the JSX read it. *)
Definition isUploaded (stage : FunnelStageContext) (st : State) : bool :=
  match uploadedStages st !! stageName stage with
  | Some b => b
  | None => false
  end.

(** The events of an [UploadZone] that reach a handler: a drop on the
    zone, a choice in the file input, a click on "Remove / Re-upload". *)
Inductive Event : Type :=
  | DropFiles (files : option (list DOM.File)) (stage : FunnelStageContext)
  | SelectFiles (files : option (list DOM.File)) (stage : FunnelStageContext)
  | ClickRemove (stage : FunnelStageContext).

(** The zone takes a drop in every state; the file input is rendered
    when the stage is not uploaded, the button when it is. *)
Definition handle (e : Event) (st : State) : State * option (list Obj) :=
  match e with
  | DropFiles files stage => handleFiles files stage st
  | SelectFiles files stage =>
      if isUploaded stage st then (st, None) else handleFiles files stage st
  | ClickRemove stage =>
      if isUploaded stage st then removeStage stage st else (st, None)
  end.

End FileUpload.

(** ** src/components/FileUpload.tsx: the uploader of one file, which
    reads the stage of each day from a [FUNNEL STAGE] column *)

Module FileUploadSingle.

Import FileUpload.

Definition requiredMetricNames : list string :=
  ["cpm"; "ctr"; "reach"; "link clicks"; "landing page views"; "add to carts";
   "initiate checkout"; "conversions"; "cpa"; "roas"; "ad spent"; "ad frequency";
   "funnel stage"].

Definition headerCheck (metricAndFunnelNames : list string)
    (validationErrors : list string) : list string :=
  let presentHeadersLowerCase : gset string :=
    list_to_set (map JS.toLowerCase metricAndFunnelNames) in
  let missingRequired :=
    List.filter (fun req => negb (bool_decide (req ∈ presentHeadersLowerCase)))
                requiredMetricNames in
  if (0 <? length missingRequired)%nat then
    validationErrors ++
      ["Missing required columns in header: " +:+
       JS.join ", " (map JS.capitalize missingRequired) +:+
       ". Please ensure they are present."]
  else validationErrors.

(** [stage === 'TOF' || stage === 'MOF' || stage === 'BOF'] *)
Definition isStage (stage : string) : bool :=
  (stage =? "TOF")%string || (stage =? "MOF")%string || (stage =? "BOF")%string.

(** The message of the [TypeError] of [valueStr.toUpperCase()] for a
    [valueStr] that is [undefined]. *)
Definition undefinedToUpperCase : string :=
  "Cannot read properties of undefined (reading 'toUpperCase')".

(** The callback of [metricAndFunnelNames.forEach] inside the row loop. *)
Definition metricStep (parts : list string) (dateStr : string)
    (st : Obj * bool * list string) (colIndex : nat) (headerName : string)
    : string + (Obj * bool * list string) :=
  let '(dailyEntry, rowHasValidMetricData, validationErrors) := st in
  let valueStr := parts !! (colIndex + 1)%nat in
  if (JS.toUpperCase headerName =? "FUNNEL STAGE")%string then
    match valueStr with
    | None => inl undefinedToUpperCase
    | Some valueStr =>
        let stage := JS.toUpperCase valueStr in
        if isStage stage then
          inr (<["FUNNEL STAGE" := VStr stage]> dailyEntry, rowHasValidMetricData,
               validationErrors)
        else
          inr (<["FUNNEL STAGE" := VStr "UNKNOWN"]> dailyEntry, rowHasValidMetricData,
               validationErrors ++
                 ["Date " +:+ dateStr +:+ ", Column '" +:+ headerName +:+
                  "': Invalid funnel stage '" +:+ valueStr +:+
                  "'. Expected TOF, MOF, or BOF."])
    end
  else
    let parsedValue :=
      match valueStr with
      | Some v => JS.parseFloat v
      | None => nan
      end in
    if negb (JS.isNaN parsedValue) then
      inr (setProperty headerName (VNum parsedValue) dailyEntry, true,
           validationErrors)
    else
      match valueStr with
      | Some (String c v as valueStr) =>
          inr (setProperty headerName (VNum 0) dailyEntry, rowHasValidMetricData,
               validationErrors ++
                 ["Date " +:+ dateStr +:+ ", Column '" +:+ headerName +:+
                  "': Expected a number, but received '" +:+ valueStr +:+ "'."])
      | _ => inr (setProperty headerName (VNum 0) dailyEntry,
                  rowHasValidMetricData, validationErrors)
      end.

(** The callback of [lines.slice(1).forEach]. *)
Definition rowStep (rawHeaders metricAndFunnelNames : list string)
    (st : list Obj * list string) (rowIndex : nat) (line : string)
    : string + (list Obj * list string) :=
  let '(dailyData, validationErrors) := st in
  let parts := fields line in
  match parts with
  | [] => inr st
  | dateStr :: _ =>
      if forallb (fun p => (p =? "")%string) parts then inr st
      else if negb (length parts =? length rawHeaders)%nat then
        inr (dailyData,
             validationErrors ++
               ["Row " +:+ JS.natToString (rowIndex + 2) +:+
                ": Mismatched number of columns. Expected " +:+
                JS.natToString (length rawHeaders) +:+ ", got " +:+
                JS.natToString (length parts) +:+ "."])
      else
        let dailyEntry : Obj := <["date" := VStr dateStr]> ∅ in
        match forEachE (metricStep parts dateStr) metricAndFunnelNames
                       (dailyEntry, false, validationErrors) with
        | inl msg => inl msg
        | inr (dailyEntry, rowHasValidMetricData, validationErrors) =>
            if rowHasValidMetricData || truthy (dailyEntry !! "FUNNEL STAGE")
            then inr (dailyData ++ [dailyEntry], validationErrors)
            else inr (dailyData, validationErrors)
        end
  end.

(** The callback of [dailyData.forEach]: the checks of one day. *)
Definition rangeStep (validationErrors : list string) (day : Obj) : list string :=
  let date := toStr (day !! "date") in
  let adSpent := numberOr 0 (day !! "Ad spent") in
  let conversions := numberOr 0 (day !! "Conversions") in
  let linkClicks := numberOr 0 (day !! "LINK CLICKS") in
  let reach := numberOr 0 (day !! "REACH") in
  let ctr := numberOr 0 (day !! "CTR") in
  let roas := numberOr 0 (day !! "ROAS") in
  let adFrequency := numberOr 0 (day !! "AD FREQUENCY") in
  let funnelStage := day !! "FUNNEL STAGE" in
  let validationErrors :=
    pushIf (negb (truthy funnelStage) ||
            negb (match funnelStage with
                  | Some (VStr stage) => isStage stage
                  | _ => false
                  end))
      ("Date " +:+ date +:+
       ": 'FUNNEL STAGE' is missing or invalid. Expected TOF, MOF, or BOF.")
      validationErrors in
  let validationErrors :=
    pushIf (adSpent <? 0)%float
      ("Date " +:+ date +:+ ": 'Ad spent' cannot be negative.") validationErrors in
  let validationErrors :=
    pushIf (conversions <? 0)%float
      ("Date " +:+ date +:+ ": 'Conversions' cannot be negative.") validationErrors in
  let validationErrors :=
    pushIf (linkClicks <? 0)%float
      ("Date " +:+ date +:+ ": 'LINK CLICKS' cannot be negative.") validationErrors in
  let validationErrors :=
    pushIf (reach <? 0)%float
      ("Date " +:+ date +:+ ": 'REACH' cannot be negative.") validationErrors in
  let validationErrors :=
    pushIf (adFrequency <? 0)%float
      ("Date " +:+ date +:+ ": 'AD FREQUENCY' cannot be negative.") validationErrors in
  let validationErrors :=
    pushIf ((0 <? linkClicks)%float && (0 <? reach)%float && (reach <? linkClicks)%float)
      ("Date " +:+ date +:+ ": Logical error - 'LINK CLICKS' (" +:+
       JS.numberToString linkClicks +:+ ") exceed 'REACH' (" +:+
       JS.numberToString reach +:+ ").") validationErrors in
  let validationErrors :=
    pushIf ((ctr <? 0)%float || (1 <? ctr)%float)
      ("Date " +:+ date +:+ ": 'CTR' (" +:+ JS.numberToString ctr +:+
       ") is outside a plausible decimal range (0-1). Please check if it's a percentage (e.g., 2% should be 0.02).")
      validationErrors in
  let validationErrors :=
    pushIf (roas <? 0)%float
      ("Date " +:+ date +:+ ": 'ROAS' (" +:+ JS.numberToString roas +:+
       ") cannot be negative.") validationErrors in
  validationErrors.

(** The [try] block up to the test [validationErrors.length > 0]. *)
Definition validate (text : string) : string + Validated :=
  let lines := nonBlankLines text in
  if (length lines <? 2)%nat then
    inl "File appears empty or invalid. Expected at least a header row and one data row."
  else
    match lines with
    | [] => inl "File appears empty or invalid. Expected at least a header row and one data row."
    | header :: dataLines =>
        let rawHeaders := fields header in
        match rawHeaders with
        | [] => inl "Invalid CSV header. Expected 'DATE' as the first column header."
        | first :: metricAndFunnelNames =>
            if negb (JS.toUpperCase first =? "DATE")%string then
              inl "Invalid CSV header. Expected 'DATE' as the first column header."
            else if (length metricAndFunnelNames =? 0)%nat then
              inl "No metric or funnel stage columns found in the header row."
            else
              let validationErrors := headerCheck metricAndFunnelNames [] in
              match forEachE (rowStep rawHeaders metricAndFunnelNames) dataLines
                             ([], validationErrors) with
              | inl msg => inl msg
              | inr (dailyData, validationErrors) =>
                  let validationErrors :=
                    fold_left rangeStep dailyData validationErrors in
                  inr (mkValidated metricAndFunnelNames dailyData validationErrors)
              end
        end
    end.

(** [metricAndFunnelNames.filter(name => name.toUpperCase() !== 'FUNNEL STAGE')] *)
Definition metricsToAverage (metricAndFunnelNames : list string) : list string :=
  List.filter (fun name => negb (JS.toUpperCase name =? "FUNNEL STAGE")%string)
              metricAndFunnelNames.

(** [{ TOF: 0, MOF: 0, BOF: 0 }]: the keys in the order of [Object.keys]. *)
Definition initialCounts : list (string * nat) :=
  [("TOF", 0%nat); ("MOF", 0%nat); ("BOF", 0%nat)].

(** [stageCounts[stage] = (stageCounts[stage] || 0) + 1] *)
Definition increment (stage : string) (stageCounts : list (string * nat))
    : list (string * nat) :=
  map (fun '(key, count) =>
         if (key =? stage)%string then (key, (count + 1)%nat) else (key, count))
      stageCounts.

(** The callback of [daysInShot.forEach] that counts the stages. *)
Definition countStep (stageCounts : list (string * nat)) (day : Obj)
    : list (string * nat) :=
  match day !! "FUNNEL STAGE" with
  | Some (VStr stage) =>
      if (stage =? "TOF")%string || (stage =? "MOF")%string || (stage =? "BOF")%string
      then increment stage stageCounts
      else stageCounts
  | _ => stageCounts
  end.

(** The body of [for (const stage of Object.keys(stageCounts))]; its
    state is [predominantStage] and [maxCount]. *)
Definition voteStep (st : string * nat) (entry : string * nat) : string * nat :=
  let '(predominantStage, maxCount) := st in
  let '(stage, count) := entry in
  if (maxCount <? count)%nat then (stage, count) else (predominantStage, maxCount).

Definition predominantStage (daysInShot : list Obj) : string :=
  let stageCounts := fold_left countStep daysInShot initialCounts in
  fst (fold_left voteStep stageCounts ("TOF", 0%nat)).

(** The body of the aggregation loop for a [daysInShot] that is not
    empty. *)
Definition makeShot (metricAndFunnelNames : list string) (shotId : string)
    (daysInShot : list Obj) (first last : Obj) : Obj :=
  let shotEntry : Obj := ∅ in
  let shotEntry := <["shotId" := VStr shotId]> shotEntry in
  let shotEntry := assign "startDate" (first !! "date") shotEntry in
  let shotEntry := assign "endDate" (last !! "date") shotEntry in
  let shotEntry := <["numDaysInShot" := VNum (JS.ofNat (length daysInShot))]> shotEntry in
  let shotEntry := <["funnelStage" := VStr (predominantStage daysInShot)]> shotEntry in
  fold_left
    (fun shotEntry metricName =>
       let sum := metricSum metricName daysInShot in
       setProperty metricName (VNum (sum / JS.ofNat (length daysInShot))%float)
                   shotEntry)
    (metricsToAverage metricAndFunnelNames) shotEntry.

(** [for (let i = 0; i < numDays; i += 3) { ... }] *)
Equations shotLoop (metricAndFunnelNames : list string)
    (dailyData : list Obj) (i : nat) (shotData : list Obj) : list Obj
    by wf (length dailyData - i)%nat lt :=
  shotLoop metricAndFunnelNames dailyData i shotData
    with decide (i < length dailyData)%nat := {
    | right _ => shotData
    | left _ =>
        let shotNumber := (i / 3 + 1)%nat in
        let shotId := "Shot " +:+ JS.natToString shotNumber in
        let daysInShot := take 3 (drop i dailyData) in
        match daysInShot with
        | [] => shotLoop metricAndFunnelNames dailyData (i + 3)%nat shotData
        | first :: _ =>
            let lastDay := List.last daysInShot first in
            shotLoop metricAndFunnelNames dailyData (i + 3)%nat
              (shotData ++
               [makeShot metricAndFunnelNames shotId daysInShot first lastDay])
        end }.
Next Obligation. lia. Qed.
Next Obligation. lia. Qed.

Definition aggregate (metricAndFunnelNames : list string) (dailyData : list Obj)
    : list Obj :=
  shotLoop metricAndFunnelNames dailyData 0 [].

(** The [try] block: the message thrown, or [shotData]. *)
Definition tryBlock (text : string) : string + list Obj :=
  match validate text with
  | inl msg => inl msg
  | inr v =>
      if (0 <? length (validationErrors v))%nat then
        inl (errorMsg (validationErrors v))
      else if (length (dailyData v) =? 0)%nat then
        inl "No valid daily performance data rows could be parsed."
      else
        let shotData := aggregate (metricNames v) (dailyData v) in
        if (length shotData =? 0)%nat then
          inl "No valid 3-day performance shots could be aggregated."
        else inr shotData
  end.

(** [parseCSV(text)]: the next value of the hook [error], and the
    argument of the call [onDataLoaded(...)] when it is made. *)
Definition parseCSV (text : string) (error : option string)
    : option string * option (list Obj) :=
  match tryBlock text with
  | inr shotData => (None, Some shotData)
  | inl msg => (Some (messageOr msg), None)
  end.

(** The template offered for download. *)
Definition templateHeaders : string :=
  "DATE,CPM,CTR,REACH,LINK CLICKS,Landing page views,Add to carts,initiate checkout,Conversions,CPA,ROAS,Ad spent,AD FREQUENCY,FUNNEL STAGE".
Definition templateData1 : string :=
  "1 Mar,10.50,0.02,50000,1000,500,50,30,10,15.00,3.50,150.00,1.8,TOF".
Definition templateData2 : string :=
  "2 Mar,11.20,0.025,55000,1375,600,65,40,12,12.50,4.00,150.00,2.1,TOF".
Definition templateData3 : string :=
  "3 Mar,9.80,0.018,48000,864,450,40,25,8,18.75,3.20,150.00,1.9,MOF".
Definition templateData4 : string :=
  "4 Mar,12.00,0.03,60000,1800,900,100,60,20,10.00,5.00,200.00,2.5,MOF".
Definition templateData5 : string :=
  "5 Mar,11.50,0.028,58000,1624,800,90,55,18,11.11,4.50,200.00,2.4,BOF".
Definition templateData6 : string :=
  "6 Mar,13.00,0.022,65000,1430,700,80,50,15,13.33,3.80,200.00,2.6,BOF".
Definition templateContent : string :=
  templateHeaders +:+ newline +:+ templateData1 +:+ newline +:+
  templateData2 +:+ newline +:+ templateData3 +:+ newline +:+
  templateData4 +:+ newline +:+ templateData5 +:+ newline +:+ templateData6.

End FileUploadSingle.

(** ** types.ts *)

Module Types.

Inductive Severity : Type := Critical | Warning | Info.

Record Anomaly : Type := mkAnomaly {
  metric : string;
  shotId : string;
  funnelStage : string;
  observation : string;
  impact : string;
  severity : Severity
}.

Record AnalysisSummary : Type := mkAnalysisSummary {
  executiveSummary : string;
  keyWins : list string;
  areasForImprovement : list string;
  recommendations : list string;
  anomalies : list Anomaly;
  overallScore : float
}.

Inductive AppState : Type := LANDING | UPLOAD | ANALYZING | DASHBOARD.

End Types.

(** ** App.tsx *)

Module App.

Record AggregatedMetrics : Type := mkAggregatedMetrics {
  totalAdSpent : float;
  totalConversions : float;
  totalLinkClicks : float;
  totalReach : float;
  totalLPViews : float;
  totalATCs : float;
  totalICs : float;
  avgCPM : float;
  avgCTR : float;
  avgROAS : float;
  avgCPA : float;
  avgAdFrequency : float;
  cpc : float;
  totalImpressions : float
}.

(** The [let] variables that [data.forEach] updates. *)
Record Sums : Type := mkSums {
  sTotalAdSpent : float;
  sTotalConversions : float;
  sTotalLinkClicks : float;
  sTotalReach : float;
  sTotalLPViews : float;
  sTotalATCs : float;
  sTotalICs : float;
  sumCPM : float;
  sumCTR : float;
  sumROAS : float;
  sumCPA : float;
  sumAdFrequency : float;
  totalDaysAnalyzed : float
}.

Definition initialSums : Sums :=
  mkSums 0 0 0 0 0 0 0 0 0 0 0 0 0.

(** [shot.numDaysInShot ?? 3] *)
Definition daysInShot (shot : Obj) : float :=
  numberOr 3 (shot !! "numDaysInShot").

(** The callback of [data.forEach]. *)
Definition shotStep (s : Sums) (shot : Obj) : Sums :=
  let daysInShot := daysInShot shot in
  {| totalDaysAnalyzed := (totalDaysAnalyzed s + daysInShot)%float;
     sTotalAdSpent :=
       (sTotalAdSpent s + numberOr 0 (shot !! "Ad spent") * daysInShot)%float;
     sTotalConversions :=
       (sTotalConversions s + numberOr 0 (shot !! "Conversions") * daysInShot)%float;
     sTotalLinkClicks :=
       (sTotalLinkClicks s + numberOr 0 (shot !! "LINK CLICKS") * daysInShot)%float;
     sTotalReach :=
       (sTotalReach s + numberOr 0 (shot !! "REACH") * daysInShot)%float;
     sTotalLPViews :=
       (sTotalLPViews s + numberOr 0 (shot !! "Landing page views") * daysInShot)%float;
     sTotalATCs :=
       (sTotalATCs s + numberOr 0 (shot !! "Add to carts") * daysInShot)%float;
     sTotalICs :=
       (sTotalICs s + numberOr 0 (shot !! "initiate checkout") * daysInShot)%float;
     sumCPM := (sumCPM s + numberOr 0 (shot !! "CPM"))%float;
     sumCTR := (sumCTR s + numberOr 0 (shot !! "CTR"))%float;
     sumROAS := (sumROAS s + numberOr 0 (shot !! "ROAS"))%float;
     sumCPA := (sumCPA s + numberOr 0 (shot !! "CPA"))%float;
     sumAdFrequency := (sumAdFrequency s + numberOr 0 (shot !! "AD FREQUENCY"))%float |}.

Definition calculateMetrics (data : list Obj) : AggregatedMetrics :=
  let totalShotsCount := JS.ofNat (length data) in
  let s := fold_left shotStep data initialSums in
  let average (sum : float) : float :=
    if (0 <? totalShotsCount)%float then (sum / totalShotsCount)%float else 0%float in
  let avgCPM := average (sumCPM s) in
  let avgCTR := average (sumCTR s) in
  let avgROAS := average (sumROAS s) in
  let avgCPA := average (sumCPA s) in
  let avgAdFrequency := average (sumAdFrequency s) in
  let cpc :=
    if (0 <? sTotalLinkClicks s)%float
    then (sTotalAdSpent s / sTotalLinkClicks s)%float else 0%float in
  let totalImpressions :=
    if (0 <? avgCPM)%float && (0 <? sTotalAdSpent s)%float
    then (sTotalAdSpent s / avgCPM * 1000)%float else 0%float in
  {| totalAdSpent := sTotalAdSpent s;
     totalConversions := sTotalConversions s;
     totalLinkClicks := sTotalLinkClicks s;
     totalReach := sTotalReach s;
     totalLPViews := sTotalLPViews s;
     totalATCs := sTotalATCs s;
     totalICs := sTotalICs s;
     avgCPM := avgCPM;
     avgCTR := avgCTR;
     avgROAS := avgROAS;
     avgCPA := avgCPA;
     avgAdFrequency := avgAdFrequency;
     cpc := cpc;
     totalImpressions := totalImpressions |}.

(** The [useState] hooks of [App]. *)
Record Hooks : Type := mkHooks {
  appState : Types.AppState;
  shotPerformanceData : list Obj;
  userFundamentals : string;
  analysis : option Types.AnalysisSummary;
  metrics : option AggregatedMetrics;
  loadingStep : string
}.

Definition initialHooks : Hooks := mkHooks Types.LANDING [] "" None None "".

Definition handleDataLoaded (data : list Obj) (h : Hooks) : Hooks :=
  mkHooks (appState h) data (userFundamentals h) (analysis h) (metrics h)
          (loadingStep h).

(** [handleStartAnalysis] up to its first [await]. *)
Definition handleStartAnalysis (h : Hooks) : Hooks :=
  if (length (shotPerformanceData h) =? 0)%nat then h
  else mkHooks Types.ANALYZING (shotPerformanceData h) (userFundamentals h)
               (analysis h) (metrics h)
               "Processing data and calculating key metrics...".

(** [handleStartAnalysis] from its first [await] on; [outcome] is how the
    promise of [analyzeCampaigns] settles, [inl] when it is rejected.
    While the handler waits the view is the spinner, which has no
    control, so [shotPerformanceData] is still what the handler
    captured in [processedShotData]. *)
Definition resumeStartAnalysis (outcome : string + Types.AnalysisSummary)
    (h : Hooks) : Hooks :=
  let processedShotData := shotPerformanceData h in
  let calculatedMetrics := calculateMetrics processedShotData in
  match outcome with
  | inr result =>
      mkHooks Types.DASHBOARD (shotPerformanceData h) (userFundamentals h)
              (Some result) (Some calculatedMetrics)
              "Sending data for Usama Khan's Analysis Style..."
  | inl _ =>
      mkHooks Types.UPLOAD (shotPerformanceData h) (userFundamentals h)
              (analysis h) (Some calculatedMetrics)
              "Sending data for Usama Khan's Analysis Style..."
  end.

Definition resetApp (h : Hooks) : Hooks :=
  mkHooks Types.LANDING [] "" None None (loadingStep h).

(** What [App] returns: the dashboard, the spinner, the landing page, or
    the upload page, which shows [FileUpload] while no shot is loaded and
    the strategy form afterwards. *)
Inductive View : Type :=
  | ViewDashboard | ViewAnalyzing | ViewLanding | ViewUpload | ViewStrategy.

Definition view (h : Hooks) : View :=
  match appState h, analysis h, metrics h with
  | Types.DASHBOARD, Some _, Some _ => ViewDashboard
  | Types.ANALYZING, _, _ => ViewAnalyzing
  | Types.LANDING, _, _ => ViewLanding
  | _, _, _ =>
      if (length (shotPerformanceData h) =? 0)%nat then ViewUpload
      else ViewStrategy
  end.

(** The events that reach a handler of [App] or of the [FileUpload] it
    renders: the button of the landing page, an event of the uploader,
    "Reset / Re-upload", the text area, "Analyze with Usama Khan", the
    settling of the analysis, and [onReset] from the dashboard. *)
Inductive UIEvent : Type :=
  | ClickStart
  | Uploader (e : FileUpload.Event)
  | ClickChangeFile
  | TypeFundamentals (value : string)
  | ClickAnalyze
  | AnalysisSettled (outcome : string + Types.AnalysisSummary)
  | ClickReset.

(** The hooks of [App] with those of the [FileUpload] element, which
    exist while the element is rendered. *)
Record Page : Type := mkPage {
  hooks : Hooks;
  fileUpload : option FileUpload.State
}.

Definition initialPage : Page := mkPage initialHooks None.

(** Rendering after an update: [FileUpload] keeps its hooks while it
    stays in the tree, loses them when it leaves it, and starts from its
    initial hooks when it enters it. *)
Definition render (before : View) (mounted : option FileUpload.State)
    (h : Hooks) : Page :=
  match view h with
  | ViewUpload =>
      match before, mounted with
      | ViewUpload, Some st => mkPage h (Some st)
      | _, _ => mkPage h (Some FileUpload.initialState)
      end
  | _ => mkPage h None
  end.

(** An event runs the handler of its control when the view shows the
    control, and is without effect otherwise. *)
Definition dispatch (e : UIEvent) (p : Page) : Page :=
  let h := hooks p in
  match e, view h with
  | ClickStart, ViewLanding =>
      render (view h) (fileUpload p)
        (mkHooks Types.UPLOAD (shotPerformanceData h) (userFundamentals h)
                 (analysis h) (metrics h) (loadingStep h))
  | Uploader e, ViewUpload =>
      match fileUpload p with
      | Some st =>
          let '(st', called) := FileUpload.handle e st in
          render (view h) (Some st')
            (match called with
             | Some data => handleDataLoaded data h
             | None => h
             end)
      | None => p
      end
  | ClickChangeFile, ViewStrategy =>
      render (view h) (fileUpload p)
        (mkHooks (appState h) [] (userFundamentals h) (analysis h) (metrics h)
                 (loadingStep h))
  | TypeFundamentals value, ViewStrategy =>
      render (view h) (fileUpload p)
        (mkHooks (appState h) (shotPerformanceData h) value (analysis h)
                 (metrics h) (loadingStep h))
  | ClickAnalyze, ViewStrategy =>
      if (JS.trim (userFundamentals h) =? "")%string ||
         (length (shotPerformanceData h) =? 0)%nat
      then p
      else render (view h) (fileUpload p) (handleStartAnalysis h)
  | AnalysisSettled outcome, ViewAnalyzing =>
      render (view h) (fileUpload p) (resumeStartAnalysis outcome h)
  | ClickReset, ViewDashboard =>
      render (view h) (fileUpload p) (resetApp h)
  | _, _ => p
  end.

End App.

(** ** services/geminiService.ts: what [analyzeCampaigns] computes from
    the shots before the request, and how it screens the response *)

Module GeminiService.

(** SameValueZero, the equality of [Set] and of [Array.prototype.includes]. *)
Definition sameValueZero (a b : option JSVal) : bool :=
  match a, b with
  | None, None => true
  | Some (VStr s), Some (VStr t) => (s =? t)%string
  | Some (VNum x), Some (VNum y) =>
      (x =? y)%float || (PrimFloat.is_nan x && PrimFloat.is_nan y)
  | _, _ => false
  end.

(** [a === b] *)
Definition strictEquals (a b : option JSVal) : bool :=
  match a, b with
  | None, None => true
  | Some (VStr s), Some (VStr t) => (s =? t)%string
  | Some (VNum x), Some (VNum y) => (x =? y)%float
  | _, _ => false
  end.

(** [arr.includes(value)] *)
Definition includes (arr : list (option JSVal)) (value : option JSVal) : bool :=
  existsb (fun element => sameValueZero element value) arr.

(** [Array.from(new Set(values))]: the first occurrence of each value, in
    the order of the insertions. *)
Definition arrayFromSet (values : list (option JSVal)) : list (option JSVal) :=
  fold_left (fun set value => if includes set value then set else set ++ [value])
            values [].

Definition allPossibleStages : list (option JSVal) :=
  [Some (VStr "TOF"); Some (VStr "MOF"); Some (VStr "BOF")].

Definition uniqueFunnelStages (data : list Obj) : list (option JSVal) :=
  List.filter (fun stage => includes allPossibleStages stage)
              (arrayFromSet (map (fun d : Obj => d !! "funnelStage") data)).

Definition missingFunnelStages (data : list Obj) : list (option JSVal) :=
  List.filter (fun stage => negb (includes (uniqueFunnelStages data) stage))
              allPossibleStages.

(** In [generateDetailedReport]. *)
Definition sortedUniqueFunnelStages (data : list Obj) : list (option JSVal) :=
  List.filter (fun stage => includes (uniqueFunnelStages data) stage)
              allPossibleStages.

(** [data.filter(shot => shot.funnelStage === stage)] *)
Definition stageData (stage : option JSVal) (data : list Obj) : list Obj :=
  List.filter (fun shot : Obj => strictEquals (shot !! "funnelStage") stage) data.

(** The filter of [Object.keys(data[0])] that keeps the metric names; the
    dashboard filters the keys of every shot the same way. *)
Definition isMetricKey (key : string) : bool :=
  negb (key =? "shotId")%string && negb (key =? "startDate")%string &&
  negb (key =? "endDate")%string && negb (key =? "funnelStage")%string &&
  negb (key =? "numDaysInShot")%string.

(** The double quote. *)
Definition quote : string := String (ascii_of_nat 34) EmptyString.

(** The test on [lowerCaseTrimmedText]. *)
Definition looksLikeError (lowerCaseTrimmedText : string) : bool :=
  (lowerCaseTrimmedText =? "undefined")%string ||
  (lowerCaseTrimmedText =? "null")%string ||
  (lowerCaseTrimmedText =? "error")%string ||
  JS.includes lowerCaseTrimmedText (quote +:+ "error" +:+ quote) ||
  (lowerCaseTrimmedText =? "failure")%string ||
  JS.includes lowerCaseTrimmedText "invalid" ||
  JS.includes lowerCaseTrimmedText "malformed" ||
  JS.includes lowerCaseTrimmedText "rate limit" ||
  JS.includes lowerCaseTrimmedText "quota exceeded" ||
  JS.includes lowerCaseTrimmedText "bad request" ||
  JS.includes lowerCaseTrimmedText "unauthorized" ||
  JS.includes lowerCaseTrimmedText "forbidden" ||
  JS.includes lowerCaseTrimmedText "not found" ||
  JS.includes lowerCaseTrimmedText "server error".

Definition looksLikeHtml (trimmedText : string) : bool :=
  JS.startsWith trimmedText "<html" || JS.startsWith trimmedText "<!DOCTYPE" ||
  JS.startsWith trimmedText "<html>" || JS.startsWith trimmedText "<body".

(** From [response.text] to the argument of [JSON.parse] in
    [analyzeCampaigns]; [inl msg] is [throw new Error(msg)], [None] a
    text that is [undefined] or [null]. *)
Definition screenSummary (text : option string) : string + string :=
  match text with
  | None =>
      inl "Usama Khan's Analysis returned no readable text content for summary. Expected JSON. It might be an internal error or rate limit. Please try again."
  | Some responseText =>
      let trimmedText := JS.trim responseText in
      if (String.length trimmedText =? 0)%nat then
        inl ("Usama Khan's Analysis returned an empty response for summary. Expected JSON. Raw text: " +:+
             quote +:+ responseText +:+ quote +:+ ".")
      else
        let lowerCaseTrimmedText := JS.toLowerCase trimmedText in
        if looksLikeError lowerCaseTrimmedText then
          inl ("Usama Khan's Analysis returned an invalid literal string or error message " +:+
               quote +:+ responseText +:+ quote +:+
               " for summary. Expected JSON. Please check console for raw API output.")
        else if looksLikeHtml trimmedText then
          inl "Usama Khan's Analysis returned HTML content for summary. Expected JSON. Please check console for raw API output."
        else if negb (JS.startsWith trimmedText "{" && JS.endsWith trimmedText "}") &&
                negb (JS.startsWith trimmedText "[" && JS.endsWith trimmedText "]") then
          inl ("Usama Khan's Analysis returned non-JSON text for summary: " +:+
               quote +:+ trimmedText +:+ quote +:+
               ". Expected a JSON object or array (enclosed in {} or []). Please check console for raw API output.")
        else if (String.length trimmedText <? 2)%nat then
          inl ("Usama Khan's Analysis returned malformed JSON: " +:+
               quote +:+ trimmedText +:+ quote +:+
               ". Expected a valid JSON structure (minimum 2 characters for {} or []). Please check console for raw API output.")
        else inr trimmedText
  end.

End GeminiService.

(** * The vocabulary of the properties

    What the statements below say about the code: sums and means as the
    code computes them, the shots of a stage in the store, the
    plausibility rules, the rows that become daily entries, the windows
    of the aggregation. *)

Import FileUpload App.

(** The estimate of a total from the per-day averages of the shots: the
    sum, in the order of the sequence, of average times days. *)
Definition estimatedTotal (metric : string) (data : list Obj) : float :=
  fold_left
    (fun acc shot => (acc + numberOr 0 (shot !! metric) * daysInShot shot)%float)
    data 0%float.

(** The shots that the store holds for a stage: those that the filter of
    [parseCSV] drops when the stage is uploaded again. *)
Definition stageShots (stage : FunnelStageContext) (shots : list Obj) : list Obj :=
  List.filter (fun s => negb (otherStage stage s)) shots.

(** A shot sequence for a stage: every shot carries the stage's tag. *)
Definition tagged (stage : FunnelStageContext) (shots : list Obj) : Prop :=
  Forall (fun s => s !! "funnelStage" = Some (VStr (stageName stage))) shots.

(** The plausibility rules. *)
Inductive Rule : Type :=
  | AdSpentNegative
  | ConversionsNegative
  | LinkClicksNegative
  | ReachNegative
  | AdFrequencyNegative
  | RoasNegative
  | LinkClicksExceedReach
  | CtrOutsideUnitRange.

(** The value of a day's metric as the checks read it. *)
Definition metricOf (day : Obj) (name : string) : float :=
  numberOr 0 (day !! name).

(** A day violates a rule. *)
Definition violates (rule : Rule) (day : Obj) : bool :=
  match rule with
  | AdSpentNegative => (metricOf day "Ad spent" <? 0)%float
  | ConversionsNegative => (metricOf day "Conversions" <? 0)%float
  | LinkClicksNegative => (metricOf day "LINK CLICKS" <? 0)%float
  | ReachNegative => (metricOf day "REACH" <? 0)%float
  | AdFrequencyNegative => (metricOf day "AD FREQUENCY" <? 0)%float
  | RoasNegative => (metricOf day "ROAS" <? 0)%float
  | LinkClicksExceedReach =>
      (0 <? metricOf day "LINK CLICKS")%float &&
      (0 <? metricOf day "REACH")%float &&
      (metricOf day "REACH" <? metricOf day "LINK CLICKS")%float
  | CtrOutsideUnitRange =>
      (metricOf day "CTR" <? 0)%float || (1 <? metricOf day "CTR")%float
  end.

(** What the message of a rule says after the date. *)
Definition ruleText (rule : Rule) (day : Obj) : string :=
  match rule with
  | AdSpentNegative => "'Ad spent' cannot be negative."
  | ConversionsNegative => "'Conversions' cannot be negative."
  | LinkClicksNegative => "'LINK CLICKS' cannot be negative."
  | ReachNegative => "'REACH' cannot be negative."
  | AdFrequencyNegative => "'AD FREQUENCY' cannot be negative."
  | RoasNegative =>
      "'ROAS' (" +:+ JS.numberToString (metricOf day "ROAS") +:+
      ") cannot be negative."
  | LinkClicksExceedReach =>
      "Logical error - 'LINK CLICKS' (" +:+
      JS.numberToString (metricOf day "LINK CLICKS") +:+ ") exceed 'REACH' (" +:+
      JS.numberToString (metricOf day "REACH") +:+ ")."
  | CtrOutsideUnitRange =>
      "'CTR' (" +:+ JS.numberToString (metricOf day "CTR") +:+
      ") is outside a plausible decimal range (0-1)."
  end.

(** The message of a rule: tagged with the date of the day. *)
Definition ruleMessage (rule : Rule) (day : Obj) : string :=
  "Date " +:+ toStr (day !! "date") +:+ ": " +:+ ruleText rule day.

(** A message that is not the empty string. *)
Definition nonEmpty (msg : string) : Prop := msg <> "".

(** The text of metric column [colIndex] of a row parses as a number. *)
Definition parsesAt (parts : list string) (colIndex : nat) : bool :=
  match parts !! (colIndex + 1)%nat with
  | Some valueStr => negb (JS.isNaN (JS.parseFloat valueStr))
  | None => false
  end.

(** A data row yields a number: it has as many fields as the header and
    at least one of its metric fields parses as a number. *)
Definition yieldsNumber (rawHeaders metricNames : list string) (line : string) : bool :=
  (length (fields line) =? length rawHeaders)%nat &&
  existsb (parsesAt (fields line)) (seq 0 (length metricNames)).

(** The daily entry that the row loop builds from a row. *)
Definition rowEntry (metricNames : list string) (line : string) : Obj :=
  match fields line with
  | dateStr :: _ =>
      fst (fst (forEach (metricStep (fields line) dateStr) metricNames
                        (<["date" := VStr dateStr]> ∅, false, [])))
  | [] => ∅
  end.

(** The shot that the loop pushes at index [i]. *)
Definition shotAt (mn : list string) (stage : FunnelStageContext)
    (dailyData : list Obj) (i : nat) : Obj :=
  let daysInShot := take 3 (drop i dailyData) in
  match daysInShot with
  | first :: _ =>
      makeShot mn stage
        (stageName stage +:+ "-Shot " +:+ JS.natToString (i / 3 + 1))
        daysInShot first (List.last daysInShot first)
  | [] => ∅
  end.

(** The indices at which the loop body runs when it is entered at [i]
    with [count] windows left. *)
Fixpoint windowStarts (i count : nat) : list nat :=
  match count with
  | O => []
  | S count' => i :: windowStarts (i + 3) count'
  end.

(** The number of windows of three that cover [n] days: [ceil(n / 3)]. *)
Definition ceilDiv3 (n : nat) : nat := ((n + 2) / 3)%nat.

(** The windows of a daily sequence, in order. *)
Definition windowsOf (dailyData : list Obj) : list (list Obj) :=
  map (fun start => take 3 (drop start dailyData))
      (windowStarts 0 (ceilDiv3 (length dailyData))).

(** The arithmetic mean of a metric over the days of a window, as the
    loop computes it: the sum from 0 in the order of the days, divided by
    their number. *)
Definition meanOf (metricName : string) (daysInShot : list Obj) : float :=
  (metricSum metricName daysInShot / JS.ofNat (length daysInShot))%float.

(** The five fixed properties, before the metric loop. *)
Definition shotHead (stage : FunnelStageContext) (shotId : string)
    (daysInShot : list Obj) (first lastDay : Obj) : Obj :=
  <["funnelStage" := VStr (stageName stage)]>
    (<["numDaysInShot" := VNum (JS.ofNat (length daysInShot))]>
       (assign "endDate" (lastDay !! "date")
          (assign "startDate" (first !! "date")
             (<["shotId" := VStr shotId]> ∅)))).

(** The metric columns of the template header. *)
Definition templateMetricNames : list string :=
  ["CPM"; "CTR"; "REACH"; "LINK CLICKS"; "Landing page views"; "Add to carts";
   "initiate checkout"; "Conversions"; "CPA"; "ROAS"; "Ad spent"; "AD FREQUENCY"].

(** What [validate] returns for an upload that reaches the test of
    [validationErrors]. *)
Definition resultOf (text : string) : Validated :=
  match validate text with
  | inr v => v
  | inl _ => mkValidated [] [] []
  end.

(** The first daily entry of a validated upload. *)
Definition firstDay (v : Validated) : Obj :=
  match dailyData v with
  | day :: _ => day
  | [] => ∅
  end.

(** What an upload hands to [onDataLoaded] when nothing was stored. *)
Definition uploadedShots (text : string) (stage : FunnelStageContext) : list Obj :=
  match snd (parseCSV text stage (mkState ∅ ∅ [])) with
  | Some shots => shots
  | None => []
  end.

(** The required columns that the header lacks, as the header check
    computes them. *)
Definition missingRequired (metricNames : list string) : list string :=
  List.filter
    (fun req => negb (bool_decide
       (req ∈ (list_to_set (map JS.toLowerCase metricNames) : gset string))))
    requiredMetricNames.

(** The message of the header check. *)
Definition headerMessage (missing : list string) : string :=
  "Missing required columns in header: " +:+
  JS.join ", " (map JS.capitalize missing) +:+
  ". Please ensure they are present.".

(** The message for a field that is neither empty nor a number. *)
Definition numberMessage (dateStr headerName valueStr : string) : string :=
  "Date " +:+ dateStr +:+ ", Column '" +:+ headerName +:+
  "': Expected a number, but received '" +:+ valueStr +:+ "'.".

(** The message for a row that has not as many fields as the header. *)
Definition columnsMessage (row expected got : nat) : string :=
  "Row " +:+ JS.natToString row +:+
  ": Mismatched number of columns. Expected " +:+
  JS.natToString expected +:+ ", got " +:+ JS.natToString got +:+ ".".

(** What one metric column of a row records. *)
Definition cellErrors (parts : list string) (dateStr : string)
    (colIndex : nat) (headerName : string) : list string :=
  snd (metricStep parts dateStr (∅, false, []) colIndex headerName).

(** What one data row records. *)
Definition rowErrors (rawHeaders metricNames : list string)
    (rowIndex : nat) (line : string) : list string :=
  snd (rowStep rawHeaders metricNames ([], []) rowIndex line).

(** Text of ASCII characters: every code unit is below 128. *)
Fixpoint asciiText (s : string) : bool :=
  match s with
  | String c s' => (nat_of_ascii c <? 128)%nat && asciiText s'
  | EmptyString => true
  end.

(** A row whose fields are all empty: the row loop passes over it. *)
Definition blankRow (line : string) : bool :=
  forallb (fun p => (p =? "")%string) (fields line).

(** The metric columns of the header line of an upload. *)
Definition headerColumns (text : string) : list string :=
  match nonBlankLines text with
  | header :: _ => tail (fields header)
  | [] => []
  end.

Definition hasColumn (key text : string) : bool :=
  existsb (String.eqb key) (headerColumns text).



(** A shot that carries the tag of one of the three stages. *)
Definition stageValue (stage : FunnelStageContext) : option JSVal :=
  Some (VStr (stageName stage)).


(** The hooks of an uploader that holds no shot and shows no stage as
    uploaded. *)
Definition freshStore (st : State) : Prop :=
  accumulatedShots st = [] /\ forall stage, isUploaded stage st = false.

(** Shot data that is empty or is what one upload hands over when
    nothing was stored. *)
Definition singleUpload (data : list Obj) : Prop :=
  data = [] \/
  exists text stage, data <> [] /\ data = uploadedShots text stage.

(** The analysis can be asked for: there are shots, and the description
    of the client is not blank. *)
Definition ready (h : Hooks) : Prop :=
  shotPerformanceData h <> [] /\ JS.trim (userFundamentals h) <> "".

(** What holds of the page after every event. *)
Definition pageInv (p : Page) : Prop :=
  let h := hooks p in
  match view h with
  | ViewUpload => exists st, fileUpload p = Some st /\ freshStore st
  | _ => fileUpload p = None
  end /\
  singleUpload (shotPerformanceData h) /\
  (appState h = Types.DASHBOARD ->
   analysis h <> None /\
   metrics h = Some (calculateMetrics (shotPerformanceData h)) /\ ready h) /\
  (appState h = Types.ANALYZING -> ready h).


(** A sequence of events on the page that [App] first renders. *)
Definition session (events : list UIEvent) : Page :=
  fold_left (fun p e => dispatch e p) events initialPage.

(** The words that make [analyzeCampaigns] reject a response wherever
    they occur in it. *)
Definition errorWords : list string :=
  [GeminiService.quote +:+ "error" +:+ GeminiService.quote; "invalid";
   "malformed"; "rate limit"; "quota exceeded"; "bad request"; "unauthorized";
   "forbidden"; "not found"; "server error"].

(** A text enclosed in braces or in brackets. *)
Definition wrapped (trimmedText : string) : bool :=
  (JS.startsWith trimmedText "{" && JS.endsWith trimmedText "}") ||
  (JS.startsWith trimmedText "[" && JS.endsWith trimmedText "]").

(** The days of a window that carry a stage, as the vote counts them. *)
Definition dayOf (stage : string) (day : Obj) : bool :=
  match day !! "FUNNEL STAGE" with
  | Some (VStr s) => (s =? stage)%string
  | _ => false
  end.

Definition stageDays (stage : string) (daysInShot : list Obj) : nat :=
  length (List.filter (dayOf stage) daysInShot).

(** The place of a stage among the keys of [stageCounts]. *)
Definition stageRank (stage : string) : nat :=
  if (stage =? "TOF")%string then 0
  else if (stage =? "MOF")%string then 1
  else 2.

(** The shot that the loop of the single-file uploader pushes at index
    [i]. *)
Definition singleShotAt (names : list string) (dailyData : list Obj) (i : nat) : Obj :=
  let daysInShot := take 3 (drop i dailyData) in
  match daysInShot with
  | first :: _ =>
      FileUploadSingle.makeShot names
        ("Shot " +:+ JS.natToString (i / 3 + 1))
        daysInShot first (List.last daysInShot first)
  | [] => ∅
  end.

(** A header with a stage column, in any letter case. *)
Definition hasStageColumn (names : list string) : bool :=
  existsb (fun h => (JS.toUpperCase h =? "FUNNEL STAGE")%string) names.

(** A data row that is not blank and has as many fields as the header. *)
Definition keptRow (rawHeaders : list string) (line : string) : bool :=
  negb (blankRow line) && (length (fields line) =? length rawHeaders)%nat.

(** A day that carries one of the three stages. *)
Definition validStage (day : Obj) : bool :=
  match day !! "FUNNEL STAGE" with
  | Some (VStr stage) => FileUploadSingle.isStage stage
  | _ => false
  end.

(** What [validate] of the single-file uploader returns for an upload
    that reaches the test of [validationErrors]. *)
Definition singleResultOf (text : string) : Validated :=
  match FileUploadSingle.validate text with
  | inr v => v
  | inl _ => mkValidated [] [] []
  end.

(** ** Uploads and shot sequences of the examples *)

(** A shot sequence whose link clicks are negative: one day, 10 spent. *)
Definition negativeClicksShot : Obj :=
  <["numDaysInShot" := VNum 1]>
    (<["LINK CLICKS" := VNum (-2)]> (<["Ad spent" := VNum 10]> ∅)).

(** A shot sequence whose cost-per-mille is negative. *)
Definition negativeCPMShot : Obj :=
  <["numDaysInShot" := VNum 1]>
    (<["CPM" := VNum (-4)]> (<["Ad spent" := VNum 10]> ∅)).

(** A shot that carries only its tag and its identifier. *)
Definition shotTagged (stage : FunnelStageContext) (id : string) : Obj :=
  <["funnelStage" := VStr (stageName stage)]> (<["shotId" := VStr id]> ∅).

(** An upload whose only day has 2000 link clicks for a reach of 1000. *)
Definition exceedContent : string :=
  templateHeaders +:+ newline +:+
  "1 Mar,10.50,0.02,1000,2000,500,50,30,10,15.00,3.50,150.00,1.8".

(** An upload with eleven recorded errors. *)
Definition faultyContent : string :=
  templateHeaders +:+ newline +:+
  "1 Mar,10.50,1.5,1000,2000,500,50,30,-10,x,3.50,150.00,1.8" +:+ newline +:+
  "2 Mar,,,,,,,,,,,," +:+ newline +:+
  "3 Mar,1,2" +:+ newline +:+
  "4 Mar,-1,-2,-3,-4,5,6,7,8,9,-10,-11,-12".

(** The template followed by a fourth day whose metric fields are empty. *)
Definition blankRowContent : string :=
  templateContent +:+ newline +:+ "4 Mar,,,,,,,,,,,,".

(** The template with one more column, named [numDaysInShot], that holds
    7 on each of the three days. *)
Definition dayCountColumnContent : string :=
  templateHeaders +:+ ",numDaysInShot" +:+ newline +:+
  templateData1 +:+ ",7" +:+ newline +:+
  templateData2 +:+ ",7" +:+ newline +:+
  templateData3 +:+ ",7".

(** The template with one more column, named [shotId], that holds 5 on
    each of the three days. *)
Definition shotIdColumnContent : string :=
  templateHeaders +:+ ",shotId" +:+ newline +:+
  templateData1 +:+ ",5" +:+ newline +:+
  templateData2 +:+ ",5" +:+ newline +:+
  templateData3 +:+ ",5".


(** The template with one more column, named [__proto__], that holds 5
    on each of the three days. *)
Definition protoColumnContent : string :=
  templateHeaders +:+ ",__proto__" +:+ newline +:+
  templateData1 +:+ ",5" +:+ newline +:+
  templateData2 +:+ ",5" +:+ newline +:+
  templateData3 +:+ ",5".

(** The upload of [exceedContent] with its header in lower case: one day
    with 2000 link clicks for a reach of 1000. *)
Definition lowerCaseContent : string :=
  "date,cpm,ctr,reach,link clicks,landing page views,add to carts,initiate checkout,conversions,cpa,roas,ad spent,ad frequency" +:+
  newline +:+
  "1 Mar,10.50,0.02,1000,2000,500,50,30,10,15.00,3.50,150.00,1.8".

(** The template followed by a fourth valid day. *)
Definition fourDaysContent : string :=
  templateContent +:+ newline +:+
  "4 Mar,9.80,0.018,48000,864,450,40,25,8,18.75,3.20,120.00,1.9".

(** An upload whose header has the date and one required column. *)
Definition cpmOnlyContent : string :=
  "DATE,cpm" +:+ newline +:+ "1 Mar,10.50".







(** The template of the single-file uploader followed by a day that has
    a stage and no number. *)
Definition stageOnlyContent : string :=
  FileUploadSingle.templateContent +:+ newline +:+ "7 Mar,,,,,,,,,,,,,bof".

(** * Properties *)

(** ** The metrics aggregation engine *)

(** A field of [Sums] after the loop is the fold of its own update. *)
Lemma fold_shotStep_field (proj : Sums -> float) (upd : float -> Obj -> float) :
  (forall s shot, proj (shotStep s shot) = upd (proj s) shot) ->
  forall data s, proj (fold_left shotStep data s) = fold_left upd data (proj s).
Proof.
  intros Hstep data.
  induction data as [|shot data IH]; intros s; simpl.
  - reflexivity.
  - rewrite IH, Hstep. reflexivity.
Qed.

Lemma totals_are_estimates (data : list Obj) :
  let m := calculateMetrics data in
  totalAdSpent m = estimatedTotal "Ad spent" data /\
  totalConversions m = estimatedTotal "Conversions" data /\
  totalLinkClicks m = estimatedTotal "LINK CLICKS" data /\
  totalReach m = estimatedTotal "REACH" data /\
  totalLPViews m = estimatedTotal "Landing page views" data /\
  totalATCs m = estimatedTotal "Add to carts" data /\
  totalICs m = estimatedTotal "initiate checkout" data.
Proof.
  unfold calculateMetrics, estimatedTotal; simpl.
  repeat split;
    match goal with
    | |- ?p (fold_left shotStep _ _) = _ =>
        apply (fold_shotStep_field p); intros; reflexivity
    end.
Qed.

Lemma estimatedTotal_snoc (metric : string) (data : list Obj) (shot : Obj) :
  estimatedTotal metric (data ++ [shot]) =
  (estimatedTotal metric data + numberOr 0 (shot !! metric) * daysInShot shot)%float.
Proof. unfold estimatedTotal. rewrite fold_left_app. reflexivity. Qed.

(** C3: every extensive total of [calculateMetrics] is the sum over the
    shots, in order, of the shot's per-day average times the shot's
    [numDaysInShot]; a shot without [numDaysInShot] counts for 3 days, one
    that has it counts for the stored number. *)
Theorem C3_totals_sum_average_times_days (data : list Obj) :
  let m := calculateMetrics data in
  (totalAdSpent m = estimatedTotal "Ad spent" data /\
   totalConversions m = estimatedTotal "Conversions" data /\
   totalLinkClicks m = estimatedTotal "LINK CLICKS" data /\
   totalReach m = estimatedTotal "REACH" data /\
   totalLPViews m = estimatedTotal "Landing page views" data /\
   totalATCs m = estimatedTotal "Add to carts" data /\
   totalICs m = estimatedTotal "initiate checkout" data) /\
  (forall metric shots shot,
     estimatedTotal metric (shots ++ [shot]) =
     (estimatedTotal metric shots +
      numberOr 0 (shot !! metric) *
      match shot !! "numDaysInShot" with
      | None => 3
      | Some d => numberOr 0 (Some d)
      end)%float).
Proof.
  split.
  - apply totals_are_estimates.
  - intros metric shots shot. rewrite estimatedTotal_snoc.
    unfold daysInShot. destruct (shot !! "numDaysInShot") as [[s|d]|]; reflexivity.
Qed.

(** C6: on the empty shot sequence [calculateMetrics] returns the record
    whose fourteen fields are all 0; the function is total, so nothing is
    thrown. *)
Theorem C6_empty_shots_all_zero :
  calculateMetrics [] = mkAggregatedMetrics 0 0 0 0 0 0 0 0 0 0 0 0 0 0.
Proof. vm_compute. reflexivity. Qed.

(** The two derived values, as the code guards them. *)
Lemma derived_values (data : list Obj) :
  let m := calculateMetrics data in
  cpc m =
    (if (0 <? totalLinkClicks m)%float
     then (totalAdSpent m / totalLinkClicks m)%float else 0%float) /\
  totalImpressions m =
    (if (0 <? avgCPM m)%float && (0 <? totalAdSpent m)%float
     then (totalAdSpent m / avgCPM m * 1000)%float else 0%float).
Proof. split; reflexivity. Qed.

(** IEEE comparison: a number equal to 0 (either zero) is not above 0. *)
Lemma eqb_zero_not_positive (x : float) :
  (x =? 0)%float = true -> (0 <? x)%float = false.
Proof.
  rewrite FloatAxioms.eqb_spec, FloatAxioms.ltb_spec.
  unfold SFeqb, SFltb.
  change (Prim2SF 0) with (S754_zero false).
  destruct (Prim2SF x) as [s|s| |s m e]; simpl; try discriminate; try reflexivity.
  all: destruct s; try discriminate; reflexivity.
Qed.

(** Two closed floats that the IEEE equality test separates are not equal. *)
Ltac floats_differ :=
  let H := fresh in
  intro H;
  match type of H with
  | ?a = ?b => apply (f_equal (fun x => PrimFloat.eqb x b)) in H
  end;
  vm_compute in H; discriminate H.

(** C9, as stated, fails: with total link clicks -2 and total spend 10,
    total link clicks is not 0 and [cpc] is 0, not the quotient -5; with
    average cost-per-mille -4 and total spend 10, neither is 0 and
    [totalImpressions] is 0, not -2500. *)
Lemma C9_counterexample_negative_denominator :
  (let m := calculateMetrics [negativeClicksShot] in
   (totalLinkClicks m =? 0)%float = false /\
   cpc m <> (totalAdSpent m / totalLinkClicks m)%float) /\
  (let m := calculateMetrics [negativeCPMShot] in
   (avgCPM m =? 0)%float = false /\ (totalAdSpent m =? 0)%float = false /\
   totalImpressions m <> (totalAdSpent m / avgCPM m * 1000)%float).
Proof.
  repeat split; try (vm_compute; reflexivity); floats_differ.
Qed.

(** C9 (amended): [cpc] is total spend over total link clicks when total
    link clicks is above 0 and 0 otherwise, so it is 0 when total link
    clicks is 0; [totalImpressions] is total spend over average
    cost-per-mille times 1000 when both are above 0 and 0 otherwise, so it
    is 0 when either of them is 0. *)
Theorem C9_derived_values_guarded (data : list Obj) :
  let m := calculateMetrics data in
  cpc m =
    (if (0 <? totalLinkClicks m)%float
     then (totalAdSpent m / totalLinkClicks m)%float else 0%float) /\
  totalImpressions m =
    (if (0 <? avgCPM m)%float && (0 <? totalAdSpent m)%float
     then (totalAdSpent m / avgCPM m * 1000)%float else 0%float) /\
  ((totalLinkClicks m =? 0)%float = true -> cpc m = 0%float) /\
  ((avgCPM m =? 0)%float = true \/ (totalAdSpent m =? 0)%float = true ->
   totalImpressions m = 0%float).
Proof.
  intros m.
  destruct (derived_values data) as [Hcpc Himp]. fold m in Hcpc, Himp.
  repeat split; try assumption.
  - intros H0. rewrite Hcpc, (eqb_zero_not_positive _ H0). reflexivity.
  - intros [H0|H0]; rewrite Himp, (eqb_zero_not_positive _ H0).
    + reflexivity.
    + rewrite andb_false_r. reflexivity.
Qed.

(** Three days of an average spend of 10 with no link clicks: [cpc] is 0. *)
Lemma C9_witness_no_clicks :
  cpc (calculateMetrics [<["Ad spent" := VNum 10]> ∅]) = 0%float.
Proof.
  apply (C9_derived_values_guarded [<["Ad spent" := VNum 10]> ∅]).
  vm_compute. reflexivity.
Defined.

(** ** The stage merge *)

Lemma stageName_inj (s1 s2 : FunnelStageContext) :
  stageName s1 = stageName s2 -> s1 = s2.
Proof. destruct s1, s2; simpl; intros H; try reflexivity; discriminate H. Qed.

Lemma otherStage_tag (stage stage' : FunnelStageContext) (s : Obj) :
  s !! "funnelStage" = Some (VStr (stageName stage')) ->
  otherStage stage s = negb (bool_decide (stage' = stage)).
Proof.
  intros Htag. unfold otherStage. rewrite Htag. f_equal.
  destruct (String.eqb_spec (stageName stage') (stageName stage)) as [E|N].
  - apply stageName_inj in E. symmetry. apply bool_decide_eq_true. exact E.
  - symmetry. apply bool_decide_eq_false. intros ->. apply N. reflexivity.
Qed.

Lemma tagged_filter_same (stage : FunnelStageContext) (shots : list Obj) :
  tagged stage shots -> List.filter (otherStage stage) shots = [].
Proof.
  induction 1 as [|s shots Hs _ IH]; simpl.
  - reflexivity.
  - rewrite (otherStage_tag _ _ _ Hs), bool_decide_eq_true_2 by reflexivity.
    exact IH.
Qed.

Lemma tagged_stageShots_same (stage : FunnelStageContext) (shots : list Obj) :
  tagged stage shots -> stageShots stage shots = shots.
Proof.
  unfold stageShots.
  induction 1 as [|s shots Hs _ IH]; simpl.
  - reflexivity.
  - rewrite (otherStage_tag _ _ _ Hs), bool_decide_eq_true_2 by reflexivity.
    simpl. rewrite IH. reflexivity.
Qed.

Lemma tagged_stageShots_other (stage stage' : FunnelStageContext) (shots : list Obj) :
  stage' <> stage -> tagged stage shots -> stageShots stage' shots = [].
Proof.
  intros Hne. unfold stageShots.
  induction 1 as [|s shots Hs _ IH]; simpl.
  - reflexivity.
  - rewrite (otherStage_tag _ _ _ Hs), bool_decide_eq_false_2 by congruence.
    exact IH.
Qed.

(** Dropping the shots of one stage leaves those of another in place. *)
Lemma stageShots_filter_other (stage stage' : FunnelStageContext) (shots : list Obj) :
  stage' <> stage ->
  stageShots stage' (List.filter (otherStage stage) shots) = stageShots stage' shots.
Proof.
  intros Hne. unfold stageShots.
  induction shots as [|s shots IH]; simpl.
  - reflexivity.
  - destruct (otherStage stage s) eqn:Hs; simpl; rewrite IH.
    + reflexivity.
    + assert (Htag : s !! "funnelStage" = Some (VStr (stageName stage))).
      { unfold otherStage in Hs.
        destruct (s !! "funnelStage") as [[name|x]|]; try discriminate Hs.
        apply negb_false_iff, String.eqb_eq in Hs. congruence. }
      rewrite (otherStage_tag stage' stage s Htag).
      rewrite bool_decide_eq_false_2 by congruence. reflexivity.
Qed.

Lemma stageShots_app (stage : FunnelStageContext) (l1 l2 : list Obj) :
  stageShots stage (l1 ++ l2) = stageShots stage l1 ++ stageShots stage l2.
Proof. unfold stageShots. apply List.filter_app. Qed.

Lemma stageShots_filter_same (stage : FunnelStageContext) (shots : list Obj) :
  stageShots stage (List.filter (otherStage stage) shots) = [].
Proof.
  unfold stageShots.
  induction shots as [|s shots IH]; simpl.
  - reflexivity.
  - destruct (otherStage stage s) eqn:Hs; simpl.
    + rewrite Hs. simpl. exact IH.
    + exact IH.
Qed.

Lemma filter_otherStage_idem (stage : FunnelStageContext) (shots : list Obj) :
  List.filter (otherStage stage) (List.filter (otherStage stage) shots) =
  List.filter (otherStage stage) shots.
Proof.
  induction shots as [|s shots IH]; simpl.
  - reflexivity.
  - destruct (otherStage stage s) eqn:Hs; simpl.
    + rewrite Hs, IH. reflexivity.
    + exact IH.
Qed.

(** "Remove / Re-upload": the shots of the stage leave the store, those
    of the other stages stay, and the stage is marked as not uploaded. *)
Lemma removeStage_clears (stage : FunnelStageContext) (st : State) :
  let st' := fst (removeStage stage st) in
  stageShots stage (accumulatedShots st') = [] /\
  (forall stage', stage' <> stage ->
     stageShots stage' (accumulatedShots st') = stageShots stage' (accumulatedShots st)) /\
  uploadedStages st' !! stageName stage = Some false /\
  snd (removeStage stage st) = Some (accumulatedShots st').
Proof.
  simpl. repeat split.
  - apply stageShots_filter_same.
  - intros stage' Hne. apply stageShots_filter_other. exact Hne.
  - apply lookup_insert_eq.
Qed.

(** When [parseCSV] succeeds, the store it leaves and the sequence it
    hands to [onDataLoaded] are the merge of the stored shots with the
    shots of this upload. *)
Lemma parseCSV_success (text : string) (stage : FunnelStageContext)
    (st st' : State) (handed : list Obj) :
  parseCSV text stage st = (st', Some handed) ->
  exists v,
    validate text = inr v /\
    validationErrors v = [] /\
    handed = mergeShots stage (accumulatedShots st)
               (aggregate (metricNames v) stage (dailyData v)) /\
    accumulatedShots st' = handed /\
    uploadedStages st' = <[stageName stage := true]> (uploadedStages st).
Proof.
  unfold parseCSV, tryBlock.
  destruct (validate text) as [msg|v]; [intros H; inversion H|].
  destruct (validationErrors v) as [|e errs] eqn:Herrs; simpl;
    [|intros H; inversion H].
  destruct (length (dailyData v) =? 0)%nat; [intros H; inversion H|].
  destruct (length (aggregate (metricNames v) stage (dailyData v)) =? 0)%nat;
    intros H; inversion H; subst.
  exists v. simpl. repeat split; try reflexivity. exact Herrs.
Qed.

(** ** The schema validator *)

(** What [validate] computed when it returns: the shape of the file and
    the two loops. *)
Lemma validate_inr (text : string) (v : Validated) :
  validate text = inr v ->
  exists header dataLines first,
    nonBlankLines text = header :: dataLines /\
    fields header = first :: metricNames v /\
    dataLines <> [] /\ metricNames v <> [] /\
    let rows := rowLoop (first :: metricNames v) (metricNames v) dataLines
                        (headerCheck (metricNames v) []) in
    dailyData v = fst rows /\
    validationErrors v = fold_left rangeStep (fst rows) (snd rows).
Proof.
  unfold validate.
  destruct (nonBlankLines text) as [|header dataLines] eqn:Hlines;
    [simpl; intros H; discriminate H|].
  destruct dataLines as [|line dataLines]; [simpl; intros H; discriminate H|].
  remember (line :: dataLines) as rest eqn:Hrest.
  replace (length (header :: rest) <? 2)%nat with false
    by (subst rest; reflexivity).
  destruct (fields header) as [|first names] eqn:Hfields;
    [intros H; discriminate H|].
  destruct (negb (JS.toUpperCase first =? "DATE")%string);
    [intros H; discriminate H|].
  destruct names as [|name names]; [simpl; intros H; discriminate H|].
  remember (name :: names) as mn eqn:Hmn.
  replace (length mn =? 0)%nat with false by (subst mn; reflexivity).
  destruct (rowLoop (first :: mn) mn rest (headerCheck mn [])) as [dd errs] eqn:Hrows.
  intros H. inversion H; subst v; clear H. simpl.
  exists header, rest, first. rewrite Hrows. simpl.
  repeat split; try reflexivity; try assumption; subst; discriminate.
Qed.

Lemma pushIf_app (cond : bool) (msg : string) (errs : list string) :
  pushIf cond msg errs = errs ++ (if cond then [msg] else []).
Proof. destruct cond; simpl; [reflexivity | symmetry; apply app_nil_r]. Qed.

(** The checks of one day only append to [validationErrors]. *)
Lemma rangeStep_app (errs : list string) (day : Obj) :
  rangeStep errs day = errs ++ rangeStep [] day.
Proof.
  unfold rangeStep. rewrite !pushIf_app. simpl. rewrite <- !List.app_assoc.
  reflexivity.
Qed.

Lemma rangeLoop_app (dailyData : list Obj) (errs : list string) :
  fold_left rangeStep dailyData errs =
  errs ++ flat_map (rangeStep []) dailyData.
Proof.
  revert errs. induction dailyData as [|day dailyData IH]; intros errs; simpl.
  - symmetry. apply app_nil_r.
  - rewrite IH, (rangeStep_app errs day), <- List.app_assoc. reflexivity.
Qed.

Lemma append_assoc (a b c : string) : (a +:+ b) +:+ c = a +:+ (b +:+ c).
Proof. induction a as [|ch a IH]; simpl; [reflexivity | rewrite IH; reflexivity]. Qed.

Lemma prefix_append (a b c : string) :
  String.prefix (a +:+ b) (a +:+ c) = String.prefix b c.
Proof.
  induction a as [|ch a IH]; simpl.
  - reflexivity.
  - destruct (ascii_dec ch ch) as [_|N]; [exact IH | contradiction].
Qed.

Lemma ruleMessage_tagged (rule : Rule) (day : Obj) :
  String.prefix ("Date " +:+ toStr (day !! "date") +:+ ":") (ruleMessage rule day)
  = true.
Proof.
  unfold ruleMessage.
  rewrite (prefix_append "Date "), prefix_append. reflexivity.
Qed.

(** Membership in a list built by appending at the end. *)
Ltac in_snoc_list :=
  solve [ apply in_or_app; right; simpl; left; reflexivity
        | apply in_or_app; left; in_snoc_list ].

(** A rule that a day violates leaves its message among those of the day. *)
Lemma rangeStep_records (rule : Rule) (day : Obj) :
  violates rule day = true -> In (ruleMessage rule day) (rangeStep [] day).
Proof.
  intros Hv. unfold rangeStep. rewrite !pushIf_app.
  unfold ruleMessage, ruleText.
  destruct rule; simpl in Hv; unfold metricOf in *; rewrite Hv; in_snoc_list.
Qed.

(** With a recorded error the [try] block throws the summary of the
    errors before any aggregation. *)
Lemma validation_errors_throw (text : string) (stage : FunnelStageContext)
    (accumulated : list Obj) (v : Validated) :
  validate text = inr v -> validationErrors v <> [] ->
  tryBlock text stage accumulated = inl (errorMsg (validationErrors v)).
Proof.
  intros Hv Herrs. unfold tryBlock. rewrite Hv.
  destruct (validationErrors v) as [|e errs]; [contradiction|]. reflexivity.
Qed.

(** The [catch] block: only the error slot of the stage changes, and
    [onDataLoaded] is not called. *)
Lemma parseCSV_throw (text : string) (stage : FunnelStageContext)
    (st : State) (msg : string) :
  tryBlock text stage (accumulatedShots st) = inl msg ->
  parseCSV text stage st =
  (mkState (<[stageName stage := messageOr msg]> (errors st))
           (uploadedStages st) (accumulatedShots st), None).
Proof. intros H. unfold parseCSV. rewrite H. reflexivity. Qed.

(** X20: for every daily entry that [validate] built and every
    plausibility rule that the entry violates in what it holds under the
    names the checks read, [Ad spent], [Conversions], [LINK CLICKS],
    [REACH], [CTR], [ROAS] and [AD FREQUENCY] spelled so (a negative ad
    spend, conversions, link clicks, reach, ad frequency or ROAS; link
    clicks above reach with both above 0; CTR below 0 or above 1), the
    message of the rule, which starts with "Date <date of the entry>:",
    is among the recorded errors, and the parse fails: it throws, hands
    nothing to [onDataLoaded] and keeps the stored shots. In particular
    an entry that holds 2000 under [LINK CLICKS] and 1000 under [REACH]
    records the logical error with its date. *)
Theorem X20_range_violations_recorded (text : string) (v : Validated) (day : Obj) :
  validate text = inr v -> In day (dailyData v) ->
  (forall rule, violates rule day = true ->
     In (ruleMessage rule day) (validationErrors v) /\
     String.prefix ("Date " +:+ toStr (day !! "date") +:+ ":")
                   (ruleMessage rule day) = true /\
     forall stage st,
       tryBlock text stage (accumulatedShots st) =
         inl (errorMsg (validationErrors v)) /\
       snd (parseCSV text stage st) = None /\
       accumulatedShots (fst (parseCSV text stage st)) = accumulatedShots st) /\
  (day !! "LINK CLICKS" = Some (VNum 2000) ->
   day !! "REACH" = Some (VNum 1000) ->
   In ("Date " +:+ toStr (day !! "date") +:+
       ": Logical error - 'LINK CLICKS' (2000) exceed 'REACH' (1000).")
      (validationErrors v)).
Proof.
  intros Hv Hday.
  destruct (validate_inr text v Hv)
    as (header & dataLines & first & _ & _ & _ & _ & Hrows).
  simpl in Hrows. destruct Hrows as [Hdd Herrs].
  assert (Hrec : forall rule, violates rule day = true ->
                 In (ruleMessage rule day) (validationErrors v)).
  { intros rule Hrule. rewrite Herrs, rangeLoop_app, in_app_iff. right.
    apply in_flat_map. exists day. split.
    - rewrite <- Hdd. exact Hday.
    - apply rangeStep_records. exact Hrule. }
  split.
  - intros rule Hrule. split; [apply Hrec; exact Hrule|].
    split; [apply ruleMessage_tagged|].
    intros stage st.
    assert (Hne : validationErrors v <> []).
    { intros E. specialize (Hrec rule Hrule). rewrite E in Hrec. destruct Hrec. }
    pose proof (validation_errors_throw text stage (accumulatedShots st) v Hv Hne)
      as Hthrow.
    rewrite (parseCSV_throw _ _ _ _ Hthrow). simpl.
    repeat split. exact Hthrow.
  - intros Hclicks Hreach.
    assert (Hrule : violates LinkClicksExceedReach day = true).
    { simpl. unfold metricOf. rewrite Hclicks, Hreach. vm_compute. reflexivity. }
    specialize (Hrec _ Hrule).
    unfold ruleMessage, ruleText, metricOf in Hrec.
    rewrite Hclicks, Hreach in Hrec. simpl numberOr in Hrec.
    replace (JS.numberToString 2000) with "2000" in Hrec
      by (vm_compute; reflexivity).
    replace (JS.numberToString 1000) with "1000" in Hrec
      by (vm_compute; reflexivity).
    exact Hrec.
Qed.

(** The first day of a validated upload that has one is among its days. *)
Lemma firstDay_In (v : Validated) :
  (0 <? length (dailyData v))%nat = true -> In (firstDay v) (dailyData v).
Proof.
  unfold firstDay. destruct (dailyData v) as [|day rest]; simpl.
  - intros H. discriminate H.
  - intros _. left. reflexivity.
Qed.

Lemma X20_witness_clicks_exceed_reach :
  let v := resultOf exceedContent in
  In ("Date " +:+ toStr (firstDay v !! "date") +:+
      ": Logical error - 'LINK CLICKS' (2000) exceed 'REACH' (1000).")
     (validationErrors v).
Proof.
  intros v.
  refine (proj2 (X20_range_violations_recorded exceedContent v (firstDay v) _ _) _ _).
  - vm_compute. reflexivity.
  - apply firstDay_In. vm_compute. reflexivity.
  - vm_compute. reflexivity.
  - vm_compute. reflexivity.
Defined.

(** C8 at an upload whose header is in lower case: the header check,
    which compares lower-cased names, accepts it; the day holds 2000
    under [link clicks] and 1000 under [reach], the names of the header
    as they are written; the checks read [LINK CLICKS] and [REACH], find
    nothing and record no error, and the upload succeeds with a shot of
    2000 link clicks for a reach of 1000.  The same row under the header
    of the template records the logical error. *)
Theorem C8_lower_case_header_skips_the_checks :
  let v := resultOf lowerCaseContent in
  validate lowerCaseContent = inr v /\
  length (dailyData v) = 1%nat /\
  firstDay v !! "link clicks" = Some (VNum 2000) /\
  firstDay v !! "reach" = Some (VNum 1000) /\
  validationErrors v = [] /\
  map (fun shot : Obj => (shot !! "link clicks", shot !! "reach"))
      (uploadedShots lowerCaseContent TOF) =
    [(Some (VNum 2000), Some (VNum 1000))] /\
  validationErrors (resultOf exceedContent) =
    ["Date 1 Mar: Logical error - 'LINK CLICKS' (2000) exceed 'REACH' (1000)."].
Proof. repeat split; vm_compute; reflexivity. Qed.

(** *** Every recorded message is a non-empty string *)

(** An invariant of the state that a [forEach] callback preserves holds
    when the loop ends. *)
Lemma forEachFrom_invariant {A St : Type} (P : St -> Prop)
    (f : St -> nat -> A -> St) :
  (forall st i x, P st -> P (f st i x)) ->
  forall arr i st, P st -> P (forEachFrom f i arr st).
Proof.
  intros Hf arr. induction arr as [|x arr IH]; intros i st Hst; simpl.
  - exact Hst.
  - apply IH, Hf, Hst.
Qed.

Lemma Forall_snoc_nonEmpty (errs : list string) (msg : string) :
  Forall nonEmpty errs -> nonEmpty msg -> Forall nonEmpty (errs ++ [msg]).
Proof. intros H1 H2. apply Forall_app. split; [exact H1 | repeat constructor; exact H2]. Qed.

Lemma headerCheck_nonEmpty (mn : list string) (errs : list string) :
  Forall nonEmpty errs -> Forall nonEmpty (headerCheck mn errs).
Proof.
  intros H. unfold headerCheck.
  destruct (0 <? _)%nat; [|exact H].
  apply Forall_snoc_nonEmpty; [exact H|]. intros E. discriminate E.
Qed.

Lemma metricStep_nonEmpty (parts : list string) (dateStr : string)
    (st : Obj * bool * list string) (colIndex : nat) (headerName : string) :
  Forall nonEmpty (snd st) ->
  Forall nonEmpty (snd (metricStep parts dateStr st colIndex headerName)).
Proof.
  destruct st as [[entry flag] errs]. simpl. intros H. unfold metricStep.
  destruct (negb _); [exact H|].
  destruct (parts !! (colIndex + 1)%nat) as [[|c value]|]; simpl; try exact H.
  apply Forall_snoc_nonEmpty; [exact H|]. intros E. discriminate E.
Qed.

Lemma rowStep_nonEmpty (rawHeaders mn : list string)
    (st : list Obj * list string) (rowIndex : nat) (line : string) :
  Forall nonEmpty (snd st) ->
  Forall nonEmpty (snd (rowStep rawHeaders mn st rowIndex line)).
Proof.
  destruct st as [dd errs]. simpl. intros H. unfold rowStep.
  destruct (fields line) as [|dateStr rest]; [exact H|].
  destruct (forallb _ _); [exact H|].
  destruct (negb _); simpl.
  - apply Forall_snoc_nonEmpty; [exact H|]. intros E. discriminate E.
  - pose proof (forEachFrom_invariant
                  (fun s : Obj * bool * list string => Forall nonEmpty (snd s))
                  (metricStep (dateStr :: rest) dateStr)
                  (metricStep_nonEmpty (dateStr :: rest) dateStr)
                  mn 0 (<["date" := VStr dateStr]> ∅, false, errs) H) as Hloop.
    unfold forEach.
    destruct (forEachFrom _ _ _ _) as [[entry flag] errs'].
    simpl in Hloop. destruct flag; exact Hloop.
Qed.

Lemma rangeStep_nonEmpty (errs : list string) (day : Obj) :
  Forall nonEmpty errs -> Forall nonEmpty (rangeStep errs day).
Proof.
  intros H. unfold rangeStep. rewrite !pushIf_app.
  repeat (apply Forall_app; split); try exact H.
  all: match goal with
       | |- Forall _ (if ?c then _ else _) =>
           destruct c; repeat constructor; intros E; discriminate E
       end.
Qed.

Lemma validate_nonEmpty (text : string) (v : Validated) :
  validate text = inr v -> Forall nonEmpty (validationErrors v).
Proof.
  intros Hv.
  destruct (validate_inr text v Hv)
    as (header & dataLines & first & _ & _ & _ & _ & Hrows).
  simpl in Hrows. destruct Hrows as [_ ->].
  assert (Hrowloop : Forall nonEmpty
            (snd (rowLoop (first :: metricNames v) (metricNames v) dataLines
                    (headerCheck (metricNames v) [])))).
  { unfold rowLoop, forEach.
    apply (forEachFrom_invariant
             (fun s : list Obj * list string => Forall nonEmpty (snd s))).
    - intros st i x. apply rowStep_nonEmpty.
    - simpl. apply headerCheck_nonEmpty. constructor. }
  generalize dependent (snd (rowLoop (first :: metricNames v) (metricNames v)
                               dataLines (headerCheck (metricNames v) []))).
  generalize (fst (rowLoop (first :: metricNames v) (metricNames v)
                     dataLines (headerCheck (metricNames v) []))).
  intros days. induction days as [|day days IH]; intros errs Herrs; simpl.
  - exact Herrs.
  - apply IH, rangeStep_nonEmpty, Herrs.
Qed.

(** The summary of the errors: the first five, one per line, and the
    count of the others when there are more. *)
Lemma errorMsg_first_five (errs : list string) :
  errorMsg errs =
  JS.join newline (take 5 errs) +:+
  (if (5 <? length errs)%nat
   then newline +:+ "...and " +:+ JS.natToString (length errs - 5) +:+ " more errors."
   else "").
Proof.
  unfold errorMsg. f_equal.
  destruct (Nat.ltb_spec 5 (length errs)) as [Hlt|Hge].
  - replace (0 <? Z.of_nat (length errs) - Z.of_nat 5)%Z with true
      by (symmetry; apply Z.ltb_lt; lia).
    replace (Z.to_nat (Z.of_nat (length errs) - Z.of_nat 5)) with (length errs - 5)%nat
      by lia.
    reflexivity.
  - replace (0 <? Z.of_nat (length errs) - Z.of_nat 5)%Z with false
      by (symmetry; apply Z.ltb_ge; lia).
    reflexivity.
Qed.

Lemma append_nonEmpty (a b : string) : nonEmpty a -> nonEmpty (a +:+ b).
Proof. destruct a; [intros H; contradiction | intros _ E; discriminate E]. Qed.

Lemma errorMsg_nonEmpty (errs : list string) :
  errs <> [] -> Forall nonEmpty errs -> nonEmpty (errorMsg errs).
Proof.
  intros Hne Hall. unfold errorMsg. apply append_nonEmpty.
  destruct errs as [|e errs]; [contradiction|].
  inversion Hall as [|? ? He _]; subst.
  change (take 5 (e :: errs)) with (e :: take 4 errs).
  simpl. destruct (take 4 errs); [exact He | apply append_nonEmpty; exact He].
Qed.

Lemma messageOr_nonEmpty (msg : string) : nonEmpty msg -> messageOr msg = msg.
Proof. destruct msg; [intros H; contradiction | reflexivity]. Qed.

(** C7: when [validate] recorded at least one error, of whatever kind,
    the parse fails: the [try] block throws a message made of the first
    five recorded messages, one per line (all of them when there are at
    most five), followed when there are more than five by the count of
    the others; the state keeps its stored shots and its uploaded flags,
    the message goes to the error slot of the stage, and [onDataLoaded]
    is not called. *)
Theorem C7_errors_fail_with_first_five (text : string)
    (stage : FunnelStageContext) (st : State) (v : Validated) :
  validate text = inr v -> validationErrors v <> [] ->
  let errs := validationErrors v in
  let failure :=
    JS.join newline (take 5 errs) +:+
    (if (5 <? length errs)%nat
     then newline +:+ "...and " +:+ JS.natToString (length errs - 5) +:+
          " more errors."
     else "") in
  tryBlock text stage (accumulatedShots st) = inl failure /\
  (length (take 5 errs) <= 5)%nat /\ take 5 errs ++ drop 5 errs = errs /\
  parseCSV text stage st =
    (mkState (<[stageName stage := failure]> (errors st))
             (uploadedStages st) (accumulatedShots st), None).
Proof.
  intros Hv Hne errs failure.
  assert (Hthrow : tryBlock text stage (accumulatedShots st) = inl failure).
  { unfold failure. rewrite <- errorMsg_first_five.
    apply validation_errors_throw; assumption. }
  split; [exact Hthrow|].
  split; [rewrite length_take; lia|].
  split; [apply take_drop|].
  rewrite (parseCSV_throw _ _ _ _ Hthrow), messageOr_nonEmpty; [reflexivity|].
  unfold failure. rewrite <- errorMsg_first_five.
  apply errorMsg_nonEmpty; [exact Hne | apply (validate_nonEmpty text); exact Hv].
Qed.

Lemma C7_witness_eleven_errors :
  let st := mkState ∅ ∅ [shotTagged MOF "MOF-Shot 1"] in
  let errs := validationErrors (resultOf faultyContent) in
  length errs = 11%nat /\
  tryBlock faultyContent TOF (accumulatedShots st) =
    inl (JS.join newline (take 5 errs) +:+
         (if (5 <? length errs)%nat
          then newline +:+ "...and " +:+ JS.natToString (length errs - 5) +:+
               " more errors."
          else "")) /\
  snd (parseCSV faultyContent TOF st) = None /\
  accumulatedShots (fst (parseCSV faultyContent TOF st)) = accumulatedShots st.
Proof.
  intros st errs.
  assert (Hv : validate faultyContent = inr (resultOf faultyContent))
    by (vm_compute; reflexivity).
  assert (Hlen : length errs = 11%nat) by (vm_compute; reflexivity).
  assert (Hne : validationErrors (resultOf faultyContent) <> []).
  { intros E. unfold errs in Hlen. rewrite E in Hlen. discriminate Hlen. }
  destruct (C7_errors_fail_with_first_five faultyContent TOF st _ Hv Hne)
    as (Hthrow & _ & _ & Hparse).
  split; [exact Hlen|]. split; [exact Hthrow|].
  rewrite Hparse. split; reflexivity.
Defined.

(** *** Which rows become daily entries *)

Lemma parseFloat_empty : JS.isNaN (JS.parseFloat "") = true.
Proof. vm_compute. reflexivity. Qed.

(** One metric column: the entry does not depend on the flag or on the
    errors so far, and the flag is raised exactly when the field parses. *)
Lemma metricStep_entry_flag (parts : list string) (dateStr : string)
    (entry : Obj) (flag : bool) (errs : list string) (colIndex : nat)
    (headerName : string) :
  fst (fst (metricStep parts dateStr (entry, flag, errs) colIndex headerName)) =
    fst (fst (metricStep parts dateStr (entry, false, []) colIndex headerName)) /\
  snd (fst (metricStep parts dateStr (entry, flag, errs) colIndex headerName)) =
    flag || parsesAt parts colIndex.
Proof.
  unfold metricStep, parsesAt.
  destruct (parts !! (colIndex + 1)%nat) as [valueStr|].
  - destruct (JS.isNaN (JS.parseFloat valueStr)); simpl.
    + destruct valueStr; simpl; rewrite orb_false_r; split; reflexivity.
    + rewrite orb_true_r. split; reflexivity.
  - change (JS.isNaN nan) with true. simpl. rewrite orb_false_r. split; reflexivity.
Qed.

Lemma metricLoop_entry_flag (parts : list string) (dateStr : string)
    (mn : list string) :
  forall (colIndex : nat) (entry : Obj) (flag : bool) (errs : list string),
    fst (fst (forEachFrom (metricStep parts dateStr) colIndex mn (entry, flag, errs))) =
      fst (fst (forEachFrom (metricStep parts dateStr) colIndex mn (entry, false, []))) /\
    snd (fst (forEachFrom (metricStep parts dateStr) colIndex mn (entry, flag, errs))) =
      flag || existsb (parsesAt parts) (seq colIndex (length mn)).
Proof.
  induction mn as [|headerName mn IH]; intros colIndex entry flag errs.
  - simpl. rewrite orb_false_r. split; reflexivity.
  - cbn [forEachFrom length seq existsb].
    destruct (metricStep_entry_flag parts dateStr entry flag errs colIndex headerName)
      as [He Hf].
    destruct (metricStep_entry_flag parts dateStr entry false [] colIndex headerName)
      as [_ Hf0].
    destruct (metricStep parts dateStr (entry, flag, errs) colIndex headerName)
      as [[e1 f1] errs1].
    destruct (metricStep parts dateStr (entry, false, []) colIndex headerName)
      as [[e0 f0] errs0].
    cbn [fst snd] in He, Hf, Hf0. subst e1 f1 f0.
    destruct (IH (S colIndex) e0 (flag || parsesAt parts colIndex) errs1) as [H1 H2].
    destruct (IH (S colIndex) e0 (false || parsesAt parts colIndex) errs0) as [H3 _].
    rewrite H1, H2, H3, orb_assoc. split; reflexivity.
Qed.

(** In a row whose fields are all empty no metric field parses. *)
Lemma blank_fields_parse_nothing (parts : list string) (colIndex : nat) :
  Forall (eq "") (tail parts) -> parsesAt parts colIndex = false.
Proof.
  intros Hblank. unfold parsesAt.
  destruct (parts !! (colIndex + 1)%nat) as [valueStr|] eqn:Hlookup; [|reflexivity].
  assert (Hv : valueStr = "").
  { destruct parts as [|dateStr rest]; [discriminate Hlookup|]. simpl in Hblank.
    replace (colIndex + 1)%nat with (S colIndex) in Hlookup by lia.
    simpl in Hlookup. rewrite Forall_forall in Hblank.
    symmetry. apply Hblank.
    eapply list_elem_of_lookup_2. exact Hlookup. }
  subst valueStr. rewrite parseFloat_empty. reflexivity.
Qed.

Lemma existsb_all_false {A : Type} (f : A -> bool) (l : list A) :
  (forall x, f x = false) -> existsb f l = false.
Proof.
  intros Hf. induction l as [|x l IH]; simpl; [reflexivity|].
  rewrite Hf, IH. reflexivity.
Qed.

Lemma forallb_blank_tail (parts : list string) :
  forallb (fun p => (p =? "")%string) parts = true -> Forall (eq "") (tail parts).
Proof.
  intros H. rewrite forallb_forall in H. apply Forall_forall.
  intros p Hp. apply list_elem_of_In in Hp. symmetry. apply String.eqb_eq, H.
  destruct parts; [destruct Hp | right; exact Hp].
Qed.

(** One data row: it adds its entry to [dailyData] exactly when it yields
    a number. *)
Lemma rowStep_dailyData (rawHeaders mn : list string) (dd : list Obj)
    (errs : list string) (rowIndex : nat) (line : string) :
  fst (rowStep rawHeaders mn (dd, errs) rowIndex line) =
  dd ++ (if yieldsNumber rawHeaders mn line then [rowEntry mn line] else []).
Proof.
  unfold rowStep, yieldsNumber, rowEntry.
  destruct (fields line) as [|dateStr rest] eqn:Hfields.
  - simpl. rewrite (existsb_all_false (parsesAt [])) by reflexivity.
    rewrite andb_false_r, app_nil_r. reflexivity.
  - destruct (forallb _ (dateStr :: rest)) eqn:Hblank.
    + rewrite (existsb_all_false (parsesAt (dateStr :: rest))).
      * rewrite andb_false_r. simpl. rewrite app_nil_r. reflexivity.
      * intros i. apply blank_fields_parse_nothing, forallb_blank_tail, Hblank.
    + destruct (length (dateStr :: rest) =? length rawHeaders)%nat; simpl negb; cbv iota.
      * unfold forEach.
        destruct (metricLoop_entry_flag (dateStr :: rest) dateStr mn 0
                    (<["date" := VStr dateStr]> ∅) false errs) as [He Hf].
        simpl in He, Hf.
        destruct (forEachFrom (metricStep (dateStr :: rest) dateStr) 0 mn
                    (<["date" := VStr dateStr]> ∅, false, errs)) as [[e f] errs'].
        simpl in He, Hf. subst e f. rewrite andb_true_l.
        destruct (existsb _ _); simpl; [reflexivity | rewrite app_nil_r; reflexivity].
      * simpl. rewrite app_nil_r. reflexivity.
Qed.

Lemma rowLoop_dailyData_from (rawHeaders mn : list string) (dataLines : list string) :
  forall (rowIndex : nat) (dd : list Obj) (errs : list string),
    fst (forEachFrom (rowStep rawHeaders mn) rowIndex dataLines (dd, errs)) =
    dd ++ map (rowEntry mn) (List.filter (yieldsNumber rawHeaders mn) dataLines).
Proof.
  induction dataLines as [|line dataLines IH]; intros rowIndex dd errs.
  - simpl. rewrite app_nil_r. reflexivity.
  - cbn [forEachFrom List.filter].
    pose proof (rowStep_dailyData rawHeaders mn dd errs rowIndex line) as Hstep.
    destruct (rowStep rawHeaders mn (dd, errs) rowIndex line) as [dd1 errs1].
    cbn [fst] in Hstep. subst dd1. rewrite IH.
    destruct (yieldsNumber rawHeaders mn line); cbn [map].
    + rewrite <- List.app_assoc. reflexivity.
    + rewrite app_nil_r. reflexivity.
Qed.

Lemma rowLoop_dailyData (rawHeaders mn dataLines errs : list string) :
  fst (rowLoop rawHeaders mn dataLines errs) =
  map (rowEntry mn) (List.filter (yieldsNumber rawHeaders mn) dataLines).
Proof. unfold rowLoop, forEach. apply (rowLoop_dailyData_from _ _ _ 0 []). Qed.

(** A metric column over an empty field: the entry gets 0, nothing is
    recorded and the flag stays. *)
Lemma metricStep_blank (dateStr : string) (rest : list string)
    (entry : Obj) (flag : bool) (errs : list string) (colIndex : nat)
    (headerName : string) :
  Forall (eq "") rest ->
  metricStep (dateStr :: rest) dateStr (entry, flag, errs) colIndex headerName =
  (setProperty headerName (VNum 0) entry, flag, errs).
Proof.
  intros Hblank. unfold metricStep.
  replace (colIndex + 1)%nat with (S colIndex) by lia.
  change ((dateStr :: rest) !! S colIndex) with (rest !! colIndex).
  destruct (rest !! colIndex) as [valueStr|] eqn:Hlookup.
  - assert (Hv : valueStr = "").
    { rewrite Forall_forall in Hblank. symmetry. apply Hblank.
      eapply list_elem_of_lookup_2. exact Hlookup. }
    subst valueStr. rewrite parseFloat_empty. reflexivity.
  - change (JS.isNaN nan) with true. reflexivity.
Qed.

(** A row with the right number of fields whose metric fields are all
    empty changes neither [dailyData] nor [validationErrors]. *)
Lemma rowStep_blank_metrics (rawHeaders mn : list string) (dd : list Obj)
    (errs : list string) (rowIndex : nat) (line : string) :
  length (fields line) = length rawHeaders ->
  Forall (eq "") (tail (fields line)) ->
  rowStep rawHeaders mn (dd, errs) rowIndex line = (dd, errs).
Proof.
  intros Hlen Hblank. unfold rowStep.
  destruct (fields line) as [|dateStr rest] eqn:Hfields; [reflexivity|].
  destruct (forallb _ _); [reflexivity|].
  rewrite Hlen, Nat.eqb_refl. simpl negb. cbv iota.
  simpl in Hblank.
  assert (Hloop : forall mn colIndex entry,
            exists entry',
              forEachFrom (metricStep (dateStr :: rest) dateStr) colIndex mn
                          (entry, false, errs) = (entry', false, errs)).
  { clear -Hblank. intros mn.
    induction mn as [|headerName mn IH]; intros colIndex entry.
    - exists entry. reflexivity.
    - cbn [forEachFrom]. rewrite (metricStep_blank _ _ _ _ _ _ _ Hblank).
      apply IH. }
  unfold forEach. destruct (Hloop mn 0 (<["date" := VStr dateStr]> ∅)) as [entry' ->].
  reflexivity.
Qed.

(** C10: the daily sequence of a validated upload holds one entry for
    each data row that yields a number (right number of fields, at least
    one metric field that parses), in the order of the rows, and no other;
    a row with the right number of fields whose metric fields are all
    empty yields none, and the row loop passes over it without recording
    an error and without adding an entry. *)
Theorem C10_blank_metric_rows_dropped (text : string) (v : Validated) :
  validate text = inr v ->
  exists header dataLines,
    nonBlankLines text = header :: dataLines /\
    dailyData v =
      map (rowEntry (metricNames v))
          (List.filter (yieldsNumber (fields header) (metricNames v)) dataLines) /\
    forall line,
      length (fields line) = length (fields header) ->
      Forall (eq "") (tail (fields line)) ->
      yieldsNumber (fields header) (metricNames v) line = false /\
      forall dailyData validationErrors rowIndex,
        rowStep (fields header) (metricNames v)
                (dailyData, validationErrors) rowIndex line =
        (dailyData, validationErrors).
Proof.
  intros Hv.
  destruct (validate_inr text v Hv)
    as (header & dataLines & first & Hlines & Hfields & _ & _ & Hrows).
  simpl in Hrows. destruct Hrows as [Hdd _].
  exists header, dataLines. split; [exact Hlines|]. split.
  - rewrite Hdd, Hfields. apply rowLoop_dailyData.
  - intros line Hlen Hblank. split.
    + unfold yieldsNumber.
      rewrite (existsb_all_false (parsesAt (fields line))); [apply andb_false_r|].
      intros i. apply blank_fields_parse_nothing, Hblank.
    + intros dd errs rowIndex. apply rowStep_blank_metrics; assumption.
Qed.

Lemma C10_witness_blank_fourth_day :
  length (nonBlankLines blankRowContent) = 5%nat /\
  length (dailyData (resultOf blankRowContent)) = 3%nat /\
  validationErrors (resultOf blankRowContent) = [] /\
  exists header dataLines,
    nonBlankLines blankRowContent = header :: dataLines /\
    dailyData (resultOf blankRowContent) =
      map (rowEntry (metricNames (resultOf blankRowContent)))
          (List.filter (yieldsNumber (fields header)
                          (metricNames (resultOf blankRowContent))) dataLines).
Proof.
  split; [vm_compute; reflexivity|].
  split; [vm_compute; reflexivity|].
  split; [vm_compute; reflexivity|].
  assert (Hv : validate blankRowContent = inr (resultOf blankRowContent))
    by (vm_compute; reflexivity).
  destruct (C10_blank_metric_rows_dropped blankRowContent _ Hv)
    as (header & dataLines & Hlines & Hdd & _).
  exists header, dataLines. split; assumption.
Defined.

(** ** The shot aggregator *)

(** The loop leaves through its guard. *)
Lemma shotLoop_done (mn : list string) (stage : FunnelStageContext)
    (dailyData : list Obj) (i : nat) (shotData : list Obj) :
  (length dailyData <= i)%nat ->
  shotLoop mn stage dailyData i shotData = shotData.
Proof.
  intros Hle. rewrite shotLoop_equation_1.
  destruct (decide (i < length dailyData)%nat) as [Hlt|Hge]; [lia|].
  reflexivity.
Qed.

(** One turn of the loop. *)
Lemma shotLoop_step (mn : list string) (stage : FunnelStageContext)
    (dailyData : list Obj) (i : nat) (shotData : list Obj) :
  (i < length dailyData)%nat ->
  shotLoop mn stage dailyData i shotData =
  shotLoop mn stage dailyData (i + 3) (shotData ++ [shotAt mn stage dailyData i]).
Proof.
  intros Hlt. rewrite shotLoop_equation_1.
  destruct (decide (i < length dailyData)%nat) as [Hlt'|Hge]; [|lia].
  unfold shotAt. simpl.
  destruct (take 3 (drop i dailyData)) as [|first rest] eqn:Hdays; [|reflexivity].
  apply (f_equal length) in Hdays.
  rewrite length_take, length_drop in Hdays. cbn [length] in Hdays. lia.
Qed.

Lemma ceilDiv3_zero (n : nat) : ceilDiv3 n = 0%nat -> n = 0%nat.
Proof.
  unfold ceilDiv3. intros H.
  destruct n as [|n]; [reflexivity|].
  pose proof (Nat.div_str_pos (S n + 2) 3) as Hpos. lia.
Qed.

Lemma ceilDiv3_step (n : nat) : (0 < n)%nat -> ceilDiv3 n = S (ceilDiv3 (n - 3)).
Proof.
  unfold ceilDiv3. intros Hpos.
  destruct (Nat.le_gt_cases 3 n) as [H3|H3].
  - replace (n + 2)%nat with ((n - 3 + 2) + 1 * 3)%nat by lia.
    rewrite Nat.div_add by lia. lia.
  - assert (Hn : n = 1%nat \/ n = 2%nat) by lia.
    destruct Hn as [-> | ->]; reflexivity.
Qed.

Lemma shotLoop_windows (mn : list string) (stage : FunnelStageContext)
    (dailyData : list Obj) :
  forall (count i : nat) (shotData : list Obj),
    ceilDiv3 (length dailyData - i) = count ->
    shotLoop mn stage dailyData i shotData =
    shotData ++ map (shotAt mn stage dailyData) (windowStarts i count).
Proof.
  induction count as [|count IH]; intros i shotData Hcount.
  - apply ceilDiv3_zero in Hcount. simpl. rewrite app_nil_r.
    apply shotLoop_done. lia.
  - assert (Hlt : (i < length dailyData)%nat).
    { destruct (Nat.le_gt_cases (length dailyData) i) as [Hle|Hlt]; [|exact Hlt].
      replace (length dailyData - i)%nat with 0%nat in Hcount by lia.
      discriminate Hcount. }
    rewrite shotLoop_step by exact Hlt.
    rewrite (IH (i + 3)%nat).
    + simpl. rewrite <- List.app_assoc. reflexivity.
    + rewrite ceilDiv3_step in Hcount by lia.
      replace (length dailyData - (i + 3))%nat with (length dailyData - i - 3)%nat
        by lia.
      lia.
Qed.

(** The shots of a daily sequence: one per window start 0, 3, 6, ... *)
Lemma aggregate_windows (mn : list string) (stage : FunnelStageContext)
    (dailyData : list Obj) :
  aggregate mn stage dailyData =
  map (shotAt mn stage dailyData) (windowStarts 0 (ceilDiv3 (length dailyData))).
Proof.
  unfold aggregate.
  rewrite (shotLoop_windows mn stage dailyData (ceilDiv3 (length dailyData)) 0 []).
  - reflexivity.
  - rewrite Nat.sub_0_r. reflexivity.
Qed.

Lemma windowStarts_length (i count : nat) : length (windowStarts i count) = count.
Proof.
  revert i. induction count as [|count IH]; intros i; simpl; [reflexivity|].
  rewrite IH. reflexivity.
Qed.

Lemma windowStarts_lookup (count : nat) :
  forall i j, (j < count)%nat -> windowStarts i count !! j = Some (i + 3 * j)%nat.
Proof.
  induction count as [|count IH]; intros i j Hj; [lia|].
  destruct j as [|j]; simpl.
  - f_equal. lia.
  - rewrite IH by lia. f_equal. lia.
Qed.

(** The windows themselves: consecutive, none of them empty, at most
    three days each, and together the whole sequence. *)
Lemma windows_concat (dailyData : list Obj) :
  forall count i,
    ceilDiv3 (length dailyData - i) = count ->
    concat (map (fun start => take 3 (drop start dailyData)) (windowStarts i count)) =
    drop i dailyData.
Proof.
  induction count as [|count IH]; intros i Hcount; simpl.
  - apply ceilDiv3_zero in Hcount. symmetry. apply drop_ge. lia.
  - rewrite IH.
    + rewrite <- (take_drop 3 (drop i dailyData)) at 2.
      rewrite drop_drop. reflexivity.
    + destruct (Nat.le_gt_cases (length dailyData) i) as [Hle|Hlt].
      * replace (length dailyData - i)%nat with 0%nat in Hcount by lia.
        discriminate Hcount.
      * rewrite ceilDiv3_step in Hcount by lia.
        replace (length dailyData - (i + 3))%nat with (length dailyData - i - 3)%nat
          by lia.
        lia.
Qed.

(** An assignment under [__proto__] stores nothing; under another key it
    is read back, and the other keys keep what they held. *)
Lemma setProperty_proto (v : JSVal) (obj : Obj) :
  setProperty "__proto__" v obj = obj.
Proof. reflexivity. Qed.

Lemma setProperty_insert (key : string) (v : JSVal) (obj : Obj) :
  key <> "__proto__" -> setProperty key v obj = <[key := v]> obj.
Proof.
  intros Hne. unfold setProperty.
  destruct (String.eqb_spec key "__proto__") as [E|_]; [contradiction | reflexivity].
Qed.

Lemma setProperty_lookup (key : string) (v : JSVal) (obj : Obj) (k : string) :
  setProperty key v obj !! k =
  if decide (k = key /\ k <> "__proto__") then Some v else obj !! k.
Proof.
  unfold setProperty.
  destruct (String.eqb_spec key "__proto__") as [E|N].
  - rewrite decide_False; [reflexivity|]. intros [-> H]. contradiction.
  - destruct (decide (k = key)) as [->|Hne].
    + rewrite decide_True by (split; [reflexivity | exact N]).
      apply lookup_insert_eq.
    + rewrite decide_False by (intros [H _]; contradiction).
      apply lookup_insert_ne. congruence.
Qed.

(** Assigning one value per name of a list: the last assignment to a name
    other than [__proto__] is what is read, the other names keep what
    they held. *)
Lemma fold_setProperty_lookup (g : string -> JSVal) (mn : list string) :
  forall (entry : Obj) (k : string),
    fold_left (fun e name => setProperty name (g name) e) mn entry !! k =
    if decide (k ∈ mn /\ k <> "__proto__") then Some (g k) else entry !! k.
Proof.
  induction mn as [|name mn IH]; intros entry k; cbn [fold_left].
  - rewrite decide_False; [reflexivity|].
    intros [Hin _]. apply elem_of_nil in Hin. destruct Hin.
  - rewrite IH, setProperty_lookup.
    destruct (decide (k ∈ mn /\ k <> "__proto__")) as [[Hin Hne]|Hnin].
    + rewrite decide_True by (split; [right; exact Hin | exact Hne]). reflexivity.
    + destruct (decide (k = name /\ k <> "__proto__")) as [[-> Hne]|Hnot].
      * rewrite decide_True by (split; [left | exact Hne]). reflexivity.
      * rewrite decide_False; [reflexivity|].
        intros [Hin Hne]. apply elem_of_cons in Hin. tauto.
Qed.

Lemma makeShot_lookup (mn : list string) (stage : FunnelStageContext)
    (shotId : string) (daysInShot : list Obj) (first lastDay : Obj) (k : string) :
  makeShot mn stage shotId daysInShot first lastDay !! k =
  if decide (k ∈ mn /\ k <> "__proto__") then Some (VNum (meanOf k daysInShot))
  else shotHead stage shotId daysInShot first lastDay !! k.
Proof.
  unfold makeShot.
  apply (fold_setProperty_lookup (fun name => VNum (meanOf name daysInShot))).
Qed.

Lemma assign_lookup_eq (k : string) (v : option JSVal) (obj : Obj) :
  assign k v obj !! k = v.
Proof.
  destruct v as [x|]; simpl; [apply lookup_insert_eq | apply lookup_delete_eq].
Qed.

Lemma assign_lookup_ne (k k' : string) (v : option JSVal) (obj : Obj) :
  k <> k' -> assign k v obj !! k' = obj !! k'.
Proof.
  intros Hne. destruct v as [x|]; simpl;
    [apply lookup_insert_ne | apply lookup_delete_ne]; exact Hne.
Qed.

Lemma shotHead_lookups (stage : FunnelStageContext) (shotId : string)
    (daysInShot : list Obj) (first lastDay : Obj) :
  let head := shotHead stage shotId daysInShot first lastDay in
  head !! "shotId" = Some (VStr shotId) /\
  head !! "startDate" = first !! "date" /\
  head !! "endDate" = lastDay !! "date" /\
  head !! "numDaysInShot" = Some (VNum (JS.ofNat (length daysInShot))) /\
  head !! "funnelStage" = Some (VStr (stageName stage)).
Proof.
  unfold shotHead. repeat split.
  - rewrite !lookup_insert_ne, !assign_lookup_ne by discriminate.
    apply lookup_insert_eq.
  - rewrite !lookup_insert_ne, assign_lookup_ne by discriminate.
    apply assign_lookup_eq.
  - rewrite !lookup_insert_ne by discriminate. apply assign_lookup_eq.
  - rewrite lookup_insert_ne by discriminate. apply lookup_insert_eq.
  - apply lookup_insert_eq.
Qed.

(** ** The template scenario *)

Lemma templateHeaders_fields :
  fields templateHeaders = "DATE" :: templateMetricNames.
Proof. vm_compute. reflexivity. Qed.

(** Three validated days make one shot. *)
Lemma aggregate_three_days (mn : list string) (stage : FunnelStageContext)
    (d1 d2 d3 : Obj) :
  aggregate mn stage [d1; d2; d3] =
  [makeShot mn stage (stageName stage +:+ "-Shot 1") [d1; d2; d3] d1 d3].
Proof. rewrite aggregate_windows. reflexivity. Qed.

Ltac in_template :=
  lazymatch goal with
  | |- _ /\ _ => split; [in_template | discriminate]
  | |- _ => apply list_elem_of_In; unfold templateMetricNames; simpl; tauto
  end.

Ltac not_in_template :=
  rewrite list_elem_of_In; unfold templateMetricNames; simpl;
  intuition discriminate.

(** C4, as stated, fails: on the template (three days, ad spend 150 each,
    conversions 10, 12 and 8, uploaded as TOF) the total of conversions is
    30, the average 10 times 3 days, and not 90. *)
Lemma C4_counterexample_conversions_30 :
  let shots := uploadedShots templateContent TOF in
  length shots = 1%nat /\
  totalAdSpent (calculateMetrics shots) = 450%float /\
  totalConversions (calculateMetrics shots) = 30%float /\
  totalConversions (calculateMetrics shots) <> 90%float.
Proof.
  repeat split; try (vm_compute; reflexivity).
  floats_differ.
Qed.

(** C4 (amended): an upload under TOF with the template header and three
    valid days whose ad spend is 150 each and whose conversions are 10, 12
    and 8 produces exactly one shot, with [numDaysInShot] 3 and an average
    ad spend of 150; the metrics of that shot have total ad spend 450 and
    total conversions 30. *)
Theorem C4_template_three_days (text : string) (v : Validated)
    (d1 d2 d3 : Obj) (st : State) :
  validate text = inr v ->
  metricNames v = templateMetricNames ->
  validationErrors v = [] ->
  dailyData v = [d1; d2; d3] ->
  d1 !! "Ad spent" = Some (VNum 150) ->
  d2 !! "Ad spent" = Some (VNum 150) ->
  d3 !! "Ad spent" = Some (VNum 150) ->
  d1 !! "Conversions" = Some (VNum 10) ->
  d2 !! "Conversions" = Some (VNum 12) ->
  d3 !! "Conversions" = Some (VNum 8) ->
  accumulatedShots st = [] ->
  exists shot,
    snd (parseCSV text TOF st) = Some [shot] /\
    shot !! "shotId" = Some (VStr "TOF-Shot 1") /\
    shot !! "numDaysInShot" = Some (VNum 3) /\
    shot !! "Ad spent" = Some (VNum 150) /\
    totalAdSpent (calculateMetrics [shot]) = 450%float /\
    totalConversions (calculateMetrics [shot]) = 30%float.
Proof.
  intros Hv Hmn Herrs Hdd Hs1 Hs2 Hs3 Hc1 Hc2 Hc3 Hst.
  set (shot := makeShot templateMetricNames TOF "TOF-Shot 1" [d1; d2; d3] d1 d3).
  assert (Hdays : shot !! "numDaysInShot" = Some (VNum 3)).
  { unfold shot. rewrite makeShot_lookup, decide_False by not_in_template.
    apply shotHead_lookups. }
  assert (Hspend : shot !! "Ad spent" = Some (VNum 150)).
  { unfold shot. rewrite makeShot_lookup, decide_True by in_template.
    unfold meanOf, metricSum. simpl. rewrite Hs1, Hs2, Hs3.
    vm_compute. reflexivity. }
  assert (Hconv : shot !! "Conversions" = Some (VNum 10)).
  { unfold shot. rewrite makeShot_lookup, decide_True by in_template.
    unfold meanOf, metricSum. simpl. rewrite Hc1, Hc2, Hc3.
    vm_compute. reflexivity. }
  exists shot. repeat split.
  - unfold parseCSV, tryBlock. rewrite Hv, Herrs, Hdd, Hmn, Hst.
    rewrite aggregate_three_days. reflexivity.
  - unfold shot. rewrite makeShot_lookup, decide_False by not_in_template.
    apply shotHead_lookups.
  - exact Hdays.
  - exact Hspend.
  - destruct (totals_are_estimates [shot]) as (-> & _).
    unfold estimatedTotal, daysInShot. cbn [fold_left].
    rewrite Hspend, Hdays. vm_compute. reflexivity.
  - destruct (totals_are_estimates [shot]) as (_ & -> & _).
    unfold estimatedTotal, daysInShot. cbn [fold_left].
    rewrite Hconv, Hdays. vm_compute. reflexivity.
Qed.

Lemma three_elements {A : Type} (d : A) (l : list A) :
  length l = 3%nat -> l = [nth 0 l d; nth 1 l d; nth 2 l d].
Proof.
  destruct l as [|a [|b [|c [|e l]]]]; intros H; try discriminate H. reflexivity.
Qed.

Lemma C4_witness_template :
  exists shot,
    snd (parseCSV templateContent TOF (mkState ∅ ∅ [])) = Some [shot] /\
    shot !! "shotId" = Some (VStr "TOF-Shot 1") /\
    shot !! "numDaysInShot" = Some (VNum 3) /\
    shot !! "Ad spent" = Some (VNum 150) /\
    totalAdSpent (calculateMetrics [shot]) = 450%float /\
    totalConversions (calculateMetrics [shot]) = 30%float.
Proof.
  apply (C4_template_three_days templateContent (resultOf templateContent)
           (nth 0 (dailyData (resultOf templateContent)) ∅)
           (nth 1 (dailyData (resultOf templateContent)) ∅)
           (nth 2 (dailyData (resultOf templateContent)) ∅)).
  - vm_compute. reflexivity.
  - vm_compute. reflexivity.
  - vm_compute. reflexivity.
  - apply three_elements. vm_compute. reflexivity.
  - vm_compute. reflexivity.
  - vm_compute. reflexivity.
  - vm_compute. reflexivity.
  - vm_compute. reflexivity.
  - vm_compute. reflexivity.
  - vm_compute. reflexivity.
  - reflexivity.
Defined.

(** ** What the aggregator guarantees *)

Lemma ceilDiv3_bounds (n : nat) :
  (n <= 3 * ceilDiv3 n)%nat /\ (3 * ceilDiv3 n < n + 3)%nat.
Proof.
  unfold ceilDiv3.
  pose proof (Nat.div_mod_eq (n + 2) 3) as Hdiv.
  pose proof (Nat.mod_upper_bound (n + 2) 3) as Hmod.
  lia.
Qed.

Lemma windowsOf_lookup (dailyData : list Obj) (j : nat) :
  (j < ceilDiv3 (length dailyData))%nat ->
  windowsOf dailyData !! j = Some (take 3 (drop (3 * j) dailyData)).
Proof.
  intros Hj. unfold windowsOf.
  rewrite list_lookup_fmap, (windowStarts_lookup _ 0 j Hj). reflexivity.
Qed.

(** The number of shots is [ceil(n / 3)] whatever the columns are; the
    windows are consecutive and cover the sequence once; every window has
    three days but the last, which has one, two or three. *)
Lemma aggregate_partition (mn : list string) (stage : FunnelStageContext)
    (dailyData : list Obj) :
  length (aggregate mn stage dailyData) = ceilDiv3 (length dailyData) /\
  length (windowsOf dailyData) = ceilDiv3 (length dailyData) /\
  concat (windowsOf dailyData) = dailyData /\
  (forall j w, windowsOf dailyData !! j = Some w ->
     (1 <= length w <= 3)%nat /\
     ((j + 1 < ceilDiv3 (length dailyData))%nat -> length w = 3%nat)).
Proof.
  split; [|split; [|split]].
  - rewrite aggregate_windows, length_map. apply windowStarts_length.
  - unfold windowsOf. rewrite length_map. apply windowStarts_length.
  - unfold windowsOf. rewrite (windows_concat dailyData _ 0); [reflexivity|].
    rewrite Nat.sub_0_r. reflexivity.
  - intros j w Hw.
    assert (Hj : (j < ceilDiv3 (length dailyData))%nat).
    { apply lookup_lt_Some in Hw. unfold windowsOf in Hw.
      rewrite length_map, windowStarts_length in Hw. exact Hw. }
    rewrite (windowsOf_lookup _ _ Hj) in Hw. inversion Hw; subst w; clear Hw.
    rewrite length_take, length_drop.
    pose proof (ceilDiv3_bounds (length dailyData)) as [Hlo Hhi].
    lia.
Qed.

Lemma shotHead_proto (stage : FunnelStageContext) (shotId : string)
    (daysInShot : list Obj) (first lastDay : Obj) :
  shotHead stage shotId daysInShot first lastDay !! "__proto__" = None.
Proof.
  unfold shotHead.
  rewrite !lookup_insert_ne, !assign_lookup_ne, lookup_insert_ne by discriminate.
  apply lookup_empty.
Qed.

(** The shot of window [j]: every column of the upload but [__proto__]
    holds the mean of the column over the window; each of the five fixed
    properties holds what the loop assigned to it unless a column of the
    upload has its name; nothing is held under [__proto__]. *)
Lemma aggregate_shot_fields (mn : list string) (stage : FunnelStageContext)
    (dailyData : list Obj) (j : nat) (shot : Obj) :
  aggregate mn stage dailyData !! j = Some shot ->
  exists first rest,
    windowsOf dailyData !! j = Some (first :: rest) /\
    let w := first :: rest in
    (forall m, m ∈ mn -> m <> "__proto__" ->
       shot !! m = Some (VNum (meanOf m w))) /\
    ("shotId" ∉ mn ->
     shot !! "shotId" =
       Some (VStr (stageName stage +:+ "-Shot " +:+ JS.natToString (j + 1)))) /\
    ("startDate" ∉ mn -> shot !! "startDate" = first !! "date") /\
    ("endDate" ∉ mn -> shot !! "endDate" = List.last w first !! "date") /\
    ("numDaysInShot" ∉ mn ->
     shot !! "numDaysInShot" = Some (VNum (JS.ofNat (length w)))) /\
    ("funnelStage" ∉ mn ->
     shot !! "funnelStage" = Some (VStr (stageName stage))) /\
    shot !! "__proto__" = None.
Proof.
  intros Hshot.
  assert (Hj : (j < ceilDiv3 (length dailyData))%nat).
  { apply lookup_lt_Some in Hshot.
    rewrite aggregate_windows, length_map, windowStarts_length in Hshot.
    exact Hshot. }
  rewrite aggregate_windows, list_lookup_fmap,
    (windowStarts_lookup _ 0 j Hj) in Hshot.
  assert (Hs : shot = shotAt mn stage dailyData (3 * j)).
  { cbv [fmap option_fmap option_map] in Hshot.
    injection Hshot as Hs. symmetry. exact Hs. }
  subst shot. clear Hshot.
  rewrite (windowsOf_lookup _ _ Hj).
  unfold shotAt.
  destruct (take 3 (drop (3 * j) dailyData)) as [|first rest] eqn:Hw.
  - exfalso. apply (f_equal length) in Hw.
    rewrite length_take, length_drop in Hw. cbn [length] in Hw.
    pose proof (ceilDiv3_bounds (length dailyData)). lia.
  - exists first, rest. split; [reflexivity|].
    replace (3 * j / 3 + 1)%nat with (j + 1)%nat
      by (rewrite Nat.mul_comm, Nat.div_mul; lia).
    pose proof (shotHead_lookups stage
                  (stageName stage +:+ "-Shot " +:+ JS.natToString (j + 1))
                  (first :: rest) first (List.last (first :: rest) first))
      as (Hid & Hstart & Hend & Hdays & Hstage).
    repeat split.
    + intros m Hm Hne. rewrite makeShot_lookup, decide_True by (split; assumption).
      reflexivity.
    + intros Hn. rewrite makeShot_lookup, decide_False by tauto. exact Hid.
    + intros Hn. rewrite makeShot_lookup, decide_False by tauto. exact Hstart.
    + intros Hn. rewrite makeShot_lookup, decide_False by tauto. exact Hend.
    + intros Hn. rewrite makeShot_lookup, decide_False by tauto. exact Hdays.
    + intros Hn. rewrite makeShot_lookup, decide_False by tauto. exact Hstage.
    + rewrite makeShot_lookup, decide_False by tauto. apply shotHead_proto.
Qed.

(** The shots of an upload carry the tag of its stage unless the upload
    has a column named [funnelStage]. *)
Lemma aggregate_tagged (mn : list string) (stage : FunnelStageContext)
    (dailyData : list Obj) :
  "funnelStage" ∉ mn -> tagged stage (aggregate mn stage dailyData).
Proof.
  intros Hn. unfold tagged. apply Forall_lookup. intros j shot Hshot.
  destruct (aggregate_shot_fields _ _ _ _ _ Hshot)
    as (first & rest & _ & _ & _ & _ & _ & _ & Hstage & _).
  apply Hstage, Hn.
Qed.

(** ** The objects of the pipeline are well typed *)

(** A metric column always assigns a number. *)
Lemma metricStep_assigns (parts : list string) (dateStr : string)
    (entry : Obj) (flag : bool) (errs : list string) (colIndex : nat)
    (headerName : string) :
  exists x,
    fst (fst (metricStep parts dateStr (entry, flag, errs) colIndex headerName)) =
    setProperty headerName (VNum x) entry.
Proof.
  unfold metricStep.
  destruct (negb _); [eexists; reflexivity|].
  destruct (parts !! (colIndex + 1)%nat) as [[|c s]|]; eexists; reflexivity.
Qed.

(** After the metric loop every column of the header but [__proto__]
    holds a number, and a string is held by [date] at most. *)
Lemma metricLoop_numbers (parts : list string) (dateStr : string) (mn : list string) :
  forall (colIndex : nat) (entry : Obj) (flag : bool) (errs : list string),
    let entry' :=
      fst (fst (forEachFrom (metricStep parts dateStr) colIndex mn
                            (entry, flag, errs))) in
    (forall m, m ∈ mn /\ m <> "__proto__" \/ (exists x, entry !! m = Some (VNum x)) ->
               exists x, entry' !! m = Some (VNum x)) /\
    ((forall k s, entry !! k = Some (VStr s) -> k = "date") ->
     forall k s, entry' !! k = Some (VStr s) -> k = "date").
Proof.
  induction mn as [|headerName mn IH]; intros colIndex entry flag errs.
  - simpl. split.
    + intros m [[Hin _]|Hnum]; [apply elem_of_nil in Hin; destruct Hin | exact Hnum].
    + intros H. exact H.
  - cbn [forEachFrom].
    destruct (metricStep_assigns parts dateStr entry flag errs colIndex headerName)
      as [x Hx].
    destruct (metricStep parts dateStr (entry, flag, errs) colIndex headerName)
      as [[e1 f1] errs1].
    cbn [fst] in Hx. subst e1.
    destruct (IH (S colIndex) (setProperty headerName (VNum x) entry) f1 errs1)
      as [IH1 IH2].
    split.
    + intros m Hm. apply IH1. rewrite setProperty_lookup.
      destruct (decide (m = headerName /\ m <> "__proto__")) as [_|Hnot].
      * right. exists x. reflexivity.
      * destruct Hm as [[Hin Hne]|[y Hy]].
        -- left. apply elem_of_cons in Hin. tauto.
        -- right. exists y. exact Hy.
    + intros Hentry. apply IH2. intros k s Hk.
      rewrite setProperty_lookup in Hk.
      destruct (decide (k = headerName /\ k <> "__proto__"));
        [discriminate Hk | apply (Hentry k s Hk)].
Qed.

(** [split] returns at least one piece, so a row has at least one field. *)
Lemma split_nonempty (sep : ascii) (s : string) : JS.split sep s <> [].
Proof.
  destruct s as [|c s]; simpl; [discriminate|].
  destruct (Ascii.eqb c sep); [discriminate|].
  destruct (JS.split sep s); discriminate.
Qed.

Lemma fields_nonempty (line : string) : fields line <> [].
Proof.
  unfold fields. pose proof (split_nonempty "," line) as Hs.
  destruct (JS.split "," line); [contradiction | discriminate].
Qed.

(** The daily entries of a validated upload hold a number under every
    column of the header but [__proto__]; only [date] can hold a string.
    So the reads [day[name] ?? 0] of the range checks and of the
    aggregation never meet a string of the entry. *)
Lemma dailyData_numbers (text : string) (v : Validated) (day : Obj) :
  validate text = inr v -> day ∈ dailyData v ->
  (forall m, m ∈ metricNames v -> m <> "__proto__" ->
     exists x, day !! m = Some (VNum x)) /\
  (forall k s, day !! k = Some (VStr s) -> k = "date").
Proof.
  intros Hv Hday.
  destruct (validate_inr text v Hv)
    as (header & dataLines & first & _ & _ & _ & _ & Hrows).
  simpl in Hrows. destruct Hrows as [Hdd _].
  rewrite Hdd, rowLoop_dailyData in Hday.
  apply list_elem_of_fmap in Hday. destruct Hday as (line & -> & _).
  unfold rowEntry.
  destruct (fields line) as [|dateStr rest] eqn:Hfields.
  - destruct (fields_nonempty line Hfields).
  - unfold forEach.
    destruct (metricLoop_numbers (dateStr :: rest) dateStr (metricNames v) 0
                (<["date" := VStr dateStr]> ∅) false []) as [H1 H2].
    split.
    + intros m Hm Hne. apply H1. left. split; assumption.
    + apply H2. intros k s Hk.
      destruct (decide (k = "date")) as [->|Hne]; [reflexivity|].
      rewrite lookup_insert_ne, lookup_empty in Hk by congruence. discriminate Hk.
Qed.

Lemma shotHead_strings (stage : FunnelStageContext) (shotId : string)
    (daysInShot : list Obj) (first lastDay : Obj) (k s : string) :
  shotHead stage shotId daysInShot first lastDay !! k = Some (VStr s) ->
  k = "shotId" \/ k = "startDate" \/ k = "endDate" \/ k = "funnelStage".
Proof.
  unfold shotHead. intros Hk.
  destruct (decide (k = "funnelStage")) as [->|H1]; [tauto|].
  rewrite lookup_insert_ne in Hk by congruence.
  destruct (decide (k = "numDaysInShot")) as [->|H2].
  { rewrite lookup_insert_eq in Hk. discriminate Hk. }
  rewrite lookup_insert_ne in Hk by congruence.
  destruct (decide (k = "endDate")) as [->|H3]; [tauto|].
  rewrite assign_lookup_ne in Hk by congruence.
  destruct (decide (k = "startDate")) as [->|H4]; [tauto|].
  rewrite assign_lookup_ne in Hk by congruence.
  destruct (decide (k = "shotId")) as [->|H5]; [tauto|].
  rewrite lookup_insert_ne, lookup_empty in Hk by congruence. discriminate Hk.
Qed.

(** The shots that the aggregator builds hold a string under [shotId],
    [startDate], [endDate] and [funnelStage] at most: the reads of
    [calculateMetrics], which are of other properties, never meet one. *)
Lemma shots_numbers (mn : list string) (stage : FunnelStageContext)
    (dailyData : list Obj) (shot : Obj) (k s : string) :
  shot ∈ aggregate mn stage dailyData ->
  shot !! k = Some (VStr s) ->
  k = "shotId" \/ k = "startDate" \/ k = "endDate" \/ k = "funnelStage".
Proof.
  rewrite aggregate_windows. intros Hshot Hk.
  apply list_elem_of_fmap in Hshot. destruct Hshot as (i & -> & _).
  unfold shotAt in Hk.
  destruct (take 3 (drop i dailyData)) as [|first rest].
  - rewrite lookup_empty in Hk. discriminate Hk.
  - rewrite makeShot_lookup in Hk.
    destruct (decide (k ∈ mn /\ k <> "__proto__")); [discriminate Hk|].
    apply shotHead_strings in Hk. exact Hk.
Qed.

(** ** Columns named like the fixed properties of a shot *)

(** C1 at an upload with a column named [numDaysInShot]: the upload is
    valid and has three days, they make one shot, [ceil(3 / 3)], and the
    [numDaysInShot] of that shot is 7, the mean of the column, not the 3
    days of its window: the sum of [numDaysInShot] over the shots is not
    the number of days. *)
Theorem C1_day_count_column_overwrites_numDaysInShot :
  let v := resultOf dayCountColumnContent in
  let shots := uploadedShots dayCountColumnContent TOF in
  validate dayCountColumnContent = inr v /\
  validationErrors v = [] /\
  length (dailyData v) = 3%nat /\
  length shots = ceilDiv3 3 /\
  map (fun shot : Obj => shot !! "numDaysInShot") shots = [Some (VNum 7)].
Proof. repeat split; vm_compute; reflexivity. Qed.

(** C2 at an upload with a column named [shotId]: the upload is valid,
    its three days make one shot, and the [shotId] of that shot is the
    number 5, the mean of the column, not the string "TOF-Shot 1". *)
Theorem C2_shotId_column_overwrites_shotId :
  let v := resultOf shotIdColumnContent in
  let shots := uploadedShots shotIdColumnContent TOF in
  validate shotIdColumnContent = inr v /\
  validationErrors v = [] /\
  length (dailyData v) = 3%nat /\
  map (fun shot : Obj => shot !! "shotId") shots = [Some (VNum 5)] /\
  map (fun shot : Obj => shot !! "numDaysInShot") shots = [Some (VNum 3)].
Proof. repeat split; vm_compute; reflexivity. Qed.


(** X1: whatever the columns of the upload are, the aggregator produces
    [ceil(n / 3)] shots for [n] validated days; the windows are
    consecutive, cover the daily sequence once, and each has three days
    except the last, which has one, two or three. *)
Theorem X1_shot_count_and_windows (mn : list string)
    (stage : FunnelStageContext) (dailyData : list Obj) :
  length (aggregate mn stage dailyData) = ceilDiv3 (length dailyData) /\
  (length dailyData <= 3 * ceilDiv3 (length dailyData) < length dailyData + 3)%nat /\
  length (windowsOf dailyData) = ceilDiv3 (length dailyData) /\
  concat (windowsOf dailyData) = dailyData /\
  (forall j w, windowsOf dailyData !! j = Some w ->
     (1 <= length w <= 3)%nat /\
     ((j + 1 < ceilDiv3 (length dailyData))%nat -> length w = 3%nat)).
Proof.
  destruct (aggregate_partition mn stage dailyData) as (H1 & H2 & H3 & H4).
  pose proof (ceilDiv3_bounds (length dailyData)) as Hb.
  repeat split; try assumption; try apply Hb; apply (H4 j w); assumption.
Qed.



(** X3: after a successful upload for a stage whose header has no column
    named [funnelStage], a second upload for the same stage ends as it
    would have without the first: same exception, or same merged shots. *)
Theorem X3_second_upload_forgets_first (textA textB : string)
    (S : FunnelStageContext) (st stA : State) (handedA : list Obj) (vA : Validated) :
  parseCSV textA S st = (stA, Some handedA) ->
  validate textA = inr vA ->
  "funnelStage" ∉ metricNames vA ->
  tryBlock textB S (accumulatedShots stA) = tryBlock textB S (accumulatedShots st).
Proof.
  intros HA HvA Hcol.
  destruct (parseCSV_success _ _ _ _ _ HA) as (v & Hv & _ & Hh & Hacc & _).
  assert (v = vA) by congruence. subst v.
  rewrite Hacc, Hh. unfold tryBlock.
  destruct (validate textB) as [msg|vB]; [reflexivity|].
  destruct (0 <? length (validationErrors vB))%nat; [reflexivity|].
  destruct (length (dailyData vB) =? 0)%nat; [reflexivity|].
  destruct (length (aggregate (metricNames vB) S (dailyData vB)) =? 0)%nat;
    [reflexivity|].
  f_equal. unfold mergeShots.
  rewrite List.filter_app, filter_otherStage_idem.
  rewrite (tagged_filter_same S _ (aggregate_tagged _ S _ Hcol)).
  rewrite app_nil_r. reflexivity.
Qed.

Lemma X3_witness_template_twice :
  let st := mkState ∅ ∅ [shotTagged MOF "MOF-Shot 1"] in
  tryBlock fourDaysContent TOF
    (accumulatedShots (fst (parseCSV templateContent TOF st))) =
  tryBlock fourDaysContent TOF (accumulatedShots st).
Proof.
  intros st.
  destruct (parseCSV templateContent TOF st) as [stA [handedA|]] eqn:HA.
  - apply (X3_second_upload_forgets_first templateContent fourDaysContent TOF
             st stA handedA (resultOf templateContent) HA).
    + vm_compute. reflexivity.
    + replace (metricNames (resultOf templateContent)) with templateMetricNames
        by (vm_compute; reflexivity).
      not_in_template.
  - exfalso.
    assert (H : match snd (parseCSV templateContent TOF st) with
                | Some _ => true
                | None => false
                end = true) by (vm_compute; reflexivity).
    rewrite HA in H. discriminate H.
Defined.

(** * More of the code

    The rest of [parseCSV], the events of the uploader, the averages of
    [calculateMetrics], the page that [App] renders, and the part of the
    analysis service that does not depend on the response of the model. *)

Import GeminiService.

(** ** The errors of an upload and their order *)

Lemma headerCheck_missing (mn errs : list string) :
  headerCheck mn errs =
  errs ++ (if (0 <? length (missingRequired mn))%nat
           then [headerMessage (missingRequired mn)] else []).
Proof.
  unfold headerCheck. fold (missingRequired mn).
  destruct (0 <? length (missingRequired mn))%nat.
  - reflexivity.
  - symmetry. apply app_nil_r.
Qed.

Lemma metricStep_errors (parts : list string) (dateStr : string)
    (entry : Obj) (flag : bool) (errs : list string) (colIndex : nat)
    (headerName : string) :
  snd (metricStep parts dateStr (entry, flag, errs) colIndex headerName) =
  errs ++ cellErrors parts dateStr colIndex headerName.
Proof.
  unfold cellErrors, metricStep.
  destruct (negb _); simpl; [symmetry; apply app_nil_r|].
  destruct (parts !! (colIndex + 1)%nat) as [[|c s]|]; simpl;
    try (symmetry; apply app_nil_r); reflexivity.
Qed.

Lemma metricLoop_errors (parts : list string) (dateStr : string) (mn : list string) :
  forall (colIndex : nat) (entry : Obj) (flag : bool) (errs : list string),
    snd (forEachFrom (metricStep parts dateStr) colIndex mn (entry, flag, errs)) =
    errs ++ concat (imap (fun i => cellErrors parts dateStr (colIndex + i)) mn).
Proof.
  induction mn as [|headerName mn IH]; intros colIndex entry flag errs.
  - simpl. symmetry. apply app_nil_r.
  - cbn [forEachFrom]. rewrite imap_cons. cbn [concat].
    pose proof (metricStep_errors parts dateStr entry flag errs colIndex headerName) as Hs.
    destruct (metricStep parts dateStr (entry, flag, errs) colIndex headerName)
      as [[e1 f1] errs1].
    cbn [snd] in Hs. subst errs1. rewrite IH, <- List.app_assoc.
    rewrite Nat.add_0_r. do 2 f_equal. f_equal.
    apply imap_ext. intros i h _. simpl. f_equal. lia.
Qed.

Lemma rowStep_errors (rawHeaders mn : list string) (dd : list Obj)
    (errs : list string) (rowIndex : nat) (line : string) :
  snd (rowStep rawHeaders mn (dd, errs) rowIndex line) =
  errs ++ rowErrors rawHeaders mn rowIndex line.
Proof.
  unfold rowErrors, rowStep.
  destruct (fields line) as [|dateStr rest]; [symmetry; apply app_nil_r|].
  destruct (forallb _ _); [symmetry; apply app_nil_r|].
  destruct (negb _); [reflexivity|].
  unfold forEach.
  pose proof (metricLoop_errors (dateStr :: rest) dateStr mn 0
                (<["date" := VStr dateStr]> ∅) false errs) as H1.
  pose proof (metricLoop_errors (dateStr :: rest) dateStr mn 0
                (<["date" := VStr dateStr]> ∅) false []) as H2.
  destruct (forEachFrom _ 0 mn (_, false, errs)) as [[e1 f1] errs1].
  destruct (forEachFrom _ 0 mn (_, false, [])) as [[e2 f2] errs2].
  cbn [snd] in H1, H2. subst errs1 errs2. simpl.
  destruct f1, f2; reflexivity.
Qed.

Lemma rowLoop_errors_from (rawHeaders mn : list string) (dataLines : list string) :
  forall (rowIndex : nat) (dd : list Obj) (errs : list string),
    snd (forEachFrom (rowStep rawHeaders mn) rowIndex dataLines (dd, errs)) =
    errs ++ concat (imap (fun i => rowErrors rawHeaders mn (rowIndex + i)) dataLines).
Proof.
  induction dataLines as [|line dataLines IH]; intros rowIndex dd errs.
  - simpl. symmetry. apply app_nil_r.
  - cbn [forEachFrom]. rewrite imap_cons. cbn [concat].
    pose proof (rowStep_errors rawHeaders mn dd errs rowIndex line) as Hs.
    destruct (rowStep rawHeaders mn (dd, errs) rowIndex line) as [dd1 errs1].
    cbn [snd] in Hs. subst errs1. rewrite IH, <- List.app_assoc.
    rewrite Nat.add_0_r. do 2 f_equal. f_equal.
    apply imap_ext. intros i h _. simpl. f_equal. lia.
Qed.

(** The recorded errors, in the order of their recording: the header
    message, the messages of the rows in the order of the rows, the
    messages of the range checks in the order of the days. *)
Lemma validationErrors_order (text : string) (v : Validated) :
  validate text = inr v ->
  exists header dataLines,
    nonBlankLines text = header :: dataLines /\
    fields header <> [] /\ tail (fields header) = metricNames v /\
    validationErrors v =
      (if (0 <? length (missingRequired (metricNames v)))%nat
       then [headerMessage (missingRequired (metricNames v))] else []) ++
      concat (imap (rowErrors (fields header) (metricNames v)) dataLines) ++
      flat_map (rangeStep []) (dailyData v).
Proof.
  intros Hv.
  destruct (validate_inr text v Hv)
    as (header & dataLines & first & Hlines & Hfields & _ & _ & Hrows).
  simpl in Hrows. destruct Hrows as [Hdd Herrs].
  exists header, dataLines. split; [exact Hlines|].
  rewrite Hfields. split; [discriminate|]. split; [reflexivity|].
  rewrite Herrs, rangeLoop_app, <- Hdd.
  unfold rowLoop, forEach. rewrite rowLoop_errors_from.
  rewrite headerCheck_missing. simpl. rewrite <- List.app_assoc. reflexivity.
Qed.

Lemma tryBlock_success (text : string) (stage : FunnelStageContext)
    (acc : list Obj) (v : Validated) :
  validate text = inr v -> validationErrors v = [] -> dailyData v <> [] ->
  aggregate (metricNames v) stage (dailyData v) <> [] /\
  tryBlock text stage acc =
  inr (mergeShots stage acc (aggregate (metricNames v) stage (dailyData v))).
Proof.
  intros Hv Herrs Hdd.
  assert (Hagg : aggregate (metricNames v) stage (dailyData v) <> []).
  { intros E. apply (f_equal length) in E.
    destruct (aggregate_partition (metricNames v) stage (dailyData v)) as [Hlen _].
    rewrite Hlen in E. apply ceilDiv3_zero in E.
    destruct (dailyData v); [contradiction | discriminate E]. }
  split; [exact Hagg|].
  unfold tryBlock. rewrite Hv, Herrs. simpl.
  destruct (Nat.eqb_spec (length (dailyData v)) 0) as [E|_].
  { destruct (dailyData v); [contradiction | discriminate E]. }
  destruct (aggregate (metricNames v) stage (dailyData v)); [contradiction|].
  reflexivity.
Qed.

(** What the [try] block throws. *)
Lemma tryBlock_throws (text : string) (stage : FunnelStageContext)
    (acc : list Obj) (msg : string) :
  tryBlock text stage acc = inl msg ->
  nonEmpty msg /\
  (validate text = inl msg \/
   exists v, validate text = inr v /\
     ((validationErrors v <> [] /\ msg = errorMsg (validationErrors v)) \/
      (validationErrors v = [] /\ dailyData v = [] /\
       msg = "No valid daily performance data rows could be parsed."))).
Proof.
  unfold tryBlock.
  destruct (validate text) as [m|v] eqn:Hv.
  - intros H. inversion H; subst m. split; [|left; reflexivity].
    unfold validate in Hv.
    destruct (length (nonBlankLines text) <? 2)%nat;
      [inversion Hv; intros E; discriminate E|].
    destruct (nonBlankLines text) as [|header dataLines];
      [inversion Hv; intros E; discriminate E|].
    destruct (fields header) as [|first names];
      [inversion Hv; intros E; discriminate E|].
    destruct (negb _); [inversion Hv; intros E; discriminate E|].
    destruct (length names =? 0)%nat; [inversion Hv; intros E; discriminate E|].
    destruct (rowLoop _ _ _ _). discriminate Hv.
  - destruct (validationErrors v) as [|e errs] eqn:Herrs; simpl.
    + destruct (dailyData v) as [|d dd] eqn:Hdd; simpl.
      * intros H. inversion H; subst msg. split; [intros E; discriminate E|].
        right. exists v. split; [reflexivity|]. right. repeat split; assumption.
      * assert (Hne : dailyData v <> []) by (rewrite Hdd; discriminate).
        destruct (tryBlock_success text stage acc v Hv Herrs Hne) as [Hagg _].
        rewrite Hdd in Hagg.
        destruct (aggregate (metricNames v) stage (d :: dd)); [contradiction|].
        intros H. discriminate H.
    + intros H. inversion H; subst msg. rewrite <- Herrs. split.
      * apply errorMsg_nonEmpty; [rewrite Herrs; discriminate|].
        apply (validate_nonEmpty text v Hv).
      * right. exists v. split; [reflexivity|]. left.
        split; [rewrite Herrs; discriminate | reflexivity].
Qed.

(** X4: [parseCSV] calls [onDataLoaded] exactly when the upload passes
    the structural tests, records no error and yields at least one daily
    entry. The list it hands over is then not empty, is the new store,
    and is the stored shots of the other stages followed by the shots of
    this upload; the error slot of the stage holds the empty string and
    the stage is marked as uploaded. The last [throw] of the [try] block,
    for an empty [shotData], is never reached. *)
Theorem X4_upload_succeeds_iff (text : string) (stage : FunnelStageContext)
    (st : State) :
  ((exists handed, snd (parseCSV text stage st) = Some handed) <->
   (exists v, validate text = inr v /\ validationErrors v = [] /\
              dailyData v <> [])) /\
  (forall handed, snd (parseCSV text stage st) = Some handed ->
     handed <> [] /\
     accumulatedShots (fst (parseCSV text stage st)) = handed /\
     errors (fst (parseCSV text stage st)) !! stageName stage = Some "" /\
     uploadedStages (fst (parseCSV text stage st)) !! stageName stage = Some true /\
     exists v, validate text = inr v /\
       aggregate (metricNames v) stage (dailyData v) <> [] /\
       handed = List.filter (otherStage stage) (accumulatedShots st) ++
                aggregate (metricNames v) stage (dailyData v)).
Proof.
  assert (Hfwd : forall handed, snd (parseCSV text stage st) = Some handed ->
            exists v, validate text = inr v /\ validationErrors v = [] /\
              dailyData v <> [] /\
              tryBlock text stage (accumulatedShots st) = inr handed).
  { intros handed H. unfold parseCSV in H.
    destruct (tryBlock text stage (accumulatedShots st)) as [msg|h] eqn:Ht;
      [discriminate H|].
    simpl in H. inversion H; subst h. clear H.
    pose proof Ht as Ht'. unfold tryBlock in Ht'.
    destruct (validate text) as [m|v]; [discriminate Ht'|].
    exists v. split; [reflexivity|].
    destruct (validationErrors v) as [|e errs]; [|discriminate Ht'].
    split; [reflexivity|]. simpl in Ht'.
    destruct (dailyData v); [discriminate Ht'|].
    split; [discriminate | reflexivity]. }
  split; [split|].
  - intros [handed H]. destruct (Hfwd handed H) as (v & Hv & He & Hd & _).
    exists v. auto.
  - intros (v & Hv & He & Hd).
    destruct (tryBlock_success text stage (accumulatedShots st) v Hv He Hd) as [_ Ht].
    unfold parseCSV. rewrite Ht. eexists. reflexivity.
  - intros handed H. destruct (Hfwd handed H) as (v & Hv & He & Hd & Ht).
    destruct (tryBlock_success text stage (accumulatedShots st) v Hv He Hd)
      as [Hagg Ht'].
    assert (Hh : handed = mergeShots stage (accumulatedShots st)
                           (aggregate (metricNames v) stage (dailyData v)))
      by congruence.
    clear Ht H. subst handed.
    unfold parseCSV. rewrite Ht'.
    cbn [fst snd accumulatedShots errors uploadedStages].
    rewrite !lookup_insert_eq.
    split; [|split; [reflexivity|split; [reflexivity|split; [reflexivity|]]]].
    + unfold mergeShots. intros E. apply app_eq_nil in E. destruct E as [_ E].
      contradiction.
    + exists v. split; [exact Hv|]. split; [exact Hagg|]. reflexivity.
Qed.

(** X5: when [parseCSV] does not call [onDataLoaded], the [try] block
    threw; the message it threw is not empty, so it is what the error
    slot of the stage holds and the fallback "Failed to parse CSV." is
    not used; the stored shots and the uploaded flags are as before; and
    the message is one of the three messages about the shape of the file,
    the message about the absence of daily rows, or the summary of the
    recorded errors. *)
Theorem X5_failed_upload_keeps_store (text : string)
    (stage : FunnelStageContext) (st : State) :
  snd (parseCSV text stage st) = None ->
  exists msg,
    tryBlock text stage (accumulatedShots st) = inl msg /\
    nonEmpty msg /\
    fst (parseCSV text stage st) =
      mkState (<[stageName stage := msg]> (errors st))
              (uploadedStages st) (accumulatedShots st) /\
    (msg = "File appears empty or invalid. Expected at least a header row and one data row." \/
     msg = "Invalid CSV header. Expected 'DATE' as the first column header." \/
     msg = "No metric columns found in the header row." \/
     msg = "No valid daily performance data rows could be parsed." \/
     exists v, validate text = inr v /\ validationErrors v <> [] /\
               msg = errorMsg (validationErrors v)).
Proof.
  intros H. unfold parseCSV in *.
  destruct (tryBlock text stage (accumulatedShots st)) as [msg|h] eqn:Ht;
    [|discriminate H].
  exists msg. split; [reflexivity|].
  destruct (tryBlock_throws _ _ _ _ Ht) as [Hne Hkind].
  split; [exact Hne|]. split.
  - cbn [fst]. rewrite (messageOr_nonEmpty msg Hne). reflexivity.
  - destruct Hkind as [Hv|(v & Hv & [[He Hm]|(He & Hd & Hm)])].
    + unfold validate in Hv.
      destruct (length (nonBlankLines text) <? 2)%nat;
        [inversion Hv; tauto|].
      destruct (nonBlankLines text) as [|header dataLines]; [inversion Hv; tauto|].
      destruct (fields header) as [|first names]; [inversion Hv; tauto|].
      destruct (negb _); [inversion Hv; tauto|].
      destruct (length names =? 0)%nat; [inversion Hv; tauto|].
      destruct (rowLoop _ _ _ _). discriminate Hv.
    + do 4 right. exists v. auto.
    + tauto.
Qed.

Lemma X5_witness_header_only :
  exists msg,
    tryBlock templateHeaders TOF [] = inl msg /\ nonEmpty msg.
Proof.
  destruct (X5_failed_upload_keeps_store templateHeaders TOF (mkState ∅ ∅ []))
    as (msg & H1 & H2 & _).
  - vm_compute. reflexivity.
  - exists msg. split; assumption.
Defined.

Lemma missingRequired_spec (mn : list string) (req : string) :
  req ∈ missingRequired mn <->
  req ∈ requiredMetricNames /\ forall h, h ∈ mn -> JS.toLowerCase h <> req.
Proof.
  unfold missingRequired.
  rewrite list_elem_of_In, List.filter_In, <- list_elem_of_In.
  rewrite negb_true_iff, bool_decide_eq_false, elem_of_list_to_set.
  rewrite list_elem_of_fmap.
  split; intros [Hreq Hno]; (split; [exact Hreq|]).
  - intros h Hh E. apply Hno. exists h. split; [symmetry; exact E | exact Hh].
  - intros (h & E & Hh). apply (Hno h Hh). symmetry. exact E.
Qed.

Lemma errorMsg_head (e : string) (errs : list string) :
  exists rest, errorMsg (e :: errs) = e +:+ rest.
Proof.
  unfold errorMsg. change (take 5 (e :: errs)) with (e :: take 4 errs).
  destruct (take 4 errs) as [|e' l]; cbn [JS.join].
  - eexists. reflexivity.
  - eexists. rewrite !append_assoc. reflexivity.
Qed.

Lemma parseCSV_errors_throw (text : string) (stage : FunnelStageContext)
    (st : State) (v : Validated) :
  validate text = inr v -> validationErrors v <> [] ->
  parseCSV text stage st =
  (mkState (<[stageName stage := errorMsg (validationErrors v)]> (errors st))
           (uploadedStages st) (accumulatedShots st), None).
Proof.
  intros Hv Herrs.
  rewrite (parseCSV_throw text stage st (errorMsg (validationErrors v))).
  - rewrite messageOr_nonEmpty; [reflexivity|].
    apply errorMsg_nonEmpty; [exact Herrs | apply (validate_nonEmpty text v Hv)].
  - apply validation_errors_throw; assumption.
Qed.

(** X6: for an upload that reaches the validation, a required column
    is reported missing exactly when no header is that name in some
    letter case (the order of the columns and further columns do not
    matter); the recorded errors are, in this order, the header message
    when a column is missing, the messages of the rows in the order of the
    rows, and the messages of the range checks in the order of the days;
    and when a column is missing the upload fails with an error text that
    begins with the header message. *)
Theorem X6_errors_in_order (text : string) (v : Validated) :
  validate text = inr v ->
  (forall req, req ∈ missingRequired (metricNames v) <->
     req ∈ requiredMetricNames /\
     forall h, h ∈ metricNames v -> JS.toLowerCase h <> req) /\
  (exists header dataLines,
     nonBlankLines text = header :: dataLines /\
     validationErrors v =
       (if (0 <? length (missingRequired (metricNames v)))%nat
        then [headerMessage (missingRequired (metricNames v))] else []) ++
       concat (imap (rowErrors (fields header) (metricNames v)) dataLines) ++
       flat_map (rangeStep []) (dailyData v)) /\
  (missingRequired (metricNames v) <> [] ->
   forall stage st,
     snd (parseCSV text stage st) = None /\
     exists rest,
       errors (fst (parseCSV text stage st)) !! stageName stage =
       Some (headerMessage (missingRequired (metricNames v)) +:+ rest)).
Proof.
  intros Hv.
  destruct (validationErrors_order text v Hv)
    as (header & dataLines & Hlines & _ & _ & Herrs).
  split; [intros req; apply missingRequired_spec|].
  split; [exists header, dataLines; split; assumption|].
  intros Hmiss stage st.
  destruct (missingRequired (metricNames v)) as [|m ms] eqn:Em; [contradiction|].
  cbn [length Nat.ltb Nat.leb] in Herrs. simpl in Herrs.
  assert (Hne : validationErrors v <> []) by (rewrite Herrs; discriminate).
  rewrite (parseCSV_errors_throw text stage st v Hv Hne).
  split; [reflexivity|].
  cbn [fst errors]. rewrite lookup_insert_eq, Herrs.
  destruct (errorMsg_head (headerMessage (m :: ms))
              (concat (imap (rowErrors (fields header) (metricNames v)) dataLines) ++
               flat_map (rangeStep []) (dailyData v))) as [rest Hrest].
  exists rest. rewrite Hrest. reflexivity.
Qed.

Lemma X6_witness_cpm_only :
  missingRequired (metricNames (resultOf cpmOnlyContent)) =
    ["ctr"; "reach"; "link clicks"; "landing page views"; "add to carts";
     "initiate checkout"; "conversions"; "cpa"; "roas"; "ad spent"; "ad frequency"] /\
  exists rest,
    errors (fst (parseCSV cpmOnlyContent TOF (mkState ∅ ∅ []))) !! "TOF" =
    Some ("Missing required columns in header: Ctr, Reach, Link clicks, Landing page views, Add to carts, Initiate checkout, Conversions, Cpa, Roas, Ad spent, Ad frequency. Please ensure they are present." +:+ rest).
Proof.
  assert (Hv : validate cpmOnlyContent = inr (resultOf cpmOnlyContent))
    by (vm_compute; reflexivity).
  assert (Hm : missingRequired (metricNames (resultOf cpmOnlyContent)) =
    ["ctr"; "reach"; "link clicks"; "landing page views"; "add to carts";
     "initiate checkout"; "conversions"; "cpa"; "roas"; "ad spent"; "ad frequency"])
    by (vm_compute; reflexivity).
  split; [exact Hm|].
  destruct (X6_errors_in_order cpmOnlyContent _ Hv) as (_ & _ & Hfail).
  destruct (Hfail ltac:(rewrite Hm; discriminate) TOF (mkState ∅ ∅ []))
    as [_ [rest Hrest]].
  exists rest. rewrite Hm in Hrest. exact Hrest.
Defined.

Lemma rowErrors_mismatch (rawHeaders mn : list string) (rowIndex : nat)
    (line : string) :
  blankRow line = false -> length (fields line) <> length rawHeaders ->
  rowErrors rawHeaders mn rowIndex line =
  [columnsMessage (rowIndex + 2) (length rawHeaders) (length (fields line))].
Proof.
  unfold blankRow, rowErrors, rowStep. intros Hblank Hlen.
  destruct (fields line) as [|dateStr rest] eqn:Hf; [discriminate Hblank|].
  rewrite Hblank.
  destruct (Nat.eqb_spec (length (dateStr :: rest)) (length rawHeaders)) as [E|_];
    [contradiction|].
  reflexivity.
Qed.

Lemma rowErrors_cells (rawHeaders mn : list string) (rowIndex : nat)
    (line dateStr : string) :
  blankRow line = false -> length (fields line) = length rawHeaders ->
  fields line !! 0%nat = Some dateStr ->
  rowErrors rawHeaders mn rowIndex line =
  concat (imap (cellErrors (fields line) dateStr) mn).
Proof.
  unfold blankRow, rowErrors, rowStep. intros Hblank Hlen Hdate.
  destruct (fields line) as [|d rest] eqn:Hf; [discriminate Hblank|].
  simpl in Hdate. inversion Hdate; subst d.
  rewrite Hblank, Hlen, Nat.eqb_refl. simpl negb. cbv iota.
  unfold forEach.
  pose proof (metricLoop_errors (dateStr :: rest) dateStr mn 0
                (<["date" := VStr dateStr]> ∅) false []) as H.
  destruct (forEachFrom _ 0 mn _) as [[e f] errs]. cbn [snd] in H. subst errs.
  destruct f; reflexivity.
Qed.

Lemma cellErrors_nan (parts : list string) (dateStr : string) (colIndex : nat)
    (headerName value : string) :
  parts !! S colIndex = Some value -> value <> "" ->
  JS.isNaN (JS.parseFloat value) = true ->
  cellErrors parts dateStr colIndex headerName =
  [numberMessage dateStr headerName value].
Proof.
  intros Hv Hne Hnan. unfold cellErrors, metricStep.
  replace (colIndex + 1)%nat with (S colIndex) by lia.
  rewrite Hv, Hnan. simpl negb. cbv iota.
  destruct value as [|c s]; [contradiction|]. reflexivity.
Qed.

Lemma in_concat_imap {A B : Type} (f : nat -> A -> list B) (l : list A)
    (i : nat) (a : A) (b : B) :
  l !! i = Some a -> In b (f i a) -> In b (concat (imap f l)).
Proof.
  revert f i. induction l as [|x l IH]; intros f i Hl Hb; [discriminate Hl|].
  rewrite imap_cons. cbn [concat]. apply in_or_app.
  destruct i as [|i]; simpl in Hl.
  - inversion Hl; subst x. left. exact Hb.
  - right. apply (IH (f ∘ S) i Hl). exact Hb.
Qed.

(** A message that a row records is among the errors of the upload, and
    makes it fail. *)
Lemma row_error_fails (text : string) (v : Validated) (header line : string)
    (i : nat) (msg : string) :
  validate text = inr v ->
  nonBlankLines text !! 0%nat = Some header ->
  nonBlankLines text !! S i = Some line ->
  In msg (rowErrors (fields header) (tail (fields header)) i line) ->
  In msg (validationErrors v) /\
  forall stage st, snd (parseCSV text stage st) = None.
Proof.
  intros Hv Hheader Hline Hmsg.
  destruct (validationErrors_order text v Hv)
    as (header' & dataLines & Hlines & _ & Hmn & Herrs).
  rewrite Hlines in Hheader, Hline. simpl in Hheader, Hline.
  inversion Hheader; subst header'. rewrite Hmn in Hmsg.
  assert (Hin : In msg (validationErrors v)).
  { rewrite Herrs. apply in_or_app. right. apply in_or_app. left.
    apply (in_concat_imap _ dataLines i line msg Hline Hmsg). }
  split; [exact Hin|].
  intros stage st. rewrite (parseCSV_errors_throw text stage st v Hv); [reflexivity|].
  intros E. rewrite E in Hin. destruct Hin.
Qed.

(** X7: a data row of ASCII text, under a header of ASCII text, with as
    many fields as the header and a metric field that is neither empty
    nor read as a number by [parseFloat] records the message that names
    its date, the column and the text, and the upload fails: the 0 stored
    for the field never reaches a shot. *)
Theorem X7_text_in_metric_field_fails (text : string) (v : Validated)
    (header line : string) (i c : nat) (name dateStr value : string) :
  validate text = inr v ->
  nonBlankLines text !! 0%nat = Some header ->
  nonBlankLines text !! S i = Some line ->
  asciiText header = true ->
  asciiText line = true ->
  length (fields line) = length (fields header) ->
  fields header !! S c = Some name ->
  fields line !! 0%nat = Some dateStr ->
  fields line !! S c = Some value ->
  value <> "" ->
  JS.isNaN (JS.parseFloat value) = true ->
  In (numberMessage dateStr name value) (validationErrors v) /\
  forall stage st, snd (parseCSV text stage st) = None.
Proof.
  intros Hv Hheader Hline _ _ Hlen Hname Hdate Hvalue Hne Hnan.
  apply (row_error_fails text v header line i _ Hv Hheader Hline).
  assert (Hblank : blankRow line = false).
  { unfold blankRow. apply not_true_is_false. intros Hall.
    rewrite forallb_forall in Hall.
    assert (Hin : In value (fields line)).
    { apply list_elem_of_In. eapply list_elem_of_lookup_2. exact Hvalue. }
    apply Hall, String.eqb_eq in Hin. contradiction. }
  rewrite (rowErrors_cells _ _ _ _ dateStr Hblank Hlen Hdate).
  assert (Hmn : tail (fields header) !! c = Some name).
  { destruct (fields header); [discriminate Hname | exact Hname]. }
  apply (in_concat_imap _ _ c name _ Hmn).
  rewrite (cellErrors_nan _ _ _ _ value Hvalue Hne Hnan). left. reflexivity.
Qed.

Lemma X7_witness_letter_in_CPA :
  In "Date 1 Mar, Column 'CPA': Expected a number, but received 'x'."
     (validationErrors (resultOf faultyContent)) /\
  snd (parseCSV faultyContent TOF (mkState ∅ ∅ [])) = None.
Proof.
  destruct (X7_text_in_metric_field_fails faultyContent (resultOf faultyContent)
              templateHeaders
              "1 Mar,10.50,1.5,1000,2000,500,50,30,-10,x,3.50,150.00,1.8"
              0 8 "CPA" "1 Mar" "x") as [H1 H2].
  - vm_compute. reflexivity.
  - vm_compute. reflexivity.
  - vm_compute. reflexivity.
  - vm_compute. reflexivity.
  - vm_compute. reflexivity.
  - vm_compute. reflexivity.
  - vm_compute. reflexivity.
  - vm_compute. reflexivity.
  - vm_compute. reflexivity.
  - intros E. discriminate E.
  - vm_compute. reflexivity.
  - split; [exact H1 | apply H2].
Defined.

(** X8: a data row that is not blank and has not as many fields as the
    header records "Row k: Mismatched number of columns", where [k] counts
    the lines that are not blank, the header being line 1, and the upload
    fails. *)
Theorem X8_short_or_long_row_fails (text : string) (v : Validated)
    (header line : string) (i : nat) :
  validate text = inr v ->
  nonBlankLines text !! 0%nat = Some header ->
  nonBlankLines text !! S i = Some line ->
  blankRow line = false ->
  length (fields line) <> length (fields header) ->
  In (columnsMessage (i + 2) (length (fields header)) (length (fields line)))
     (validationErrors v) /\
  forall stage st, snd (parseCSV text stage st) = None.
Proof.
  intros Hv Hheader Hline Hblank Hlen.
  apply (row_error_fails text v header line i _ Hv Hheader Hline).
  rewrite (rowErrors_mismatch _ _ _ _ Hblank Hlen). left. reflexivity.
Qed.

Lemma X8_witness_three_fields :
  In "Row 4: Mismatched number of columns. Expected 13, got 3."
     (validationErrors (resultOf faultyContent)) /\
  snd (parseCSV faultyContent TOF (mkState ∅ ∅ [])) = None.
Proof.
  destruct (X8_short_or_long_row_fails faultyContent (resultOf faultyContent)
              templateHeaders "3 Mar,1,2" 2) as [H1 H2].
  - vm_compute. reflexivity.
  - vm_compute. reflexivity.
  - vm_compute. reflexivity.
  - vm_compute. reflexivity.
  - replace (length (fields "3 Mar,1,2")) with 3%nat by (vm_compute; reflexivity).
    replace (length (fields templateHeaders)) with 13%nat by (vm_compute; reflexivity).
    lia.
  - split; [exact H1 | apply H2].
Defined.

Lemma metricLoop_defined (parts : list string) (dateStr : string) (mn : list string)
    (k : string) :
  forall (colIndex : nat) (entry : Obj) (flag : bool) (errs : list string),
    is_Some (entry !! k) ->
    is_Some (fst (fst (forEachFrom (metricStep parts dateStr) colIndex mn
                                   (entry, flag, errs))) !! k).
Proof.
  induction mn as [|headerName mn IH]; intros colIndex entry flag errs Hk.
  - exact Hk.
  - cbn [forEachFrom].
    destruct (metricStep_assigns parts dateStr entry flag errs colIndex headerName)
      as [x Hx].
    destruct (metricStep parts dateStr (entry, flag, errs) colIndex headerName)
      as [[e1 f1] errs1].
    cbn [fst] in Hx. subst e1. apply IH.
    rewrite setProperty_lookup.
    destruct (decide (k = headerName /\ k <> "__proto__"));
      [eexists; reflexivity | exact Hk].
Qed.

Lemma dailyData_date (text : string) (v : Validated) (day : Obj) :
  validate text = inr v -> day ∈ dailyData v -> is_Some (day !! "date").
Proof.
  intros Hv Hday.
  destruct (validate_inr text v Hv)
    as (header & dataLines & first & _ & _ & _ & _ & Hrows).
  simpl in Hrows. destruct Hrows as [Hdd _].
  rewrite Hdd, rowLoop_dailyData in Hday.
  apply list_elem_of_fmap in Hday. destruct Hday as (line & -> & _).
  unfold rowEntry.
  destruct (fields line) as [|dateStr rest] eqn:Hfields.
  - destruct (fields_nonempty line Hfields).
  - unfold forEach. apply metricLoop_defined.
    rewrite lookup_insert_eq. eexists. reflexivity.
Qed.

Lemma shotHead_other (stage : FunnelStageContext) (shotId : string)
    (daysInShot : list Obj) (first lastDay : Obj) (k : string) :
  isMetricKey k = true ->
  shotHead stage shotId daysInShot first lastDay !! k = None.
Proof.
  unfold isMetricKey. rewrite !andb_true_iff, !negb_true_iff, !String.eqb_neq.
  intros ((((H1 & H2) & H3) & H4) & H5). unfold shotHead.
  rewrite !lookup_insert_ne, !assign_lookup_ne, lookup_insert_ne by congruence.
  apply lookup_empty.
Qed.

(** X9: the keys of a shot of a validated upload are the five fixed
    properties and the columns of the upload other than [__proto__],
    under which the assignment of the mean stores nothing: a key that
    passes the filter of the analysis service and of the dashboard is
    present exactly when it is such a column; every such column holds a
    number; a string is held by a fixed property at most. *)
Theorem X9_keys_of_a_shot (text : string) (v : Validated)
    (stage : FunnelStageContext) (shot : Obj) :
  validate text = inr v ->
  shot ∈ aggregate (metricNames v) stage (dailyData v) ->
  (forall k, isMetricKey k = false -> is_Some (shot !! k)) /\
  (forall k, isMetricKey k = true ->
     (is_Some (shot !! k) <-> k ∈ metricNames v /\ k <> "__proto__")) /\
  (forall m, m ∈ metricNames v -> m <> "__proto__" ->
     exists x, shot !! m = Some (VNum x)) /\
  (forall k s, shot !! k = Some (VStr s) -> isMetricKey k = false).
Proof.
  intros Hv Hshot.
  apply list_elem_of_lookup in Hshot. destruct Hshot as [j Hshot].
  assert (Hj : (j < ceilDiv3 (length (dailyData v)))%nat).
  { apply lookup_lt_Some in Hshot.
    rewrite aggregate_windows, length_map, windowStarts_length in Hshot.
    exact Hshot. }
  rewrite aggregate_windows, list_lookup_fmap,
    (windowStarts_lookup _ 0 j Hj) in Hshot.
  assert (Hs : shot = shotAt (metricNames v) stage (dailyData v) (3 * j)).
  { cbv [fmap option_fmap option_map] in Hshot.
    injection Hshot as Hs. symmetry. exact Hs. }
  clear Hshot. unfold shotAt in Hs.
  destruct (take 3 (drop (3 * j) (dailyData v))) as [|first rest] eqn:Hw.
  { exfalso. apply (f_equal length) in Hw.
    rewrite length_take, length_drop in Hw. cbn [length] in Hw.
    pose proof (ceilDiv3_bounds (length (dailyData v))). lia. }
  assert (Hsub : forall day, day ∈ first :: rest -> day ∈ dailyData v).
  { intros day Hday. rewrite <- Hw in Hday.
    apply elem_of_take in Hday. destruct Hday as (i & Hi & _).
    rewrite lookup_drop in Hi. eapply list_elem_of_lookup_2. exact Hi. }
  assert (Hfirst : is_Some (first !! "date")).
  { apply (dailyData_date text v first Hv), Hsub. left. }
  assert (Hlast : is_Some (List.last (first :: rest) first !! "date")).
  { apply (dailyData_date text v _ Hv), Hsub, list_elem_of_In.
    destruct (exists_last (l := first :: rest)) as (l' & a & E); [discriminate|].
    rewrite E, last_last. apply in_or_app. right. left. reflexivity. }
  pose proof (shotHead_lookups stage
                (stageName stage +:+ "-Shot " +:+ JS.natToString (3 * j / 3 + 1))
                (first :: rest) first (List.last (first :: rest) first))
    as (Hid & Hstart & Hend & Hdays & Hstage).
  assert (Hlook : forall k, shot !! k =
            if decide (k ∈ metricNames v /\ k <> "__proto__")
            then Some (VNum (meanOf k (first :: rest)))
            else shotHead stage
                   (stageName stage +:+ "-Shot " +:+ JS.natToString (3 * j / 3 + 1))
                   (first :: rest) first (List.last (first :: rest) first) !! k).
  { intros k. rewrite Hs. apply makeShot_lookup. }
  split; [|split; [|split]].
  - intros k Hk. rewrite Hlook.
    destruct (decide (k ∈ metricNames v /\ k <> "__proto__")); [eexists; reflexivity|].
    unfold isMetricKey in Hk.
    rewrite !andb_false_iff, !negb_false_iff, !String.eqb_eq in Hk.
    destruct Hk as [[[[->| ->]| ->]| ->]| ->].
    + rewrite Hid. eexists. reflexivity.
    + rewrite Hstart. exact Hfirst.
    + rewrite Hend. exact Hlast.
    + rewrite Hstage. eexists. reflexivity.
    + rewrite Hdays. eexists. reflexivity.
  - intros k Hk. rewrite Hlook.
    destruct (decide (k ∈ metricNames v /\ k <> "__proto__")) as [Hin|Hnin].
    + split; [intros _; exact Hin | intros _; eexists; reflexivity].
    + rewrite (shotHead_other _ _ _ _ _ k Hk).
      split; [intros [x Hx]; discriminate Hx | intros Hin; contradiction].
  - intros m Hm Hne. rewrite Hlook, decide_True by (split; assumption).
    eexists. reflexivity.
  - intros k s Hk. rewrite Hlook in Hk.
    destruct (decide (k ∈ metricNames v /\ k <> "__proto__")); [discriminate Hk|].
    destruct (isMetricKey k) eqn:Hkey; [|reflexivity].
    rewrite (shotHead_other _ _ _ _ _ k Hkey) in Hk. discriminate Hk.
Qed.

Lemma X9_witness_proto_column :
  let v := resultOf protoColumnContent in
  exists shot,
    head (aggregate (metricNames v) TOF (dailyData v)) = Some shot /\
    "__proto__" ∈ metricNames v /\
    shot !! "__proto__" = None /\
    (forall k, isMetricKey k = true ->
       (is_Some (shot !! k) <-> k ∈ metricNames v /\ k <> "__proto__")) /\
    (forall m, m ∈ metricNames v -> m <> "__proto__" ->
       exists x, shot !! m = Some (VNum x)).
Proof.
  intros v.
  assert (Hv : validate protoColumnContent = inr v) by (vm_compute; reflexivity).
  assert (Hlen : length (aggregate (metricNames v) TOF (dailyData v)) = 1%nat)
    by (vm_compute; reflexivity).
  assert (Hcol : "__proto__" ∈ metricNames v).
  { replace (metricNames v) with (templateMetricNames ++ ["__proto__"])
      by (vm_compute; reflexivity).
    apply elem_of_app. right. left. }
  destruct (aggregate (metricNames v) TOF (dailyData v)) as [|shot l] eqn:E;
    [discriminate Hlen|].
  exists shot. split; [reflexivity|]. split; [exact Hcol|].
  destruct (X9_keys_of_a_shot protoColumnContent v TOF shot Hv) as (_ & H2 & H3 & _).
  - rewrite E. left.
  - split; [|split; assumption].
    destruct (shot !! "__proto__") as [x|] eqn:Hx; [|reflexivity].
    exfalso. destruct (H2 "__proto__") as [Hdir _]; [reflexivity|].
    destruct Hdir as [_ Hne]; [rewrite Hx; eexists; reflexivity|].
    apply Hne. reflexivity.
Defined.

(** ** An uploader that stays mounted *)

Lemma validate_headerColumns (text : string) (v : Validated) :
  validate text = inr v -> metricNames v = headerColumns text.
Proof.
  intros Hv.
  destruct (validate_inr text v Hv)
    as (header & dataLines & first & Hlines & Hfields & _).
  unfold headerColumns. rewrite Hlines, Hfields. reflexivity.
Qed.

Lemma hasColumn_false (key text : string) :
  hasColumn key text = false -> key ∉ headerColumns text.
Proof.
  unfold hasColumn. intros H Hin.
  apply list_elem_of_In in Hin.
  assert (existsb (String.eqb key) (headerColumns text) = true).
  { apply existsb_exists. exists key. split; [exact Hin | apply String.eqb_refl]. }
  congruence.
Qed.











(** X19: after a successful upload for a stage, a second successful
    upload for the same stage, neither with a column named [funnelStage],
    leaves as the shots of the stage exactly the shots of the second
    upload and leaves the shots of every other stage as they were before
    the first; the store, which is what [onDataLoaded] receives, is the
    one that the second upload alone would have left. *)
Theorem X19_reupload_replaces_stage (textA textB : string)
    (S : FunnelStageContext) (st stA stB : State) (handedA handedB : list Obj) :
  hasColumn "funnelStage" textA = false ->
  hasColumn "funnelStage" textB = false ->
  parseCSV textA S st = (stA, Some handedA) ->
  parseCSV textB S stA = (stB, Some handedB) ->
  (exists vB, validate textB = inr vB /\
     stageShots S (accumulatedShots stB) =
       aggregate (metricNames vB) S (dailyData vB)) /\
  (forall S', S' <> S ->
     stageShots S' (accumulatedShots stB) = stageShots S' (accumulatedShots st)) /\
  accumulatedShots stB = accumulatedShots (fst (parseCSV textB S st)) /\
  handedB = accumulatedShots stB.
Proof.
  intros HplainA HplainB HA HB.
  destruct (parseCSV_success _ _ _ _ _ HA) as (vA & HvA & _ & HhA & HaccA & _).
  destruct (parseCSV_success _ _ _ _ _ HB) as (vB & HvB & HerrsB & HhB & HaccB & _).
  assert (HtagA : tagged S (aggregate (metricNames vA) S (dailyData vA))).
  { apply aggregate_tagged. rewrite (validate_headerColumns textA vA HvA).
    apply hasColumn_false, HplainA. }
  assert (HtagB : tagged S (aggregate (metricNames vB) S (dailyData vB))).
  { apply aggregate_tagged. rewrite (validate_headerColumns textB vB HvB).
    apply hasColumn_false, HplainB. }
  assert (Hmerge : mergeShots S (accumulatedShots stA)
                     (aggregate (metricNames vB) S (dailyData vB)) =
                   mergeShots S (accumulatedShots st)
                     (aggregate (metricNames vB) S (dailyData vB))).
  { rewrite HaccA, HhA. unfold mergeShots.
    rewrite List.filter_app, filter_otherStage_idem, (tagged_filter_same S _ HtagA).
    rewrite app_nil_r. reflexivity. }
  rewrite HaccB, HhB, Hmerge.
  split; [|split; [|split]].
  - exists vB. split; [exact HvB|]. unfold mergeShots.
    rewrite stageShots_app, stageShots_filter_same, (tagged_stageShots_same S _ HtagB).
    reflexivity.
  - intros S' Hne. unfold mergeShots.
    rewrite stageShots_app, stageShots_filter_other by exact Hne.
    rewrite (tagged_stageShots_other S S' _ Hne HtagB). apply app_nil_r.
  - assert (HBst : tryBlock textB S (accumulatedShots st) =
                   inr (mergeShots S (accumulatedShots st)
                          (aggregate (metricNames vB) S (dailyData vB)))).
    { assert (Hdays : dailyData vB <> []).
      { intros E. unfold parseCSV, tryBlock in HB. rewrite HvB, HerrsB, E in HB.
        simpl in HB. discriminate HB. }
      apply (tryBlock_success textB S (accumulatedShots st) vB HvB HerrsB Hdays). }
    unfold parseCSV. rewrite HBst. reflexivity.
  - reflexivity.
Qed.

Lemma X19_witness_template_then_four_days :
  let st := mkState ∅ ∅ [shotTagged MOF "MOF-Shot 1"] in
  let stA := fst (parseCSV templateContent TOF st) in
  let stB := fst (parseCSV fourDaysContent TOF stA) in
  stageShots TOF (accumulatedShots stB) =
    aggregate (metricNames (resultOf fourDaysContent)) TOF
              (dailyData (resultOf fourDaysContent)) /\
  stageShots MOF (accumulatedShots stB) = [shotTagged MOF "MOF-Shot 1"] /\
  accumulatedShots stB = accumulatedShots (fst (parseCSV fourDaysContent TOF st)).
Proof.
  intros st stA stB.
  destruct (parseCSV templateContent TOF st) as [stA' [handedA|]] eqn:HA.
  2:{ exfalso.
      assert (H : match snd (parseCSV templateContent TOF st) with
                  | Some _ => true | None => false end = true)
        by (vm_compute; reflexivity).
      rewrite HA in H. discriminate H. }
  destruct (parseCSV fourDaysContent TOF stA') as [stB' [handedB|]] eqn:HB.
  2:{ exfalso.
      assert (H : match snd (parseCSV fourDaysContent TOF
                               (fst (parseCSV templateContent TOF st))) with
                  | Some _ => true | None => false end = true)
        by (vm_compute; reflexivity).
      rewrite HA in H. cbn [fst] in H. rewrite HB in H. discriminate H. }
  destruct (X19_reupload_replaces_stage templateContent fourDaysContent TOF
              st stA' stB' handedA handedB) as ((vB & HvB & Hs) & Hother & Hsame & _).
  - vm_compute. reflexivity.
  - vm_compute. reflexivity.
  - exact HA.
  - exact HB.
  - assert (EA : stA = stA') by (unfold stA; reflexivity).
    assert (EB : stB = stB') by (unfold stB; rewrite EA, HB; reflexivity).
    rewrite EB. split; [|split].
    + assert (E : vB = resultOf fourDaysContent)
        by (unfold resultOf; rewrite HvB; reflexivity).
      rewrite <- E. exact Hs.
    + rewrite (Hother MOF) by discriminate. vm_compute. reflexivity.
    + exact Hsame.
Defined.

(** ** The averages of the metrics *)

Lemma digits2_pos_iter (p k : positive) :
  digits2_pos (Pos.iter xO p k) = (digits2_pos p + k)%positive.
Proof.
  induction k as [|k IH] using Pos.peano_ind.
  - simpl. lia.
  - rewrite Pos.iter_succ. simpl. rewrite IH. lia.
Qed.

Lemma digits2_pos_bound (p : positive) (k : Z) :
  (0 <= k)%Z -> (Zpos p < 2 ^ k)%Z -> (Zpos (digits2_pos p) <= k)%Z.
Proof.
  revert k. induction p as [p IH|p IH|]; intros k Hk Hp; simpl.
  - assert (k <> 0)%Z by (intros ->; simpl in Hp; lia).
    assert (Zpos p < 2 ^ (k - 1))%Z.
    { replace k with (Z.succ (k - 1)) in Hp by lia.
      rewrite Z.pow_succ_r in Hp by lia. lia. }
    specialize (IH (k - 1)%Z ltac:(lia) H0). lia.
  - assert (k <> 0)%Z by (intros ->; simpl in Hp; lia).
    assert (Zpos p < 2 ^ (k - 1))%Z.
    { replace k with (Z.succ (k - 1)) in Hp by lia.
      rewrite Z.pow_succ_r in Hp by lia. lia. }
    specialize (IH (k - 1)%Z ltac:(lia) H0). lia.
  - assert (k <> 0)%Z by (intros ->; simpl in Hp; lia). lia.
Qed.

Lemma binary_round_aux_canonical (mz : positive) (ez : Z) :
  fexp prec emax (Zpos (digits2_pos mz) + ez) = ez ->
  (ez <= emax - prec)%Z ->
  binary_round_aux prec emax false (Zpos mz) ez loc_Exact = S754_finite false mz ez.
Proof.
  intros Hf He. unfold binary_round_aux, shr_fexp.
  cbn [Zdigits2 shr_record_of_loc]. rewrite Hf, Z.sub_diag.
  cbn [shr shr_m loc_of_shr_record round_nearest_even Zdigits2 shr_record_of_loc].
  rewrite Hf, Z.sub_diag. cbn [shr shr_m].
  rewrite (proj2 (Z.leb_le _ _) He). reflexivity.
Qed.

Lemma binary_round_small (p : positive) :
  (Zpos p < 2 ^ 53)%Z ->
  exists mz ez,
    binary_round prec emax false p 0 = S754_finite false mz ez /\
    valid_binary (S754_finite false mz ez) = true.
Proof.
  intros Hp.
  pose proof (digits2_pos_bound p 53 ltac:(lia) Hp) as Hd.
  assert (Hf : fexp prec emax (Zpos (digits2_pos p) + 0) = (Zpos (digits2_pos p) - 53)%Z).
  { unfold fexp, emin, prec, emax. lia. }
  unfold binary_round, shl_align. rewrite Hf.
  assert (Hcanon : forall mz ez,
            (Zpos (digits2_pos mz) + ez = Zpos (digits2_pos p))%Z ->
            (ez = Zpos (digits2_pos p) - 53)%Z ->
            binary_round_aux prec emax false (Zpos mz) ez loc_Exact =
              S754_finite false mz ez /\
            valid_binary (S754_finite false mz ez) = true).
  { intros mz ez H1 H2.
    assert (Hfe : fexp prec emax (Zpos (digits2_pos mz) + ez) = ez).
    { unfold fexp, emin, prec, emax. lia. }
    split.
    - apply binary_round_aux_canonical; [exact Hfe|]. unfold emax, prec. lia.
    - unfold SpecFloat.valid_binary, bounded, canonical_mantissa.
      rewrite Hfe, Z.eqb_refl. simpl. apply Z.leb_le. unfold emax, prec. lia. }
  destruct (Zpos (digits2_pos p) - 53 - 0)%Z as [|k|k] eqn:E.
  - exists p, 0%Z. apply Hcanon; lia.
  - lia.
  - exists (Pos.iter xO p k), (Zpos (digits2_pos p) - 53)%Z.
    apply Hcanon; [|reflexivity]. rewrite digits2_pos_iter. lia.
Qed.

Lemma ofNat_positive (n : nat) :
  (0 < n)%nat -> (Z.of_nat n < 2 ^ 53)%Z -> (0 <? JS.ofNat n)%float = true.
Proof.
  intros Hpos Hlt. unfold JS.ofNat, JS.ofZ.
  destruct (Z.of_nat n) as [|p|p] eqn:E; [lia| |lia].
  cbn [binary_normalize].
  destruct (binary_round_small p Hlt) as (mz & ez & -> & Hvalid).
  rewrite FloatAxioms.ltb_spec, (Prim2SF_SF2Prim _ Hvalid). reflexivity.
Qed.

(** X11: for at least one shot (and fewer than 2^32, the bound of an
    array) the five averages of [calculateMetrics] are the plain means of
    the values of the shots: the sum in the order of the shots divided by
    their number, whatever the [numDaysInShot] of each shot is; the guard
    on the number of shots never applies. *)
Theorem X11_averages_are_plain_means (data : list Obj) :
  data <> [] -> (Z.of_nat (length data) < 2 ^ 32)%Z ->
  let m := calculateMetrics data in
  avgCPM m = meanOf "CPM" data /\
  avgCTR m = meanOf "CTR" data /\
  avgROAS m = meanOf "ROAS" data /\
  avgCPA m = meanOf "CPA" data /\
  avgAdFrequency m = meanOf "AD FREQUENCY" data.
Proof.
  intros Hne Hlen.
  assert (Hpos : (0 <? JS.ofNat (length data))%float = true).
  { apply ofNat_positive; [destruct data; [contradiction | simpl; lia] | lia]. }
  unfold calculateMetrics, meanOf, metricSum.
  cbn [avgCPM avgCTR avgROAS avgCPA avgAdFrequency]. rewrite Hpos.
  repeat split; f_equal;
    match goal with
    | |- ?p (fold_left shotStep _ _) = _ =>
        apply (fold_shotStep_field p); intros; reflexivity
    end.
Qed.

Lemma X11_witness_one_shot :
  avgCPM (calculateMetrics [negativeCPMShot]) = meanOf "CPM" [negativeCPMShot] /\
  avgROAS (calculateMetrics [negativeCPMShot]) = meanOf "ROAS" [negativeCPMShot].
Proof.
  destruct (X11_averages_are_plain_means [negativeCPMShot])
    as (H1 & _ & H3 & _).
  - discriminate.
  - vm_compute. reflexivity.
  - split; assumption.
Defined.

(** ** The page: [App] with the uploader it renders *)

Lemma tryBlock_empty_store (text : string) (stage : FunnelStageContext)
    (st : State) (data : list Obj) :
  accumulatedShots st = [] ->
  snd (parseCSV text stage st) = Some data ->
  data <> [] /\ data = uploadedShots text stage.
Proof.
  intros Hacc Hs. unfold uploadedShots, parseCSV in *. cbn [accumulatedShots].
  rewrite Hacc in Hs.
  destruct (tryBlock text stage []) as [msg|newAcc] eqn:Ht; [discriminate Hs|].
  cbn [snd] in *. inversion Hs; subst data. split; [|reflexivity].
  intros E. subst newAcc. unfold tryBlock in Ht.
  destruct (validate text) as [m|v]; [discriminate Ht|].
  destruct (0 <? _)%nat; [discriminate Ht|].
  destruct (length (dailyData v) =? 0)%nat; [discriminate Ht|].
  destruct (aggregate (metricNames v) stage (dailyData v)) as [|s l];
    [discriminate Ht|].
  simpl in Ht. inversion Ht.
Qed.

Lemma parseCSV_quiet (text : string) (stage : FunnelStageContext) (st : State) :
  snd (parseCSV text stage st) = None ->
  accumulatedShots (fst (parseCSV text stage st)) = accumulatedShots st /\
  uploadedStages (fst (parseCSV text stage st)) = uploadedStages st.
Proof.
  unfold parseCSV.
  destruct (tryBlock text stage (accumulatedShots st)); [|intros H; discriminate H].
  intros _. split; reflexivity.
Qed.

Lemma handle_fresh (e : Event) (st : State) :
  freshStore st ->
  match snd (handle e st) with
  | Some data =>
      data <> [] /\ exists text stage, data = uploadedShots text stage
  | None => freshStore (fst (handle e st))
  end.
Proof.
  intros [Hacc Hflags].
  assert (Hfiles : forall files stage,
            match snd (handleFiles files stage st) with
            | Some data =>
                data <> [] /\ exists text stage, data = uploadedShots text stage
            | None => freshStore (fst (handleFiles files stage st))
            end).
  { intros files stage. unfold handleFiles.
    destruct files as [[|file rest]|]; cbn [fst snd]; try (split; assumption).
    destruct (negb _ && negb _); cbn [fst snd]; [split; assumption|].
    destruct (snd (parseCSV (DOM.contents file) stage st)) as [data|] eqn:Hs.
    - destruct (tryBlock_empty_store _ _ _ _ Hacc Hs) as [H1 H2].
      split; [exact H1|]. eexists _, _. exact H2.
    - destruct (parseCSV_quiet _ _ _ Hs) as [H1 H2].
      split; [rewrite H1; exact Hacc|].
      intros stage'. unfold isUploaded. rewrite H2. apply (Hflags stage'). }
  destruct e as [files stage|files stage|stage]; cbn [handle].
  - apply Hfiles.
  - rewrite (Hflags stage). apply Hfiles.
  - rewrite (Hflags stage). cbn [fst snd]. split; assumption.
Qed.

Lemma freshStore_initial : freshStore initialState.
Proof. split; [reflexivity | intros stage; reflexivity]. Qed.

Lemma render_pageInv (before : View) (mounted : option State) (h : Hooks) :
  (forall st, view h = ViewUpload -> before = ViewUpload -> mounted = Some st ->
              freshStore st) ->
  singleUpload (shotPerformanceData h) ->
  (appState h = Types.DASHBOARD ->
   analysis h <> None /\
   metrics h = Some (calculateMetrics (shotPerformanceData h)) /\ ready h) ->
  (appState h = Types.ANALYZING -> ready h) ->
  pageInv (render before mounted h).
Proof.
  intros Hm H1 H2 H3. unfold pageInv, render.
  destruct (view h) eqn:Hview;
    try (cbv zeta; cbn [hooks fileUpload]; rewrite Hview;
         split; [reflexivity | split; [exact H1 | split; [exact H2 | exact H3]]]).
  destruct before, mounted as [st|]; cbv zeta; cbn [hooks fileUpload]; rewrite Hview;
    (split; [|split; [exact H1 | split; [exact H2 | exact H3]]]);
    try (exists initialState; split; [reflexivity | apply freshStore_initial]).
  exists st. split; [reflexivity|]. apply (Hm st); reflexivity.
Qed.

Lemma view_appState (h : Hooks) :
  (appState h = Types.DASHBOARD -> analysis h <> None /\ metrics h <> None) ->
  match view h with
  | ViewDashboard => appState h = Types.DASHBOARD
  | ViewAnalyzing => appState h = Types.ANALYZING
  | ViewLanding => appState h = Types.LANDING
  | ViewUpload => appState h = Types.UPLOAD /\ shotPerformanceData h = []
  | ViewStrategy => appState h = Types.UPLOAD /\ shotPerformanceData h <> []
  end.
Proof.
  intros Hdash. unfold view.
  destruct (appState h) eqn:Es; try reflexivity.
  - destruct (shotPerformanceData h); simpl; split; try reflexivity; discriminate.
  - destruct (Hdash eq_refl) as [Ha Hm].
    destruct (analysis h); [|contradiction].
    destruct (metrics h); [|contradiction]. reflexivity.
Qed.

Lemma dispatch_pageInv (e : UIEvent) (p : Page) :
  pageInv p -> pageInv (dispatch e p).
Proof.
  intros Hinv. pose proof Hinv as (Hmount & Hsingle & Hdash & Han).
  destruct p as [h u]. cbv zeta in *. cbn [hooks fileUpload] in *.
  assert (Hview : match view h with
                  | ViewDashboard => appState h = Types.DASHBOARD
                  | ViewAnalyzing => appState h = Types.ANALYZING
                  | ViewLanding => appState h = Types.LANDING
                  | ViewUpload => appState h = Types.UPLOAD /\ shotPerformanceData h = []
                  | ViewStrategy => appState h = Types.UPLOAD /\ shotPerformanceData h <> []
                  end).
  { apply view_appState. intros Hs. destruct (Hdash Hs) as (Ha & Hm & _).
    split; [exact Ha | rewrite Hm; discriminate]. }
  unfold dispatch. cbn [hooks fileUpload].
  destruct e, (view h) eqn:Ev; try exact Hinv.
  - (* ClickStart *)
    apply render_pageInv; cbn [appState shotPerformanceData userFundamentals
                                 analysis metrics];
      [intros st _ E; discriminate E | exact Hsingle
      | intros E; discriminate E | intros E; discriminate E].
  - (* Uploader *)
    destruct Hmount as (st & -> & Hfresh). destruct Hview as [Hs Hd].
    pose proof (handle_fresh e st Hfresh) as Hh.
    destruct (handle e st) as [st' [data|]]; cbn [fst snd] in Hh.
    + destruct Hh as [Hne (text & stage & Hdata)].
      apply render_pageInv; unfold handleDataLoaded;
        cbn [appState shotPerformanceData userFundamentals analysis metrics].
      * intros st0 E. exfalso. unfold view in E.
        cbn [appState shotPerformanceData analysis metrics] in E. rewrite Hs in E.
        destruct data; [contradiction | discriminate E].
      * right. exists text, stage. split; assumption.
      * rewrite Hs. intros E; discriminate E.
      * rewrite Hs. intros E; discriminate E.
    + apply render_pageInv;
        [intros st0 _ _ E; inversion E; subst st0; exact Hh | exact Hsingle
        | rewrite Hs; intros E; discriminate E | rewrite Hs; intros E; discriminate E].
  - (* ClickChangeFile *)
    destruct Hview as [Hs Hd].
    apply render_pageInv; cbn [appState shotPerformanceData userFundamentals
                                 analysis metrics];
      [intros st _ E; discriminate E | left; reflexivity
      | rewrite Hs; intros E; discriminate E | rewrite Hs; intros E; discriminate E].
  - (* TypeFundamentals *)
    destruct Hview as [Hs Hd].
    apply render_pageInv; cbn [appState shotPerformanceData userFundamentals
                                 analysis metrics];
      [intros st _ E; discriminate E | exact Hsingle
      | rewrite Hs; intros E; discriminate E | rewrite Hs; intros E; discriminate E].
  - (* ClickAnalyze *)
    destruct Hview as [Hs Hd].
    destruct (String.eqb_spec (JS.trim (userFundamentals h)) "") as [Hblank|Hfund];
      [exact Hinv|].
    destruct (Nat.eqb_spec (length (shotPerformanceData h)) 0) as [Hlen|Hlen];
      [exact Hinv|].
    cbn [orb]. unfold handleStartAnalysis.
    destruct (Nat.eqb_spec (length (shotPerformanceData h)) 0) as [Hlen'|_];
      [contradiction|].
    apply render_pageInv; cbn [appState shotPerformanceData userFundamentals
                                 analysis metrics];
      [intros st _ E; discriminate E | exact Hsingle
      | intros E; discriminate E | intros _; split; assumption].
  - (* AnalysisSettled *)
    destruct (Han Hview) as [Hd Hfund].
    destruct outcome as [msg|result]; unfold resumeStartAnalysis;
      apply render_pageInv; cbn [appState shotPerformanceData userFundamentals
                                   analysis metrics];
      try (intros st _ E; discriminate E); try exact Hsingle;
      try (intros E; discriminate E).
    intros _. split; [discriminate|]. split; [reflexivity|]. split; assumption.
  - (* ClickReset *)
    apply render_pageInv; unfold resetApp;
      cbn [appState shotPerformanceData userFundamentals analysis metrics];
      [intros st _ E; discriminate E | left; reflexivity
      | intros E; discriminate E | intros E; discriminate E].
Qed.

Lemma session_pageInv (events : list UIEvent) :
  forall p, pageInv p -> pageInv (fold_left (fun p e => dispatch e p) events p).
Proof.
  induction events as [|e events IH]; intros p Hp; simpl.
  - exact Hp.
  - apply IH, dispatch_pageInv, Hp.
Qed.

Lemma initialPage_pageInv : pageInv initialPage.
Proof.
  unfold pageInv. simpl. split; [reflexivity|]. split; [left; reflexivity|].
  split; intros E; discriminate E.
Qed.

(** X12: after any sequence of events on the page, the shot data of
    [App] is empty or is what a single upload for a single stage hands
    over from an empty store; [FileUpload] is mounted exactly in the
    upload view, and whenever it is mounted it holds no shot and shows no
    stage as uploaded: [App] removes the uploader from the tree once
    shots are loaded, so a second stage is never merged with a first. *)
Theorem X12_one_upload_reaches_the_analysis (events : list UIEvent) :
  let p := session events in
  (shotPerformanceData (hooks p) = [] \/
   exists text stage,
     shotPerformanceData (hooks p) <> [] /\
     shotPerformanceData (hooks p) = uploadedShots text stage) /\
  (view (hooks p) = ViewUpload <-> fileUpload p <> None) /\
  (forall st, fileUpload p = Some st ->
     accumulatedShots st = [] /\ forall stage, isUploaded stage st = false).
Proof.
  intros p.
  pose proof (session_pageInv events initialPage initialPage_pageInv)
    as (Hmount & Hsingle & _).
  fold (session events) in Hmount, Hsingle. fold p in Hmount, Hsingle.
  cbv zeta in Hmount. split; [exact Hsingle|].
  destruct (view (hooks p)); split;
    try (split; [intros E; discriminate E | intros E; contradiction]);
    try (intros st E; rewrite Hmount in E; discriminate E).
  - destruct Hmount as (st & -> & _). split; [intros _; discriminate | reflexivity].
  - destruct Hmount as (st & -> & Hfresh). intros st0 E. inversion E; subst st0.
    exact Hfresh.
Qed.



(** ** The analysis service *)

Lemma sameValueZero_refl (a : option JSVal) : sameValueZero a a = true.
Proof.
  destruct a as [[s|x]|]; simpl; [apply String.eqb_refl | | reflexivity].
  unfold PrimFloat.is_nan. destruct (x =? x)%float; reflexivity.
Qed.

Lemma sameValueZero_stage (stage : FunnelStageContext) (value : option JSVal) :
  sameValueZero value (stageValue stage) = true <-> value = stageValue stage.
Proof.
  unfold stageValue. destruct value as [[s|x]|]; simpl.
  - rewrite String.eqb_eq. split; [intros ->; reflexivity | intros E; congruence].
  - split; intros E; discriminate E.
  - split; intros E; discriminate E.
Qed.

Lemma includes_stage (arr : list (option JSVal)) (stage : FunnelStageContext) :
  includes arr (stageValue stage) = true <-> In (stageValue stage) arr.
Proof.
  unfold includes. rewrite existsb_exists. split.
  - intros (x & Hx & Hs). apply sameValueZero_stage in Hs. subst x. exact Hx.
  - intros Hin. exists (stageValue stage). split; [exact Hin|].
    apply sameValueZero_refl.
Qed.

Lemma includes_In (arr : list (option JSVal)) (value : option JSVal) :
  In value arr -> includes arr value = true.
Proof.
  intros Hin. unfold includes. apply existsb_exists.
  exists value. split; [exact Hin | apply sameValueZero_refl].
Qed.

(** Filling a [Set]: no value is stored twice, and a stage tag is stored
    exactly when it is among the values. *)
Lemma arrayFromSet_fold (values : list (option JSVal)) :
  forall set,
    List.NoDup set ->
    let result :=
      fold_left (fun set value => if includes set value then set else set ++ [value])
                values set in
    List.NoDup result /\
    forall stage, In (stageValue stage) result <->
                  In (stageValue stage) set \/ In (stageValue stage) values.
Proof.
  induction values as [|value values IH]; intros set Hnd; simpl.
  - split; [exact Hnd|]. intros stage. tauto.
  - destruct (includes set value) eqn:Hinc.
    + destruct (IH set Hnd) as [H1 H2]. split; [exact H1|].
      intros stage. rewrite H2. split; [tauto|].
      intros [H|[H|H]]; [tauto| |tauto].
      left. subst value. apply includes_stage. exact Hinc.
    + assert (Hnd' : List.NoDup (set ++ [value])).
      { apply NoDup_ListNoDup, NoDup_app. split; [apply NoDup_ListNoDup, Hnd|].
        split; [|apply NoDup_singleton].
        intros x Hx Hv. apply list_elem_of_singleton in Hv. subst x.
        apply list_elem_of_In, includes_In in Hx. congruence. }
      destruct (IH (set ++ [value]) Hnd') as [H1 H2]. split; [exact H1|].
      intros stage. rewrite H2, in_app_iff. simpl. tauto.
Qed.

Lemma otherStage_false (stage : FunnelStageContext) (shot : Obj) :
  otherStage stage shot = false <-> shot !! "funnelStage" = stageValue stage.
Proof.
  unfold otherStage, stageValue.
  destruct (shot !! "funnelStage") as [[name|x]|].
  - rewrite negb_false_iff, String.eqb_eq.
    split; [intros ->; reflexivity | intros E; congruence].
  - split; intros E; discriminate E.
  - split; intros E; discriminate E.
Qed.

Lemma stageShots_nonempty (stage : FunnelStageContext) (data : list Obj) :
  stageShots stage data <> [] <->
  In (stageValue stage) (map (fun d : Obj => d !! "funnelStage") data).
Proof.
  unfold stageShots. rewrite in_map_iff. split.
  - intros Hne.
    destruct (List.filter _ data) as [|shot l] eqn:E; [contradiction|].
    assert (Hin : In shot (List.filter (fun s => negb (otherStage stage s)) data))
      by (rewrite E; left; reflexivity).
    apply List.filter_In in Hin. destruct Hin as [Hin Hs].
    exists shot. split; [|exact Hin].
    apply otherStage_false, negb_true_iff. exact Hs.
  - intros (shot & Htag & Hin) E.
    assert (H : In shot (List.filter (fun s => negb (otherStage stage s)) data)).
    { apply List.filter_In. split; [exact Hin|].
      apply negb_true_iff, otherStage_false. exact Htag. }
    rewrite E in H. destruct H.
Qed.

Lemma includes_allPossibleStages (value : option JSVal) :
  includes allPossibleStages value = true <-> exists stage, value = stageValue stage.
Proof.
  unfold includes, allPossibleStages. rewrite existsb_exists. split.
  - intros (x & Hx & Hs). simpl in Hx.
    destruct Hx as [<-|[<-|[<-|[]]]]; destruct value as [[s|y]|];
      cbn [sameValueZero] in Hs;
      try discriminate Hs; apply String.eqb_eq in Hs; subst s.
    + exists TOF. reflexivity.
    + exists MOF. reflexivity.
    + exists BOF. reflexivity.
  - intros [stage ->]. exists (stageValue stage). split.
    + destruct stage; simpl; tauto.
    + apply sameValueZero_refl.
Qed.

Lemma uniqueFunnelStages_spec (data : list Obj) :
  List.NoDup (uniqueFunnelStages data) /\
  (forall value, In value (uniqueFunnelStages data) ->
                 exists stage, value = stageValue stage) /\
  (forall stage, In (stageValue stage) (uniqueFunnelStages data) <->
                 stageShots stage data <> []).
Proof.
  unfold uniqueFunnelStages, arrayFromSet.
  destruct (arrayFromSet_fold (map (fun d : Obj => d !! "funnelStage") data) []
              (List.NoDup_nil _)) as [Hnd Hin].
  cbv zeta in Hnd, Hin.
  split; [apply List.NoDup_filter, Hnd|]. split.
  - intros value Hv. apply List.filter_In in Hv. destruct Hv as [_ Hv].
    apply includes_allPossibleStages. exact Hv.
  - intros stage. rewrite List.filter_In, Hin, stageShots_nonempty. cbn [In]. split.
    + intros [[[]|H] _]. exact H.
    + intros H. split; [right; exact H|].
      apply includes_allPossibleStages. exists stage. reflexivity.
Qed.

Lemma stageData_stageShots (stage : FunnelStageContext) (data : list Obj) :
  stageData (stageValue stage) data = stageShots stage data.
Proof.
  unfold stageData, stageShots. apply List.filter_ext. intros shot.
  unfold strictEquals, otherStage, stageValue.
  destruct (shot !! "funnelStage") as [[name|x]|]; simpl;
    [rewrite negb_involutive|..]; reflexivity.
Qed.

(** X14: the stage lists of the analysis service follow the tags of the
    shots: [uniqueFunnelStages] holds stage names only, none twice; a
    stage is in it, and in [sortedUniqueFunnelStages], exactly when some
    shot carries its tag, and in [missingFunnelStages] exactly when none
    does; and the shots of the CSV block of a stage are the shots that an
    upload for the stage replaces in the store. *)
Theorem X14_stage_lists_follow_the_tags (data : list Obj) :
  List.NoDup (uniqueFunnelStages data) /\
  (forall value, In value (uniqueFunnelStages data) ->
                 exists stage, value = stageValue stage) /\
  (forall stage,
     (In (stageValue stage) (uniqueFunnelStages data) <->
      stageShots stage data <> []) /\
     (In (stageValue stage) (sortedUniqueFunnelStages data) <->
      stageShots stage data <> []) /\
     (In (stageValue stage) (missingFunnelStages data) <->
      stageShots stage data = []) /\
     stageData (stageValue stage) data = stageShots stage data).
Proof.
  destruct (uniqueFunnelStages_spec data) as (Hnd & Hstages & Hin).
  split; [exact Hnd|]. split; [exact Hstages|].
  intros stage.
  assert (Hall : In (stageValue stage) allPossibleStages)
    by (destruct stage; simpl; tauto).
  split; [apply Hin|]. split; [|split; [|apply stageData_stageShots]].
  - unfold sortedUniqueFunnelStages.
    rewrite List.filter_In, includes_stage, Hin. tauto.
  - unfold missingFunnelStages.
    rewrite List.filter_In, negb_true_iff, <- not_true_iff_false, includes_stage, Hin.
    split.
    + intros [_ H]. destruct (stageShots stage data); [reflexivity|].
      exfalso. apply H. discriminate.
    + intros E. split; [exact Hall|]. rewrite E. intros H. apply H. reflexivity.
Qed.

Lemma startsWith_cons (c d : ascii) (p s : string) :
  JS.startsWith (String d s) (String c p) = true -> c = d.
Proof.
  unfold JS.startsWith. cbn [String.prefix].
  destruct (ascii_dec c d) as [E|_]; [intros _; exact E | intros H; discriminate H].
Qed.

Lemma endsWith_single (c d : ascii) :
  JS.endsWith (String c EmptyString) (String d EmptyString) = true -> c = d.
Proof.
  unfold JS.endsWith.
  cbn [String.length Nat.leb Nat.sub String.substring andb].
  intros H. apply String.eqb_eq in H. injection H as E. exact E.
Qed.

Lemma wrapped_length (s : string) : wrapped s = true -> (2 <= String.length s)%nat.
Proof.
  unfold wrapped.
  destruct s as [|c [|c' s]]; [intros H; discriminate H | | simpl; lia].
  intros H. exfalso. apply orb_true_iff in H.
  destruct H as [H|H]; apply andb_true_iff in H; destruct H as [H1 H2];
    apply startsWith_cons in H1; apply endsWith_single in H2; subst c;
    discriminate H2.
Qed.

Lemma wrapped_not_html (s : string) : wrapped s = true -> looksLikeHtml s = false.
Proof.
  unfold wrapped.
  destruct s as [|c s]; [intros H; discriminate H|].
  intros H. apply orb_true_iff in H.
  destruct H as [H|H]; apply andb_true_iff in H; destruct H as [H1 _];
    apply startsWith_cons in H1; subst c; reflexivity.
Qed.

(** X15: a response text reaches [JSON.parse] exactly when its trimmed
    text is enclosed in braces or in brackets and its lower-case form
    passes the test on error words; what is parsed is the trimmed text,
    of two characters at least, so the tests on an empty text, on HTML
    and on the length never decide; and a response in which one of the
    error words occurs anywhere, in any letter case, is rejected. *)
Theorem X15_which_responses_reach_the_parser (responseText : string) :
  let trimmedText := JS.trim responseText in
  (screenSummary (Some responseText) = inr trimmedText <->
   looksLikeError (JS.toLowerCase trimmedText) = false /\ wrapped trimmedText = true) /\
  (forall parsed, screenSummary (Some responseText) = inr parsed ->
     parsed = trimmedText /\ (2 <= String.length parsed)%nat) /\
  (forall word, In word errorWords ->
     JS.includes (JS.toLowerCase trimmedText) word = true ->
     exists message, screenSummary (Some responseText) = inl message).
Proof.
  intros trimmedText.
  assert (Hiff : forall parsed, screenSummary (Some responseText) = inr parsed <->
            parsed = trimmedText /\
            looksLikeError (JS.toLowerCase trimmedText) = false /\
            wrapped trimmedText = true).
  { intros parsed. unfold screenSummary. fold trimmedText.
    destruct (Nat.eqb_spec (String.length trimmedText) 0) as [Hlen|Hlen].
    { split; [intros H; discriminate H|]. intros (_ & _ & Hw).
      apply wrapped_length in Hw. lia. }
    destruct (looksLikeError (JS.toLowerCase trimmedText)).
    { split; [intros H; discriminate H | intros (_ & H & _); discriminate H]. }
    destruct (wrapped trimmedText) eqn:Hw.
    - rewrite (wrapped_not_html _ Hw).
      pose proof (wrapped_length _ Hw) as Hlen2.
      unfold wrapped in Hw.
      replace (negb (JS.startsWith trimmedText "{" && JS.endsWith trimmedText "}") &&
               negb (JS.startsWith trimmedText "[" && JS.endsWith trimmedText "]"))
        with false
        by (rewrite <- negb_orb, Hw; reflexivity).
      replace (String.length trimmedText <? 2)%nat with false
        by (symmetry; apply Nat.ltb_ge; exact Hlen2).
      split; [intros H; inversion H; auto | intros (-> & _); reflexivity].
    - destruct (looksLikeHtml trimmedText).
      { split; [intros H; discriminate H | intros (_ & _ & H); discriminate H]. }
      unfold wrapped in Hw.
      replace (negb (JS.startsWith trimmedText "{" && JS.endsWith trimmedText "}") &&
               negb (JS.startsWith trimmedText "[" && JS.endsWith trimmedText "]"))
        with true
        by (rewrite <- negb_orb, Hw; reflexivity).
      split; [intros H; discriminate H | intros (_ & _ & H); discriminate H]. }
  split; [|split].
  - rewrite Hiff. tauto.
  - intros parsed H. apply Hiff in H. destruct H as (-> & _ & Hw).
    split; [reflexivity | apply wrapped_length, Hw].
  - intros word Hword Hinc.
    destruct (screenSummary (Some responseText)) as [message|parsed] eqn:Hs;
      [exists message; reflexivity|].
    exfalso. destruct (proj1 (Hiff parsed) eq_refl) as (_ & Herr & _).
    unfold looksLikeError in Herr.
    repeat (apply orb_false_iff in Herr; destruct Herr as [Herr ?]).
    unfold errorWords in Hword. cbn [In] in Hword.
    repeat (destruct Hword as [<-|Hword]; [congruence|]). destruct Hword.
Qed.

(** ** The uploader of one file *)

Lemma single_shotLoop_done (names : list string) (dailyData : list Obj)
    (i : nat) (shotData : list Obj) :
  (length dailyData <= i)%nat ->
  FileUploadSingle.shotLoop names dailyData i shotData = shotData.
Proof.
  intros Hle. rewrite FileUploadSingle.shotLoop_equation_1.
  destruct (decide (i < length dailyData)%nat) as [Hlt|Hge]; [lia|].
  reflexivity.
Qed.

Lemma single_shotLoop_step (names : list string) (dailyData : list Obj)
    (i : nat) (shotData : list Obj) :
  (i < length dailyData)%nat ->
  FileUploadSingle.shotLoop names dailyData i shotData =
  FileUploadSingle.shotLoop names dailyData (i + 3)
    (shotData ++ [singleShotAt names dailyData i]).
Proof.
  intros Hlt. rewrite FileUploadSingle.shotLoop_equation_1.
  destruct (decide (i < length dailyData)%nat) as [Hlt'|Hge]; [|lia].
  unfold singleShotAt. simpl.
  destruct (take 3 (drop i dailyData)) as [|first rest] eqn:Hdays; [|reflexivity].
  apply (f_equal length) in Hdays.
  rewrite length_take, length_drop in Hdays. cbn [length] in Hdays. lia.
Qed.

Lemma single_shotLoop_windows (names : list string) (dailyData : list Obj) :
  forall (count i : nat) (shotData : list Obj),
    ceilDiv3 (length dailyData - i) = count ->
    FileUploadSingle.shotLoop names dailyData i shotData =
    shotData ++ map (singleShotAt names dailyData) (windowStarts i count).
Proof.
  induction count as [|count IH]; intros i shotData Hcount.
  - apply ceilDiv3_zero in Hcount. simpl. rewrite app_nil_r.
    apply single_shotLoop_done. lia.
  - assert (Hlt : (i < length dailyData)%nat).
    { destruct (Nat.le_gt_cases (length dailyData) i) as [Hle|Hlt]; [|exact Hlt].
      replace (length dailyData - i)%nat with 0%nat in Hcount by lia.
      discriminate Hcount. }
    rewrite single_shotLoop_step by exact Hlt.
    rewrite (IH (i + 3)%nat).
    + simpl. rewrite <- List.app_assoc. reflexivity.
    + rewrite ceilDiv3_step in Hcount by lia.
      replace (length dailyData - (i + 3))%nat with (length dailyData - i - 3)%nat
        by lia.
      lia.
Qed.

Lemma single_aggregate_windows (names : list string) (dailyData : list Obj) :
  FileUploadSingle.aggregate names dailyData =
  map (singleShotAt names dailyData) (windowStarts 0 (ceilDiv3 (length dailyData))).
Proof.
  unfold FileUploadSingle.aggregate.
  rewrite (single_shotLoop_windows names dailyData (ceilDiv3 (length dailyData)) 0 []).
  - reflexivity.
  - rewrite Nat.sub_0_r. reflexivity.
Qed.

Lemma stageDays_cons (stage : string) (day : Obj) (days : list Obj) :
  stageDays stage (day :: days) =
  ((if dayOf stage day then 1 else 0) + stageDays stage days)%nat.
Proof.
  unfold stageDays, dayOf. cbn [List.filter].
  destruct (day !! "FUNNEL STAGE") as [[s|x]|]; try reflexivity.
  destruct (s =? stage)%string; reflexivity.
Qed.

Lemma countStep_day (a b c : nat) (day : Obj) :
  FileUploadSingle.countStep [("TOF", a); ("MOF", b); ("BOF", c)] day =
  [("TOF", (a + (if dayOf "TOF" day then 1 else 0))%nat);
   ("MOF", (b + (if dayOf "MOF" day then 1 else 0))%nat);
   ("BOF", (c + (if dayOf "BOF" day then 1 else 0))%nat)].
Proof.
  unfold FileUploadSingle.countStep, dayOf.
  destruct (day !! "FUNNEL STAGE") as [[stage|x]|];
    try (rewrite !Nat.add_0_r; reflexivity).
  unfold FileUploadSingle.increment. cbn [map].
  rewrite (String.eqb_sym "TOF" stage), (String.eqb_sym "MOF" stage),
    (String.eqb_sym "BOF" stage).
  destruct (stage =? "TOF")%string, (stage =? "MOF")%string,
    (stage =? "BOF")%string; cbn [orb]; rewrite ?Nat.add_0_r; reflexivity.
Qed.

(** The counts after the days of a window. *)
Lemma countStep_counts (daysInShot : list Obj) :
  forall a b c : nat,
    fold_left FileUploadSingle.countStep daysInShot [("TOF", a); ("MOF", b); ("BOF", c)] =
    [("TOF", (a + stageDays "TOF" daysInShot)%nat);
     ("MOF", (b + stageDays "MOF" daysInShot)%nat);
     ("BOF", (c + stageDays "BOF" daysInShot)%nat)].
Proof.
  induction daysInShot as [|day days IH]; intros a b c.
  - simpl. rewrite !Nat.add_0_r. reflexivity.
  - cbn [fold_left]. rewrite countStep_day, IH, !stageDays_cons, !Nat.add_assoc.
    reflexivity.
Qed.

Lemma vote_three (a b c : nat) :
  let p := fst (fold_left FileUploadSingle.voteStep [("TOF", a); ("MOF", b); ("BOF", c)] ("TOF", 0%nat)) in
  (p = "TOF" /\ (b <= a)%nat /\ (c <= a)%nat) \/
  (p = "MOF" /\ (a < b)%nat /\ (c <= b)%nat) \/
  (p = "BOF" /\ (a < c)%nat /\ (b < c)%nat).
Proof.
  cbv zeta. cbn [fold_left]. unfold FileUploadSingle.voteStep.
  repeat match goal with
         | |- context [(?x <? ?y)%nat] =>
             destruct (Nat.ltb_spec x y); cbv beta iota
         end;
    cbn [fst];
    first [ left; split; [reflexivity | lia]
          | right; left; split; [reflexivity | lia]
          | right; right; split; [reflexivity | lia] ].
Qed.

Lemma predominantStage_vote (daysInShot : list Obj) :
  let p := FileUploadSingle.predominantStage daysInShot in
  (p = "TOF" \/ p = "MOF" \/ p = "BOF") /\
  forall stage, stage = "TOF" \/ stage = "MOF" \/ stage = "BOF" ->
    (stageDays stage daysInShot <= stageDays p daysInShot)%nat /\
    (stageDays stage daysInShot = stageDays p daysInShot ->
     (stageRank p <= stageRank stage)%nat).
Proof.
  unfold FileUploadSingle.predominantStage, FileUploadSingle.initialCounts. rewrite countStep_counts.
  cbv zeta. cbn [Nat.add].
  destruct (vote_three (stageDays "TOF" daysInShot) (stageDays "MOF" daysInShot)
              (stageDays "BOF" daysInShot)) as [(-> & H1 & H2)|[(-> & H1 & H2)|(-> & H1 & H2)]];
    (split; [tauto|]);
    intros stage [-> | [-> | ->]]; unfold stageRank; simpl; lia.
Qed.

Lemma single_shot_fields (names : list string)
    (dailyData : list Obj) (j : nat) (shot : Obj) :
  FileUploadSingle.aggregate names dailyData !! j = Some shot ->
  exists first rest p,
    windowsOf dailyData !! j = Some (first :: rest) /\
    (p = "TOF" \/ p = "MOF" \/ p = "BOF") /\
    (forall stage, stage = "TOF" \/ stage = "MOF" \/ stage = "BOF" ->
       (stageDays stage (first :: rest) <= stageDays p (first :: rest))%nat /\
       (stageDays stage (first :: rest) = stageDays p (first :: rest) ->
        (stageRank p <= stageRank stage)%nat)) /\
    ("funnelStage" ∉ FileUploadSingle.metricsToAverage names ->
     shot !! "funnelStage" = Some (VStr p)) /\
    (forall m, m ∈ FileUploadSingle.metricsToAverage names -> m <> "__proto__" ->
       shot !! m = Some (VNum (meanOf m (first :: rest)))) /\
    shot !! "__proto__" = None.
Proof.
  intros Hshot.
  assert (Hj : (j < ceilDiv3 (length dailyData))%nat).
  { apply lookup_lt_Some in Hshot.
    rewrite single_aggregate_windows, length_map, windowStarts_length in Hshot.
    exact Hshot. }
  rewrite single_aggregate_windows, list_lookup_fmap,
    (windowStarts_lookup _ 0 j Hj) in Hshot.
  assert (Hs : shot = singleShotAt names dailyData (3 * j)).
  { cbv [fmap option_fmap option_map] in Hshot.
    injection Hshot as Hs. symmetry. exact Hs. }
  clear Hshot. rewrite (windowsOf_lookup _ _ Hj).
  unfold singleShotAt in Hs.
  destruct (take 3 (drop (3 * j) dailyData)) as [|first rest] eqn:Hw.
  { exfalso. apply (f_equal length) in Hw.
    rewrite length_take, length_drop in Hw. cbn [length] in Hw.
    pose proof (ceilDiv3_bounds (length dailyData)). lia. }
  exists first, rest, (FileUploadSingle.predominantStage (first :: rest)).
  assert (Hlook : forall k, shot !! k =
            if decide (k ∈ FileUploadSingle.metricsToAverage names /\ k <> "__proto__")
            then Some (VNum (meanOf k (first :: rest)))
            else (<["funnelStage" := VStr (FileUploadSingle.predominantStage (first :: rest))]>
                    (<["numDaysInShot" := VNum (JS.ofNat (length (first :: rest)))]>
                       (assign "endDate" (List.last (first :: rest) first !! "date")
                          (assign "startDate" (first !! "date")
                             (<["shotId" := VStr ("Shot " +:+ JS.natToString (3 * j / 3 + 1))]>
                                (∅ : Obj))))) : Obj) !! k).
  { intros k. rewrite Hs. unfold FileUploadSingle.makeShot.
    apply (fold_setProperty_lookup (fun name => VNum (meanOf name (first :: rest)))). }
  split; [reflexivity|].
  destruct (predominantStage_vote (first :: rest)) as [Hp Hvote].
  split; [exact Hp|]. split; [exact Hvote|]. split; [|split].
  - intros Hcol. rewrite Hlook, decide_False by tauto. apply lookup_insert_eq.
  - intros m Hm Hne. rewrite Hlook, decide_True by (split; assumption). reflexivity.
  - rewrite Hlook, decide_False by tauto.
    rewrite !lookup_insert_ne, !assign_lookup_ne, lookup_insert_ne by discriminate.
    apply lookup_empty.
Qed.



Lemma upperChar_lowerChar (c : ascii) :
  JS.upperChar (JS.lowerChar c) = JS.upperChar c.
Proof. destruct c as [[] [] [] [] [] [] [] []]; reflexivity. Qed.

Lemma toUpperCase_toLowerCase (s : string) :
  JS.toUpperCase (JS.toLowerCase s) = JS.toUpperCase s.
Proof.
  unfold JS.toUpperCase, JS.toLowerCase.
  induction s as [|c s IH]; simpl; [reflexivity|].
  rewrite upperChar_lowerChar, IH. reflexivity.
Qed.

Lemma single_headerCheck_stage (names : list string) :
  FileUploadSingle.headerCheck names [] = [] -> hasStageColumn names = true.
Proof.
  unfold FileUploadSingle.headerCheck.
  set (missing := List.filter _ FileUploadSingle.requiredMetricNames).
  destruct (Nat.ltb_spec 0 (length missing)) as [Hlt|Hge]; [intros H; discriminate H|].
  intros _.
  assert (Hin : ~ In "funnel stage" missing).
  { destruct missing; [intros [] | simpl in Hge; lia]. }
  unfold missing in Hin. rewrite List.filter_In in Hin.
  destruct (decide ("funnel stage" ∈
              (list_to_set (map JS.toLowerCase names) : gset string))) as [Hd|Hd].
  - apply elem_of_list_to_set, list_elem_of_fmap in Hd.
    destruct Hd as (h & Hlow & Hh).
    unfold hasStageColumn. apply existsb_exists. exists h.
    split; [apply list_elem_of_In; exact Hh|].
    apply String.eqb_eq. rewrite <- toUpperCase_toLowerCase, <- Hlow. reflexivity.
  - exfalso. apply Hin. split.
    + unfold FileUploadSingle.requiredMetricNames. simpl. tauto.
    + apply negb_true_iff, bool_decide_eq_false. exact Hd.
Qed.

Lemma isStage_nonempty (stage : string) :
  FileUploadSingle.isStage stage = true -> stage <> "".
Proof. intros H ->. discriminate H. Qed.

(** One column: the callback returns when the field exists; it only adds
    to the errors; a true [FUNNEL STAGE] stays true, and a stage column
    makes it true. *)
Lemma single_metricStep_facts (parts : list string) (dateStr : string)
    (entry : Obj) (flag : bool) (errs : list string) (colIndex : nat)
    (headerName : string) :
  is_Some (parts !! (colIndex + 1)%nat) ->
  exists entry' flag' more,
    FileUploadSingle.metricStep parts dateStr (entry, flag, errs) colIndex headerName =
      inr (entry', flag', errs ++ more) /\
    (truthy (entry !! "FUNNEL STAGE") = true ->
     truthy (entry' !! "FUNNEL STAGE") = true) /\
    ((JS.toUpperCase headerName =? "FUNNEL STAGE")%string = true ->
     truthy (entry' !! "FUNNEL STAGE") = true).
Proof.
  intros [valueStr Hv]. unfold FileUploadSingle.metricStep. rewrite Hv.
  destruct (JS.toUpperCase headerName =? "FUNNEL STAGE")%string eqn:Hstage.
  - destruct (FileUploadSingle.isStage (JS.toUpperCase valueStr)) eqn:Hs.
    + eexists _, _, []. rewrite app_nil_r. split; [reflexivity|].
      rewrite lookup_insert_eq. cbn [truthy].
      apply isStage_nonempty in Hs.
      destruct (String.eqb_spec (JS.toUpperCase valueStr) "") as [E|_];
        [contradiction|].
      split; intros _; reflexivity.
    + eexists _, _, [_]. split; [reflexivity|].
      rewrite lookup_insert_eq. split; intros _; reflexivity.
  - assert (Hkey : headerName <> "FUNNEL STAGE").
    { intros ->. discriminate Hstage. }
    destruct (negb (JS.isNaN (JS.parseFloat valueStr))).
    + eexists _, _, []. rewrite app_nil_r. split; [reflexivity|].
      rewrite setProperty_lookup, decide_False
        by (intros [E _]; apply Hkey; symmetry; exact E).
      split; [intros H; exact H | intros H; discriminate H].
    + destruct valueStr as [|c s].
      * eexists _, _, []. rewrite app_nil_r. split; [reflexivity|].
        rewrite setProperty_lookup, decide_False
        by (intros [E _]; apply Hkey; symmetry; exact E).
        split; [intros H; exact H | intros H; discriminate H].
      * eexists _, _, [_]. split; [reflexivity|].
        rewrite setProperty_lookup, decide_False
        by (intros [E _]; apply Hkey; symmetry; exact E).
        split; [intros H; exact H | intros H; discriminate H].
Qed.

Lemma single_metricLoop_facts (parts : list string) (dateStr : string)
    (names : list string) :
  forall (colIndex : nat) (entry : Obj) (flag : bool) (errs : list string),
    (colIndex + length names < length parts)%nat ->
    exists entry' flag' more,
      forEachFromE (FileUploadSingle.metricStep parts dateStr) colIndex names
                   (entry, flag, errs) = inr (entry', flag', errs ++ more) /\
      (truthy (entry !! "FUNNEL STAGE") = true \/ hasStageColumn names = true ->
       truthy (entry' !! "FUNNEL STAGE") = true).
Proof.
  induction names as [|headerName names IH]; intros colIndex entry flag errs Hlen.
  - exists entry, flag, []. rewrite app_nil_r. split; [reflexivity|].
    intros [H|H]; [exact H | discriminate H].
  - cbn [length] in Hlen. cbn [forEachFromE].
    destruct (single_metricStep_facts parts dateStr entry flag errs colIndex headerName)
      as (e1 & f1 & more1 & -> & Hkeep & Hset).
    { apply lookup_lt_is_Some. lia. }
    destruct (IH (S colIndex) e1 f1 (errs ++ more1)) as (e2 & f2 & more2 & -> & Hrest);
      [lia|].
    exists e2, f2, (more1 ++ more2). rewrite List.app_assoc. split; [reflexivity|].
    intros [H|H]; apply Hrest.
    + left. apply Hkeep, H.
    + unfold hasStageColumn in H. cbn [existsb] in H. apply orb_true_iff in H.
      destruct H as [H|H]; [left; apply Hset, H | right; exact H].
Qed.

(** One data row: the callback returns and only adds to the errors; under
    a header with a stage column it adds a day exactly when the row is
    not blank and has as many fields as the header. *)
Lemma single_rowStep_facts (first : string) (names : list string)
    (dd : list Obj) (errs : list string) (rowIndex : nat) (line : string) :
  exists days more,
    FileUploadSingle.rowStep (first :: names) names (dd, errs) rowIndex line =
      inr (dd ++ days, errs ++ more) /\
    (hasStageColumn names = true ->
     length days = (if keptRow (first :: names) line then 1 else 0)%nat /\
     Forall (fun day : Obj => truthy (day !! "FUNNEL STAGE") = true) days).
Proof.
  unfold FileUploadSingle.rowStep, keptRow, blankRow.
  destruct (fields line) as [|dateStr rest] eqn:Hf.
  - exists [], []. rewrite !app_nil_r. repeat split. constructor.
  - destruct (forallb _ (dateStr :: rest)).
    + exists [], []. rewrite !app_nil_r. repeat split. constructor.
    + cbn [negb andb].
      destruct (Nat.eqb_spec (length (dateStr :: rest)) (length (first :: names)))
        as [Hlen|Hlen]; cbn [negb].
      * unfold forEachE.
        destruct (single_metricLoop_facts (dateStr :: rest) dateStr names 0
                    (<["date" := VStr dateStr]> ∅) false errs)
          as (e & f & more & -> & Htruthy).
        { rewrite Hlen. simpl. lia. }
        destruct (f || truthy (e !! "FUNNEL STAGE")) eqn:Hkeep.
        -- exists [e], more. split; [reflexivity|]. intros Hcol.
           split; [reflexivity|]. constructor; [|constructor].
           apply Htruthy. right. exact Hcol.
        -- exists [], more. rewrite app_nil_r. split; [reflexivity|]. intros Hcol.
           rewrite (Htruthy (or_intror Hcol)), orb_true_r in Hkeep.
           discriminate Hkeep.
      * eexists [], [_]. rewrite app_nil_r. split; [reflexivity|]. intros _.
        split; [reflexivity | constructor].
Qed.

Lemma single_rowLoop_facts (first : string) (names : list string)
    (dataLines : list string) :
  forall (rowIndex : nat) (dd : list Obj) (errs : list string),
    exists days more,
      forEachFromE (FileUploadSingle.rowStep (first :: names) names) rowIndex
                   dataLines (dd, errs) = inr (dd ++ days, errs ++ more) /\
      (hasStageColumn names = true ->
       length days = length (List.filter (keptRow (first :: names)) dataLines) /\
       Forall (fun day : Obj => truthy (day !! "FUNNEL STAGE") = true) days).
Proof.
  induction dataLines as [|line dataLines IH]; intros rowIndex dd errs.
  - exists [], []. rewrite !app_nil_r. repeat split. constructor.
  - cbn [forEachFromE List.filter].
    destruct (single_rowStep_facts first names dd errs rowIndex line)
      as (days1 & more1 & -> & H1).
    destruct (IH (S rowIndex) (dd ++ days1) (errs ++ more1))
      as (days2 & more2 & -> & H2).
    exists (days1 ++ days2), (more1 ++ more2). rewrite !List.app_assoc.
    split; [reflexivity|]. intros Hcol.
    destruct (H1 Hcol) as [Hlen1 Hall1]. destruct (H2 Hcol) as [Hlen2 Hall2].
    split.
    + rewrite length_app, Hlen1, Hlen2.
      destruct (keptRow (first :: names) line); simpl; lia.
    + apply Forall_app. split; assumption.
Qed.

Lemma single_rangeStep_app (errs : list string) (day : Obj) :
  FileUploadSingle.rangeStep errs day = errs ++ FileUploadSingle.rangeStep [] day.
Proof.
  unfold FileUploadSingle.rangeStep. rewrite !pushIf_app. simpl.
  rewrite <- !List.app_assoc. reflexivity.
Qed.

Lemma single_rangeLoop_app (dailyData : list Obj) (errs : list string) :
  fold_left FileUploadSingle.rangeStep dailyData errs =
  errs ++ flat_map (FileUploadSingle.rangeStep []) dailyData.
Proof.
  revert errs. induction dailyData as [|day dailyData IH]; intros errs; simpl.
  - symmetry. apply app_nil_r.
  - rewrite IH, (single_rangeStep_app errs day), <- List.app_assoc. reflexivity.
Qed.

(** A day without a recorded error carries a stage. *)
Lemma single_rangeStep_stage (day : Obj) :
  FileUploadSingle.rangeStep [] day = [] -> validStage day = true.
Proof.
  unfold FileUploadSingle.rangeStep, validStage. rewrite !pushIf_app.
  cbn [app]. intros H.
  repeat (apply app_eq_nil in H; destruct H as [H _]).
  destruct (day !! "FUNNEL STAGE") as [[stage|x]|].
  - destruct (FileUploadSingle.isStage stage); [reflexivity|].
    rewrite orb_true_r in H. discriminate H.
  - rewrite orb_true_r in H. discriminate H.
  - discriminate H.
Qed.

(** What [validate] computed when it returns. *)
Lemma single_validate_facts (text : string) (v : Validated) :
  FileUploadSingle.validate text = inr v ->
  exists header dataLines more,
    nonBlankLines text = header :: dataLines /\
    tail (fields header) = metricNames v /\
    validationErrors v =
      FileUploadSingle.headerCheck (metricNames v) [] ++ more ++
      flat_map (FileUploadSingle.rangeStep []) (dailyData v) /\
    (hasStageColumn (metricNames v) = true ->
     length (dailyData v) =
       length (List.filter (keptRow (fields header)) dataLines) /\
     Forall (fun day : Obj => truthy (day !! "FUNNEL STAGE") = true) (dailyData v)).
Proof.
  unfold FileUploadSingle.validate.
  destruct (nonBlankLines text) as [|header dataLines] eqn:Hlines;
    [simpl; intros H; discriminate H|].
  destruct (length (header :: dataLines) <? 2)%nat; [intros H; discriminate H|].
  destruct (fields header) as [|first names] eqn:Hfields;
    [intros H; discriminate H|].
  destruct (negb (JS.toUpperCase first =? "DATE")%string);
    [intros H; discriminate H|].
  destruct (length names =? 0)%nat; [intros H; discriminate H|].
  destruct (forEachE (FileUploadSingle.rowStep (first :: names) names) dataLines
              ([], FileUploadSingle.headerCheck names [])) as [msg|[dd errs]] eqn:Hloop;
    [intros H; discriminate H|].
  intros H. inversion H; subst v; clear H. cbn [metricNames dailyData validationErrors].
  assert (Hgrow : exists more, errs = FileUploadSingle.headerCheck names [] ++ more /\
            (hasStageColumn names = true ->
             length dd = length (List.filter (keptRow (first :: names)) dataLines) /\
             Forall (fun day : Obj => truthy (day !! "FUNNEL STAGE") = true) dd)).
  { unfold forEachE in Hloop.
    destruct (single_rowLoop_facts first names dataLines 0 []
                (FileUploadSingle.headerCheck names []))
      as (days & more & Hret & Hdays).
    rewrite Hret in Hloop. inversion Hloop; subst dd errs.
    exists more. split; [reflexivity | exact Hdays]. }
  destruct Hgrow as (more & -> & Hdays).
  exists header, dataLines, more. split; [reflexivity|].
  rewrite Hfields. split; [reflexivity|]. split.
  - rewrite single_rangeLoop_app, <- List.app_assoc. reflexivity.
  - exact Hdays.
Qed.

(** X17: in the single-file uploader, under a header with a stage
    column, every data row that is not blank and has as many fields as the
    header becomes a day, also a row without any number, and every day
    holds something under [FUNNEL STAGE]: with a stage column the test
    on [rowHasValidMetricData] drops no row. *)
Theorem X17_every_row_is_a_day (text : string) (v : Validated) :
  FileUploadSingle.validate text = inr v ->
  hasStageColumn (metricNames v) = true ->
  exists header dataLines,
    nonBlankLines text = header :: dataLines /\
    length (dailyData v) = length (List.filter (keptRow (fields header)) dataLines) /\
    forall day : Obj, day ∈ dailyData v -> truthy (day !! "FUNNEL STAGE") = true.
Proof.
  intros Hv Hcol.
  destruct (single_validate_facts text v Hv)
    as (header & dataLines & more & Hlines & _ & _ & Hdays).
  destruct (Hdays Hcol) as [Hlen Hall].
  exists header, dataLines. split; [exact Hlines|]. split; [exact Hlen|].
  intros day Hday. rewrite Forall_forall in Hall. apply Hall, Hday.
Qed.

Lemma X17_witness_stage_only_row :
  let v := singleResultOf stageOnlyContent in
  length (dailyData v) = 7%nat /\
  validationErrors v = [] /\
  map (fun day : Obj => day !! "Ad spent") (drop 6 (dailyData v)) = [Some (VNum 0)] /\
  exists header dataLines,
    nonBlankLines stageOnlyContent = header :: dataLines /\
    length (dailyData v) = length (List.filter (keptRow (fields header)) dataLines).
Proof.
  intros v.
  split; [vm_compute; reflexivity|].
  split; [vm_compute; reflexivity|].
  split; [vm_compute; reflexivity|].
  destruct (X17_every_row_is_a_day stageOnlyContent v)
    as (header & dataLines & H1 & H2 & _).
  - vm_compute. reflexivity.
  - vm_compute. reflexivity.
  - exists header, dataLines. split; assumption.
Defined.

Lemma flat_map_nil {A B : Type} (f : A -> list B) (l : list A) (x : A) :
  flat_map f l = [] -> In x l -> f x = [].
Proof.
  induction l as [|a l IH]; simpl; [intros _ []|].
  intros H [->|Hin]; apply app_eq_nil in H; destruct H as [H1 H2];
    [exact H1 | apply IH; assumption].
Qed.

Lemma validStage_counts (day : Obj) (days : list Obj) :
  validStage day = true ->
  exists stage, (stage = "TOF" \/ stage = "MOF" \/ stage = "BOF") /\
                (1 <= stageDays stage (day :: days))%nat.
Proof.
  unfold validStage. intros H.
  destruct (day !! "FUNNEL STAGE") as [[stage|x]|] eqn:Hd; try discriminate H.
  exists stage. split.
  - unfold FileUploadSingle.isStage in H.
    rewrite !orb_true_iff, !String.eqb_eq in H. tauto.
  - rewrite stageDays_cons. unfold dayOf. rewrite Hd, String.eqb_refl. lia.
Qed.

(** X18: when [parseCSV] of the single-file uploader calls
    [onDataLoaded], it hands over the shots of the aggregation and sets
    [error] to [null]; the header has a stage column and every day
    carries one of the three stages.  The [funnelStage] of every shot is
    then a stage that at least one day of its window carries, unless a
    column of the upload is named [funnelStage]: the shot then holds the
    mean of that column under [funnelStage], and no stage. *)
Theorem X18_shots_of_a_successful_upload (text : string)
    (error : option string) (shotData : list Obj) :
  snd (FileUploadSingle.parseCSV text error) = Some shotData ->
  exists v,
    FileUploadSingle.validate text = inr v /\
    shotData = FileUploadSingle.aggregate (metricNames v) (dailyData v) /\
    fst (FileUploadSingle.parseCSV text error) = None /\
    hasStageColumn (metricNames v) = true /\
    (forall day : Obj, day ∈ dailyData v -> validStage day = true) /\
    (forall j shot,
       shotData !! j = Some shot ->
       exists first rest,
         windowsOf (dailyData v) !! j = Some (first :: rest) /\
         ("funnelStage" ∉ FileUploadSingle.metricsToAverage (metricNames v) ->
          exists p, shot !! "funnelStage" = Some (VStr p) /\
                    (1 <= stageDays p (first :: rest))%nat) /\
         ("funnelStage" ∈ FileUploadSingle.metricsToAverage (metricNames v) ->
          shot !! "funnelStage" =
            Some (VNum (meanOf "funnelStage" (first :: rest))))).
Proof.
  unfold FileUploadSingle.parseCSV, FileUploadSingle.tryBlock.
  destruct (FileUploadSingle.validate text) as [msg|v] eqn:Hv;
    [intros H; discriminate H|].
  destruct (validationErrors v) as [|e errs] eqn:Herrs; [|intros H; discriminate H].
  cbn [length Nat.ltb Nat.leb].
  destruct (length (dailyData v) =? 0)%nat; [intros H; discriminate H|].
  destruct (length (FileUploadSingle.aggregate (metricNames v) (dailyData v)) =? 0)%nat;
    [intros H; discriminate H|].
  cbn [fst snd]. intros H. inversion H; subst shotData; clear H.
  exists v. split; [reflexivity|]. split; [reflexivity|]. split; [reflexivity|].
  destruct (single_validate_facts text v Hv)
    as (header & dataLines & more & Hlines & _ & Hall & _).
  rewrite Herrs in Hall. symmetry in Hall.
  apply app_eq_nil in Hall. destruct Hall as [Hhead Hall].
  apply app_eq_nil in Hall. destruct Hall as [_ Hranges].
  assert (Hvalid : forall day : Obj, day ∈ dailyData v -> validStage day = true).
  { intros day Hday. apply single_rangeStep_stage.
    apply (flat_map_nil _ (dailyData v) day Hranges), list_elem_of_In, Hday. }
  split; [apply single_headerCheck_stage, Hhead|]. split; [exact Hvalid|].
  intros j shot Hshot.
  destruct (single_shot_fields _ _ _ _ Hshot)
    as (first & rest & p & Hw & _ & Hvote & Hp & Hmean & _).
  exists first, rest. split; [exact Hw|]. split.
  - intros Hcol. exists p. split; [apply Hp, Hcol|].
    assert (Hfirst : first ∈ dailyData v).
    { destruct (aggregate_partition (metricNames v) TOF (dailyData v))
        as (_ & _ & Hconcat & _).
      rewrite <- Hconcat. apply list_elem_of_In, in_concat.
      exists (first :: rest). split.
      - apply list_elem_of_In. eapply list_elem_of_lookup_2. exact Hw.
      - left. reflexivity. }
    destruct (validStage_counts first rest (Hvalid first Hfirst))
      as (stage & Hs & Hone).
    destruct (Hvote stage Hs) as [Hle _]. lia.
  - intros Hcol. apply Hmean; [exact Hcol | discriminate].
Qed.

Lemma X18_witness_stage_template :
  exists v,
    FileUploadSingle.validate FileUploadSingle.templateContent = inr v /\
    map (fun shot : Obj => shot !! "funnelStage")
        (FileUploadSingle.aggregate (metricNames v) (dailyData v)) =
      [Some (VStr "TOF"); Some (VStr "BOF")] /\
    hasStageColumn (metricNames v) = true.
Proof.
  destruct (snd (FileUploadSingle.parseCSV FileUploadSingle.templateContent None))
    as [shotData|] eqn:Hs.
  - destruct (X18_shots_of_a_successful_upload FileUploadSingle.templateContent None shotData Hs)
      as (v & Hv & _ & _ & Hcol & _).
    exists v. split; [exact Hv|]. split; [|exact Hcol].
    assert (E : v = singleResultOf FileUploadSingle.templateContent)
      by (unfold singleResultOf; rewrite Hv; reflexivity).
    rewrite E. vm_compute. reflexivity.
  - exfalso.
    assert (H : match snd (FileUploadSingle.parseCSV FileUploadSingle.templateContent None) with
                | Some _ => true
                | None => false
                end = true) by (vm_compute; reflexivity).
    rewrite Hs in H. discriminate H.
Defined.
